(** * Javolution C++ : the OSGi-like service framework

    A shallow embedding of the module/service framework of javolution's
    [core-cpp] sources (namespaces [javolution::internal::osgi],
    [org::osgi::framework], [org::osgi::util::tracker]) together with the
    parts of [javolution::lang], [javolution::log] and [javolution::util]
    they run on.

    Conventions of the embedding

    - A handle [Type::Handle<T>] that the sources assign or test against
      [Type::Null] is an [option]; every other handle is taken non-null.
    - [Type::int32] values are integers in [Z]; the only counter that is
      incremented without bound, the tracker's [_trackingCount], wraps.
    - C++ exceptions are values of [Throwable]; a method that can raise
      returns an [Outcome] (or a sum for the pure collection methods), and
      a [catch (C e)] clause is a test on the class of the raised value.
    - The objects a registry reaches are kept in one [World]: the bundle
      table (a bundle handle is the position of the bundle in [_bundles],
      which only ever grows), the service-reference objects by address
      (they are shared by the bundle table, registrations, events and
      trackers, and mutated in place), and an allocation counter giving
      fresh identities.
    - User code is not part of the sources.  A bundle activator is the
      list of [BundleContext] calls its hooks make, possibly ending in a
      [throw].  A service listener is an identity, the context it holds,
      and for each event the list of [BundleContext] calls its
      [serviceChanged] callback makes on that context, possibly ending in
      a [throw]: a callback may add and remove listeners and register
      services while the event is being delivered.  Every invocation of
      a callback is recorded in [delivered] together with the registry
      as the callback finds it.
    - The loops of the registry read the tables they walk anew at every
      iteration, as the sources do, and callbacks may fire further
      events; such a run need not end.  [OSGiImpl_fireServiceEvent] and
      the methods that reach it take a step budget, which bounds the
      nesting of callbacks and the iterations of each loop: a run that
      exhausts it ends [Unfinished], in the world it had reached.
    - Error logging is enabled, as it is until
      [Logging_API::setLogErrorEnabled] is called. *)

From Stdlib Require Import ZArith String Ascii List Bool Lia.
From stdpp Require Import base option list gmap.

Open Scope string_scope.
Open Scope Z_scope.

(* ================================================================== *)
(** * javolution::lang *)

(** ** String (String.hpp, String.cpp) *)

Definition String_length (s : string) : Z := Z.of_nat (String.length s).

(** [String_API::startsWith(prefix, offset)]: false when the prefix does
    not fit, otherwise a character-by-character comparison. *)
Definition startsWith (this prefix : string) (offset : nat) : bool :=
  if String_length this <? String_length prefix + Z.of_nat offset then false
  else
    forallb
      (fun i =>
         match String.get (i + offset) this, String.get i prefix with
         | Some a, Some b => Ascii.eqb a b
         | _, _ => false
         end)
      (seq 0 (String.length prefix)).

(** ** Throwable and its subclasses

    The handle classes form the hierarchy that C++ [catch] clauses test:
    [class Exception : public Throwable], [class RuntimeException :
    public Exception], and so on. *)

Inductive ThrowableClass : Type :=
| Throwable_class
| Error_class
| Exception_class
| RuntimeException_class
| NullPointerException_class
| IndexOutOfBoundsException_class
| ArrayIndexOutOfBoundsException_class
| UnsupportedOperationException_class
| InvalidSyntaxException_class.

Definition ThrowableClass_eqb (c d : ThrowableClass) : bool :=
  match c, d with
  | Throwable_class, Throwable_class
  | Error_class, Error_class
  | Exception_class, Exception_class
  | RuntimeException_class, RuntimeException_class
  | NullPointerException_class, NullPointerException_class
  | IndexOutOfBoundsException_class, IndexOutOfBoundsException_class
  | ArrayIndexOutOfBoundsException_class, ArrayIndexOutOfBoundsException_class
  | UnsupportedOperationException_class, UnsupportedOperationException_class
  | InvalidSyntaxException_class, InvalidSyntaxException_class => true
  | _, _ => false
  end.

(** The direct base class of each handle class. *)
Definition superclass (c : ThrowableClass) : option ThrowableClass :=
  match c with
  | Throwable_class => None
  | Error_class => Some Throwable_class
  | Exception_class => Some Throwable_class
  | RuntimeException_class => Some Exception_class
  | NullPointerException_class => Some RuntimeException_class
  | IndexOutOfBoundsException_class => Some RuntimeException_class
  | ArrayIndexOutOfBoundsException_class => Some IndexOutOfBoundsException_class
  | UnsupportedOperationException_class => Some RuntimeException_class
  | InvalidSyntaxException_class => Some Exception_class
  end.

Fixpoint derives (depth : nat) (c d : ThrowableClass) : bool :=
  ThrowableClass_eqb c d
  || match depth, superclass c with
     | S depth', Some p => derives depth' p d
     | _, _ => false
     end.

(** [instanceOf c d]: a value thrown with static class [c] is caught by
    [catch (d e)].  The hierarchy is four levels deep. *)
Definition instanceOf (c d : ThrowableClass) : bool := derives 4 c d.

(** The message of a throwable.  The two index messages are built by the
    collection classes from numbers: ["Index: i, List size: n"]
    ([FastTable_API::throwIndexOutOfBoundsException]) and ["Index: i for
    array of Length: ..."] ([Type::Array::operator[]], whose length is
    the capacity of the backing array, which the embedding does not
    track). *)
Inductive Message : Type :=
| NoMessage
| Text (s : string)
| IndexListSize (index size : Z)
| ArrayIndex (index : Z).

Record Throwable : Type := mkThrowable {
  t_class : ThrowableClass;
  t_message : Message
}.

Definition Exception_newInstance (message : string) : Throwable :=
  mkThrowable Exception_class (Text message).

Definition RuntimeException_newInstance (message : string) : Throwable :=
  mkThrowable RuntimeException_class (Text message).

Definition UnsupportedOperationException_newInstance : Throwable :=
  mkThrowable UnsupportedOperationException_class NoMessage.

Definition IndexOutOfBoundsException_newInstance (m : Message) : Throwable :=
  mkThrowable IndexOutOfBoundsException_class m.

(** [Type::Handle::operator->] on a null handle
    ([Type::NullHandle::throwNullPointerException]). *)
Definition NullPointerException_nullHandle : Throwable :=
  mkThrowable NullPointerException_class (Text "Null Handle.").

(** [String_API::substring(beginIndex, endIndex)]. *)
Definition substring (this : string) (beginIndex endIndex : Z)
  : Throwable + string :=
  if beginIndex <? 0 then
    inl (IndexOutOfBoundsException_newInstance (Text "beginIndex is negative"))
  else if endIndex >? String_length this then
    inl (IndexOutOfBoundsException_newInstance
           (Text "endIndex is larger than the length of this String object"))
  else if beginIndex >? endIndex then
    inl (IndexOutOfBoundsException_newInstance
           (Text "beginIndex is larger than endIndex."))
  else
    inr (String.substring (Z.to_nat beginIndex)
                          (Z.to_nat (endIndex - beginIndex)) this).

(* ================================================================== *)
(** * javolution::util::FastTable (FastTable.hpp, AbstractCollection.hpp)

    A table is the list of its [count] first elements; the capacity of
    the backing array is not tracked. *)

Module FastTable.

Section Methods.
Context {E : Type}.

Definition size (this : list E) : Z := Z.of_nat (List.length this).

Definition add (this : list E) (element : E) : list E := this ++ [element].

Definition clear (this : list E) : list E := [].

(** [get(index)]: the table checks [index >= count] only; a negative
    index reaches [elements[index]], whose bounds check raises
    ArrayIndexOutOfBoundsException. *)
Definition get (this : list E) (index : Z) : Throwable + E :=
  if index >=? size this then
    inl (IndexOutOfBoundsException_newInstance (IndexListSize index (size this)))
  else if index <? 0 then
    inl (mkThrowable ArrayIndexOutOfBoundsException_class (ArrayIndex index))
  else
    match this !! Z.to_nat index with
    | Some e => inr e
    | None =>
        inl (IndexOutOfBoundsException_newInstance
               (IndexListSize index (size this)))
    end.

(** [remove(index)]: [get(index)], then shift the tail left. *)
Definition remove (this : list E) (index : Z) : Throwable + (E * list E) :=
  match get this index with
  | inl e => inl e
  | inr previous => inr (previous, delete (Z.to_nat index) this)
  end.

Variable equals : E -> E -> bool.

(** [indexOf(o)]: the first index whose element [o->equals], or -1. *)
Fixpoint indexOf_from (i : Z) (this : list E) (o : E) : Z :=
  match this with
  | [] => -1
  | x :: rest => if equals o x then i else indexOf_from (i + 1) rest o
  end.

Definition indexOf (this : list E) (o : E) : Z := indexOf_from 0 this o.

(** [AbstractCollection_API::remove(element)]: removes the first element
    that [element->equals]; tells whether one was found. *)
Fixpoint removeElement (this : list E) (element : E) : bool * list E :=
  match this with
  | [] => (false, [])
  | x :: rest =>
      if equals element x then (true, rest)
      else let '(found, rest') := removeElement rest element in
           (found, x :: rest')
  end.
End Methods.

End FastTable.

(* ================================================================== *)
(** * org::osgi::framework constants *)

Module Constants.
Definition OBJECTCLASS : string := "objectClass".
End Constants.

Module Bundle.
Definition UNINSTALLED : Z := 1.
Definition INSTALLED : Z := 2.
Definition RESOLVED : Z := 4.
Definition STARTING : Z := 8.
Definition STOPPING : Z := 16.
Definition ACTIVE : Z := 32.
End Bundle.

(* ================================================================== *)
(** * FilterImpl (FilterImpl.hpp) *)

Module FilterImpl.

Record FilterImpl_API : Type := mkFilter {
  _className : string;
  _filterString : string
}.

(** The constructor [FilterImpl_API(filterString)], which
    [BundleContextImpl_API::createFilter] calls. *)
Definition compile (filterString : string) : Throwable + FilterImpl_API :=
  if negb (startsWith filterString Constants.OBJECTCLASS 1) then
    inl UnsupportedOperationException_newInstance
  else
    let classNameStartIndex := String_length Constants.OBJECTCLASS + 2 in
    match substring filterString classNameStartIndex
                    (String_length filterString - 1) with
    | inl e => inl e
    | inr className => inr (mkFilter className filterString)
    end.

(** [match(reference)], on the reference's [_serviceName]. *)
Definition matches (this : FilterImpl_API) (serviceName : string) : bool :=
  String.eqb serviceName (_className this).

(** The shape the filter grammar names: [(objectClass=<value>)]. *)
Definition canonical (value : string) : string :=
  "(" ++ Constants.OBJECTCLASS ++ "=" ++ value ++ ")".

End FilterImpl.

(* ================================================================== *)
(** * Framework objects *)

(** A service object: an opaque [javolution::lang::Object] handle. *)
Definition Object : Type := option nat.

(** ** ServiceEvent (ServiceEvent.hpp) *)

Module ServiceEvent.
Definition REGISTERED : Z := 1.
Definition MODIFIED : Z := 2.
Definition UNREGISTERING : Z := 4.
End ServiceEvent.

(** [_reference] is the address of the service-reference object. *)
Record ServiceEvent_API : Type := mkServiceEvent {
  _type : Z;
  _reference : nat
}.


(** ** BundleContextImpl (BundleContextImpl.hpp)

    [context_id] is the identity of the context object, [ctx_bundle] its
    field [_bundle]. *)
Record BundleContextImpl_API : Type := mkBundleContext {
  context_id : nat;
  ctx_bundle : nat
}.

(** ** BundleActivator and ServiceListener (user code)

    What user code does with a context: a sequence of [BundleContext]
    calls; [CallThrow e] is a [throw e] statement.  An activator hook
    makes its calls on the context it is given.  A listener is the
    identity of the listener object ([Object_API::equals] compares
    addresses), the context it holds, and the calls its [serviceChanged]
    callback makes on that context for each event. *)
Inductive Call : Type :=
| CallRegisterService (serviceName : string) (service : Object)
| CallAddServiceListener (sl : ServiceListener_API) (filter : option string)
| CallRemoveServiceListener (sl : ServiceListener_API)
| CallThrow (e : Throwable)
with ServiceListener_API : Type :=
| mkServiceListener (listener_id : nat)
    (listener_context : option BundleContextImpl_API)
    (serviceChanged : ServiceEvent_API -> list Call).

Definition listener_id (l : ServiceListener_API) : nat :=
  match l with mkServiceListener id _ _ => id end.

Definition listener_context (l : ServiceListener_API)
  : option BundleContextImpl_API :=
  match l with mkServiceListener _ context _ => context end.

Definition serviceChanged (l : ServiceListener_API)
  : ServiceEvent_API -> list Call :=
  match l with mkServiceListener _ _ callback => callback end.

Definition ServiceListener_equals (a b : ServiceListener_API) : bool :=
  Nat.eqb (listener_id a) (listener_id b).

(** ** ServiceReferenceImpl (ServiceReferenceImpl.hpp)

    [ref_bundle] is the field [_bundle]: the handle of the owning bundle,
    [None] once it has been set to [Type::Null]. *)
Record ServiceReferenceImpl_API : Type := mkServiceReference {
  ref_bundle : option nat;
  _serviceName : string;
  _service : Object
}.

(** ** ServiceRegistrationImpl (ServiceRegistrationImpl.hpp) *)
Record ServiceRegistrationImpl_API : Type := mkServiceRegistration {
  _serviceReference : nat
}.

Record BundleActivator_API : Type := mkBundleActivator {
  activator_id : nat;
  start_hook : list Call;
  stop_hook : list Call
}.

(** ** BundleImpl (BundleImpl.hpp) *)
Record BundleImpl_API : Type := mkBundle {
  _symbolicName : string;
  _activator : BundleActivator_API;
  _state : Z;
  _serviceReferences : list nat;
  _serviceListeners : list ServiceListener_API;
  _serviceListenerFilters : list (option string);
  _context : option BundleContextImpl_API
}.

(** The constructor [BundleImpl_API(osgi, symbolicName, activator)]. *)
Definition BundleImpl_new (symbolicName : string)
  (activator : BundleActivator_API) : BundleImpl_API :=
  mkBundle symbolicName activator Bundle.RESOLVED [] [] [] None.

(** ** The registry and the objects it reaches *)

Record Memory : Type := mkMemory {
  _bundles : list BundleImpl_API;            (* OSGiImpl_API::_bundles *)
  references : list ServiceReferenceImpl_API; (* reference objects, by address *)
  contexts : nat                              (* context objects constructed *)
}.

(** One invocation of [listener->serviceChanged(event)], with the
    registry as it stood when the callback ran. *)
Record Delivery : Type := mkDelivery {
  d_listener : ServiceListener_API;
  d_event : ServiceEvent_API;
  d_seen : Memory
}.

Record World : Type := mkWorld {
  memory : Memory;
  delivered : list Delivery;   (* listener invocations, oldest first *)
  logged : list Throwable      (* Logging_API::error, oldest first *)
}.

(** [OSGiImpl_API()]: a registry without bundles. *)
Definition OSGiImpl_new : World := mkWorld (mkMemory [] [] 0) [] [].

(* ================================================================== *)
(** * Methods as state transformers that may raise

    A call returns, raises, or is cut off when the step budget is
    exhausted; in each case the world it reached is kept. *)

Inductive Outcome (A : Type) : Type :=
| Returned (a : A) (w : World)
| Thrown (e : Throwable) (w : World)
| Unfinished (w : World).

Arguments Returned {A} a w.
Arguments Thrown {A} e w.
Arguments Unfinished {A} w.

Definition M (A : Type) : Type := World -> Outcome A.

Definition ret {A : Type} (a : A) : M A := fun w => Returned a w.

Definition bind {A B : Type} (m : M A) (k : A -> M B) : M B :=
  fun w =>
    match m w with
    | Returned a w' => k a w'
    | Thrown e w' => Thrown e w'
    | Unfinished w' => Unfinished w'
    end.

Definition throw {A : Type} (e : Throwable) : M A := fun w => Thrown e w.

(** The step budget is exhausted. *)
Definition unfinished {A : Type} : M A := fun w => Unfinished w.

(** [try { body } catch (C error) { handler }]. *)
Definition try_catch {A : Type} (body : M A) (C : ThrowableClass)
  (handler : Throwable -> M A) : M A :=
  fun w =>
    match body w with
    | Returned a w' => Returned a w'
    | Thrown e w' =>
        if instanceOf (t_class e) C then handler e w' else Thrown e w'
    | Unfinished w' => Unfinished w'
    end.

Declare Scope method_scope.
Delimit Scope method_scope with method.
Notation "x <- c1 ;; c2" := (bind c1 (fun x => c2))
  (at level 100, c1 at next level, right associativity) : method_scope.
Notation "c1 ;; c2" := (bind c1 (fun _ => c2))
  (at level 100, right associativity) : method_scope.
Open Scope method_scope.

Definition lift {A : Type} (r : Throwable + A) : M A :=
  match r with
  | inl e => throw e
  | inr a => ret a
  end.

(** ** Access to the objects *)

Definition set_bundles (bs : list BundleImpl_API) (m : Memory) : Memory :=
  mkMemory bs (references m) (contexts m).

Definition set_references (rs : list ServiceReferenceImpl_API) (m : Memory)
  : Memory :=
  mkMemory (_bundles m) rs (contexts m).

Definition set_memory (m : Memory) (w : World) : World :=
  mkWorld m (delivered w) (logged w).

(** [bundle->...]: dereferences a bundle handle. *)
Definition the_bundle (b : nat) : M BundleImpl_API :=
  fun w =>
    match _bundles (memory w) !! b with
    | Some this => Returned this w
    | None => Thrown NullPointerException_nullHandle w
    end.

(** [serviceReference->...]: dereferences a reference handle. *)
Definition the_reference (r : nat) : M ServiceReferenceImpl_API :=
  fun w =>
    match references (memory w) !! r with
    | Some this => Returned this w
    | None => Thrown NullPointerException_nullHandle w
    end.

(** Field assignments on the bundle [b]. *)
Definition update_bundle (b : nat) (f : BundleImpl_API -> BundleImpl_API)
  : M unit :=
  this <- the_bundle b ;;
  fun w => Returned tt
    (set_memory (set_bundles (<[b := f this]> (_bundles (memory w))) (memory w)) w).

Definition with_state (s : Z) (this : BundleImpl_API) : BundleImpl_API :=
  mkBundle (_symbolicName this) (_activator this) s (_serviceReferences this)
    (_serviceListeners this) (_serviceListenerFilters this) (_context this).

Definition with_serviceReferences (rs : list nat) (this : BundleImpl_API)
  : BundleImpl_API :=
  mkBundle (_symbolicName this) (_activator this) (_state this) rs
    (_serviceListeners this) (_serviceListenerFilters this) (_context this).

Definition with_serviceListeners (ls : list ServiceListener_API)
  (this : BundleImpl_API) : BundleImpl_API :=
  mkBundle (_symbolicName this) (_activator this) (_state this)
    (_serviceReferences this) ls (_serviceListenerFilters this) (_context this).

Definition with_serviceListenerFilters (fs : list (option string))
  (this : BundleImpl_API) : BundleImpl_API :=
  mkBundle (_symbolicName this) (_activator this) (_state this)
    (_serviceReferences this) (_serviceListeners this) fs (_context this).

Definition with_context (c : option BundleContextImpl_API)
  (this : BundleImpl_API) : BundleImpl_API :=
  mkBundle (_symbolicName this) (_activator this) (_state this)
    (_serviceReferences this) (_serviceListeners this)
    (_serviceListenerFilters this) c.

(** [serviceReference->_bundle = Type::Null]. *)
Definition clear_ref_bundle (r : nat) : M unit :=
  this <- the_reference r ;;
  fun w => Returned tt
    (set_memory
       (set_references
          (<[r := mkServiceReference None (_serviceName this) (_service this)]>
             (references (memory w)))
          (memory w))
       w).

(** [Logging_API::error(L"JAVOLUTION", error)] (Logging.cpp).  The
    line is written with [std::wcout << ... << thrown], which streams
    [thrown->toString()->toWString()]; [Throwable_API::toString()] is the
    message, so for a throwable without message the [->] is applied to a
    null handle and raises a NullPointerException before the throwable
    is written. *)
Definition Logging_error (error : Throwable) : M unit :=
  match t_message error with
  | NoMessage => throw NullPointerException_nullHandle
  | _ =>
      fun w =>
        Returned tt (mkWorld (memory w) (delivered w) (logged w ++ [error]))
  end.

(* ================================================================== *)
(** * BundleContextImpl, callbacks and OSGiImpl::fireServiceEvent
      (BundleContextImpl.hpp, OSGiImpl.cpp)

    A context reaches the registry through its field [_osgi]; so does
    every callback that holds a context.  The methods of this section
    are written over [_osgi->fireServiceEvent]. *)

(** [String_API::equals(that)]: a null [that] is never equal. *)
Definition String_equals (this : string) (that : option string) : bool :=
  match that with
  | None => false
  | Some s => String.eqb this s
  end.

Definition BundleContextImpl_addServiceListener (this : BundleContextImpl_API)
  (sl : ServiceListener_API) (filter : option string) : M unit :=
  update_bundle (ctx_bundle this)
    (fun b => with_serviceListeners (FastTable.add (_serviceListeners b) sl) b) ;;
  update_bundle (ctx_bundle this)
    (fun b => with_serviceListenerFilters
                (FastTable.add (_serviceListenerFilters b) filter) b).

Definition BundleContextImpl_removeServiceListener (this : BundleContextImpl_API)
  (sl : ServiceListener_API) : M unit :=
  bundle <- the_bundle (ctx_bundle this) ;;
  let index :=
    FastTable.indexOf ServiceListener_equals (_serviceListeners bundle) sl in
  removed <- lift (FastTable.remove (_serviceListeners bundle) index) ;;
  update_bundle (ctx_bundle this) (with_serviceListeners (snd removed)) ;;
  bundle <- the_bundle (ctx_bundle this) ;;
  removed <- lift (FastTable.remove (_serviceListenerFilters bundle) index) ;;
  update_bundle (ctx_bundle this) (with_serviceListenerFilters (snd removed)).

(** [new ServiceReferenceImpl_API(bundle, serviceName, service)]: the new
    object gets the next free address. *)
Definition ServiceReferenceImpl_new (bundle : nat) (serviceName : string)
  (service : Object) : M nat :=
  fun w =>
    let m := memory w in
    Returned (List.length (references m))
      (set_memory
         (set_references
            (references m ++ [mkServiceReference (Some bundle) serviceName service])
            m)
         w).

(** [ctx->...] in user code: the context handle may be null. *)
Definition the_context (ctx : option BundleContextImpl_API)
  : M BundleContextImpl_API :=
  match ctx with
  | Some this => ret this
  | None => throw NullPointerException_nullHandle
  end.

(** [_bundles->get(i)]: the handle of the bundle at index [i]. *)
Definition OSGiImpl_bundles_get (i : Z) : M nat :=
  fun w =>
    match FastTable.get (_bundles (memory w)) i with
    | inl e => Thrown e w
    | inr _ => Returned (Z.to_nat i) w
    end.

Section Registry.

(** [_osgi->fireServiceEvent(serviceEvent)], as contexts and callbacks
    reach it. *)
Variable fireServiceEvent : ServiceEvent_API -> M unit.

Definition BundleContextImpl_registerService (this : BundleContextImpl_API)
  (serviceName : string) (service : Object) : M ServiceRegistrationImpl_API :=
  serviceReference <- ServiceReferenceImpl_new (ctx_bundle this) serviceName service ;;
  update_bundle (ctx_bundle this)
    (fun b => with_serviceReferences
                (FastTable.add (_serviceReferences b) serviceReference) b) ;;
  fireServiceEvent (mkServiceEvent ServiceEvent.REGISTERED serviceReference) ;;
  ret (mkServiceRegistration serviceReference).

(** One statement of user code, on the context [ctx]. *)
Definition perform (ctx : option BundleContextImpl_API) (c : Call) : M unit :=
  match c with
  | CallRegisterService serviceName service =>
      this <- the_context ctx ;;
      BundleContextImpl_registerService this serviceName service ;;
      ret tt
  | CallAddServiceListener sl filter =>
      this <- the_context ctx ;;
      BundleContextImpl_addServiceListener this sl filter
  | CallRemoveServiceListener sl =>
      this <- the_context ctx ;;
      BundleContextImpl_removeServiceListener this sl
  | CallThrow e => throw e
  end.

Fixpoint run_hook (ctx : option BundleContextImpl_API) (calls : list Call)
  : M unit :=
  match calls with
  | [] => ret tt
  | c :: rest => perform ctx c ;; run_hook ctx rest
  end.

(** [_activator->start(_context)] and [_activator->stop(_context)]. *)
Definition BundleActivator_start (activator : BundleActivator_API)
  (ctx : option BundleContextImpl_API) : M unit :=
  run_hook ctx (start_hook activator).

Definition BundleActivator_stop (activator : BundleActivator_API)
  (ctx : option BundleContextImpl_API) : M unit :=
  run_hook ctx (stop_hook activator).

(** [listener->serviceChanged(serviceEvent)]: the invocation is
    recorded, then the callback runs. *)
Definition invoke (listener : ServiceListener_API) (serviceEvent : ServiceEvent_API)
  : M unit :=
  (fun w =>
     Returned tt
       (mkWorld (memory w)
          (delivered w ++ [mkDelivery listener serviceEvent (memory w)])
          (logged w))) ;;
  run_hook (listener_context listener) (serviceChanged listener serviceEvent).

(** The inner loop of [fireServiceEvent],
    [for (j = ...; j < bundle->_serviceListenerFilters->size(); j++)],
    entered at index [j]; [n] bounds the iterations.  The two tables of
    the bundle are read at every iteration. *)
Fixpoint notify_listeners (n : nat) (serviceEvent : ServiceEvent_API)
  (filter : string) (bundle : nat) (j : Z) : M unit :=
  this <- the_bundle bundle ;;
  if j <? FastTable.size (_serviceListenerFilters this) then
    match n with
    | O => unfinished
    | S n' =>
        stored <- lift (FastTable.get (_serviceListenerFilters this) j) ;;
        (if String_equals filter stored then
           listener <- lift (FastTable.get (_serviceListeners this) j) ;;
           invoke listener serviceEvent
         else ret tt) ;;
        notify_listeners n' serviceEvent filter bundle (j + 1)
    end
  else ret tt.

(** The outer loop, [for (i = ...; i < _bundles->size(); i++)], entered
    at index [i]; [n] bounds its iterations and [budget] those of each
    inner loop. *)
Fixpoint notify_bundles (budget n : nat) (serviceEvent : ServiceEvent_API)
  (filter : string) (i : Z) : M unit :=
  fun w =>
    if i <? FastTable.size (_bundles (memory w)) then
      match n with
      | O => Unfinished w
      | S n' =>
          (bundle <- OSGiImpl_bundles_get i ;;
           notify_listeners budget serviceEvent filter bundle 0 ;;
           notify_bundles budget n' serviceEvent filter (i + 1)) w
      end
    else Returned tt w.

(** The body of [OSGiImpl_API::fireServiceEvent]; callbacks reach the
    registry through [fireServiceEvent]. *)
Definition fireServiceEvent_body (budget : nat) (serviceEvent : ServiceEvent_API)
  : M unit :=
  serviceReference <- the_reference (_reference serviceEvent) ;;
  let serviceName := _serviceName serviceReference in
  let filter := "(" ++ Constants.OBJECTCLASS ++ "=" ++ serviceName ++ ")" in
  notify_bundles budget budget serviceEvent filter 0.

End Registry.

(** [OSGiImpl_API::fireServiceEvent(serviceEvent)] with the step budget
    [fuel]: the loops make at most [fuel] iterations each, and a callback
    that fires an event does so with the budget [fuel - 1]. *)
Fixpoint OSGiImpl_fireServiceEvent (fuel : nat) (serviceEvent : ServiceEvent_API)
  : M unit :=
  match fuel with
  | O => unfinished
  | S fuel' =>
      fireServiceEvent_body (OSGiImpl_fireServiceEvent fuel') (S fuel')
        serviceEvent
  end.

(* ================================================================== *)
(** * BundleImpl (BundleImpl.hpp) *)

(** The loop of [unregisterServices],
    [for (i = ...; i < _serviceReferences->size(); i++)], entered at
    index [i]; [n] bounds the iterations.  The table is read at every
    iteration. *)
Fixpoint unregister_each (fuel n : nat) (b : nat) (i : Z) : M unit :=
  this <- the_bundle b ;;
  if i <? FastTable.size (_serviceReferences this) then
    match n with
    | O => unfinished
    | S n' =>
        serviceReference <- lift (FastTable.get (_serviceReferences this) i) ;;
        OSGiImpl_fireServiceEvent fuel
          (mkServiceEvent ServiceEvent.UNREGISTERING serviceReference) ;;
        clear_ref_bundle serviceReference ;;
        unregister_each fuel n' b (i + 1)
    end
  else ret tt.

Definition BundleImpl_unregisterServices (fuel : nat) (b : nat) : M unit :=
  unregister_each fuel fuel b 0 ;;
  update_bundle b
    (fun this => with_serviceReferences
                   (FastTable.clear (_serviceReferences this)) this).

Definition BundleImpl_unregisterListeners (b : nat) : M unit :=
  update_bundle b
    (fun this => with_serviceListeners
                   (FastTable.clear (_serviceListeners this)) this) ;;
  update_bundle b
    (fun this => with_serviceListenerFilters
                   (FastTable.clear (_serviceListenerFilters this)) this).

(** The [catch (Exception error)] block of [start()]. *)
Definition BundleImpl_start_catch (fuel : nat) (b : nat) (symbolicName : string)
  : M unit :=
  update_bundle b (with_state Bundle.STOPPING) ;;
  BundleImpl_unregisterServices fuel b ;;
  BundleImpl_unregisterListeners b ;;
  update_bundle b (with_state Bundle.RESOLVED) ;;
  update_bundle b (with_context None) ;;
  throw (Exception_newInstance ("Cannot start bundle " ++ symbolicName)).

Definition BundleImpl_start (fuel : nat) (b : nat) : M unit :=
  this <- the_bundle b ;;
  if negb (_state this =? Bundle.RESOLVED) then
    throw (Exception_newInstance
             ("Bundle " ++ _symbolicName this ++ " not in a resolved state"))
  else
    update_bundle b (with_state Bundle.STARTING) ;;
    try_catch
      (this <- the_bundle b ;;
       BundleActivator_start (OSGiImpl_fireServiceEvent fuel) (_activator this)
         (_context this) ;;
       update_bundle b (with_state Bundle.ACTIVE))
      Exception_class
      (fun error => BundleImpl_start_catch fuel b (_symbolicName this)).

(** [throw error] where [error] was declared [Exception error]: the value
    raised has the static class of the variable. *)
Definition rethrow_as (C : ThrowableClass) (error : Throwable) : M unit :=
  throw (mkThrowable C (t_message error)).

Definition BundleImpl_stop (fuel : nat) (b : nat) : M unit :=
  this <- the_bundle b ;;
  if negb (_state this =? Bundle.ACTIVE) then ret tt
  else
    update_bundle b (with_state Bundle.STOPPING) ;;
    error <- try_catch
               (this <- the_bundle b ;;
                BundleActivator_stop (OSGiImpl_fireServiceEvent fuel)
                  (_activator this) (_context this) ;;
                ret None)
               Exception_class
               (fun e => ret (Some e)) ;;
    BundleImpl_unregisterServices fuel b ;;
    BundleImpl_unregisterListeners b ;;
    update_bundle b (with_state Bundle.RESOLVED) ;;
    match error with
    | Some e => rethrow_as Exception_class e
    | None => ret tt
    end.

(* ================================================================== *)
(** * OSGiImpl (OSGiImpl.cpp) *)

(** The scan of [getBundle]: [i] is the index of the head of [bundles]. *)
Fixpoint getBundle_from (i : nat) (bundles : list BundleImpl_API)
  (symbolicName : string) : option nat :=
  match bundles with
  | [] => None
  | bundle :: rest =>
      if String.eqb (_symbolicName bundle) symbolicName then Some i
      else getBundle_from (S i) rest symbolicName
  end.

Definition getBundle (m : Memory) (symbolicName : string) : option nat :=
  getBundle_from 0 (_bundles m) symbolicName.

Definition OSGiImpl_getBundle (symbolicName : string) : M (option nat) :=
  fun w => Returned (getBundle (memory w) symbolicName) w.

(** [bundle = new BundleImpl_API(this, symbolicName, activator);
    _bundles->add(bundle)]. *)
Definition OSGiImpl_addBundle (symbolicName : string)
  (activator : BundleActivator_API) : M nat :=
  fun w =>
    let m := memory w in
    Returned (List.length (_bundles m))
      (set_memory
         (set_bundles
            (FastTable.add (_bundles m) (BundleImpl_new symbolicName activator)) m)
         w).

(** [new BundleContextImpl_API(this, bundle)]. *)
Definition BundleContextImpl_new (bundle : nat) : M BundleContextImpl_API :=
  fun w =>
    let m := memory w in
    Returned (mkBundleContext (contexts m) bundle)
      (set_memory (mkMemory (_bundles m) (references m) (S (contexts m))) w).

(** The [try] block of [OSGiImpl_API::start]. *)
Definition OSGiImpl_start_body (fuel : nat) (symbolicName : string)
  (activator : BundleActivator_API) : M unit :=
  found <- OSGiImpl_getBundle symbolicName ;;
  bundle <- match found with
            | Some b => ret b
            | None => OSGiImpl_addBundle symbolicName activator
            end ;;
  context <- BundleContextImpl_new bundle ;;
  update_bundle bundle (with_context (Some context)) ;;
  BundleImpl_start fuel bundle.

Definition OSGiImpl_start (fuel : nat) (symbolicName : string)
  (activator : BundleActivator_API) : M unit :=
  try_catch (OSGiImpl_start_body fuel symbolicName activator)
    Throwable_class Logging_error.

(** The [try] block of [OSGiImpl_API::stop]. *)
Definition OSGiImpl_stop_body (fuel : nat) (symbolicName : string) : M unit :=
  found <- OSGiImpl_getBundle symbolicName ;;
  match found with
  | None => throw (Exception_newInstance ("Cannot find bundle " ++ symbolicName))
  | Some bundle =>
      BundleImpl_stop fuel bundle ;;
      update_bundle bundle (with_context None)
  end.

Definition OSGiImpl_stop (fuel : nat) (symbolicName : string) : M unit :=
  try_catch (OSGiImpl_stop_body fuel symbolicName) Throwable_class Logging_error.

(* ================================================================== *)
(** * ServiceRegistrationImpl::unregister (ServiceRegistrationImpl.hpp)

    The owning bundle is reached through
    [Type::dynamic_handle_cast<BundleImpl_API>(_serviceReference->_bundle)],
    a plain [BundleImpl_API*]: when [_bundle] is null the member access
    goes through a null pointer, which no handle check intercepts.  The
    result is [None] in that case: the call has no defined behaviour,
    and it has none before anything is fired or removed. *)
(** [_serviceReference->_bundle], cast to a [BundleImpl_API*] and
    dereferenced. *)
Definition the_owner (r : nat) (w : World) : option (Outcome nat) :=
  match references (memory w) !! r with
  | None => Some (Thrown NullPointerException_nullHandle w)
  | Some serviceReference =>
      match ref_bundle serviceReference with
      | None => None
      | Some b => Some (Returned b w)
      end
  end.

Definition ServiceRegistrationImpl_unregister (fuel : nat)
  (this : ServiceRegistrationImpl_API) (w : World) : option (Outcome unit) :=
  let r := _serviceReference this in
  match the_owner r w with
  | None => None
  | Some (Thrown e w') => Some (Thrown e w')
  | Some (Unfinished w') => Some (Unfinished w')
  | Some (Returned _ _) =>
      match OSGiImpl_fireServiceEvent fuel
              (mkServiceEvent ServiceEvent.UNREGISTERING r) w with
      | Thrown e w1 => Some (Thrown e w1)
      | Unfinished w1 => Some (Unfinished w1)
      | Returned _ w1 =>
          match the_owner r w1 with
          | None => None
          | Some (Thrown e w') => Some (Thrown e w')
          | Some (Unfinished w') => Some (Unfinished w')
          | Some (Returned b _) =>
              Some
                ((update_bundle b
                    (fun bundle =>
                       with_serviceReferences
                         (snd (FastTable.removeElement Nat.eqb
                                 (_serviceReferences bundle) r))
                         bundle) ;;
                  clear_ref_bundle r) w1)
          end
      end
  end.

(* ================================================================== *)
(** * ServiceTracker (ServiceTracker.hpp, ServiceTracker.cpp)

    The tracker's own state.  [_trackedServices] is the
    [FastMap<ServiceReference, Object>], keyed by the address of the
    reference ([Object_API::equals]); a key may be mapped to the null
    object.  The customizer is user code: each hook is what it answers,
    or the throwable it raises.  [notified] records every call made to
    the customizer together with the tracker's fields at that moment. *)

Module ServiceTracker.

Record ServiceTrackerCustomizer_API : Type := mkCustomizer {
  addingService : nat -> Throwable + Object;
  modifiedService : nat -> Object -> option Throwable;
  removedService : nat -> Object -> option Throwable
}.

Inductive CustomizerCall : Type :=
| AddingService (serviceReference : nat)
| ModifiedService (serviceReference : nat) (service : Object)
| RemovedService (serviceReference : nat) (service : Object).

Record Notification : Type := mkNotification {
  n_call : CustomizerCall;
  n_trackedServices : gmap nat Object;
  n_cachedService : Object;
  n_trackingCount : Z
}.

Record ServiceTracker_API : Type := mkTracker {
  _customizer : ServiceTrackerCustomizer_API;
  _trackedServices : gmap nat Object;
  _trackingCount : Z;
  _cachedService : Object;
  notified : list Notification
}.

(** [Type::int32] arithmetic: the value of [z] in 32 bits, two's
    complement. *)
Definition int32 (z : Z) : Z := (z + 2 ^ 31) mod 2 ^ 32 - 2 ^ 31.

(** [FastMap_API::get(key)]: the value, or [Type::Null] when the map has
    no mapping for the key. *)
Definition FastMap_get (m : gmap nat Object) (key : nat) : Object :=
  match m !! key with
  | Some value => value
  | None => None
  end.

(** [ServiceTracker_API::getService(serviceReference)]. *)
Definition getService (this : ServiceTracker_API) (serviceReference : nat)
  : Object :=
  FastMap_get (_trackedServices this) serviceReference.

Definition notify (call : CustomizerCall) (this : ServiceTracker_API)
  : ServiceTracker_API :=
  mkTracker (_customizer this) (_trackedServices this) (_trackingCount this)
    (_cachedService this)
    (notified this
       ++ [mkNotification call (_trackedServices this) (_cachedService this)
             (_trackingCount this)]).

Definition with_trackedServices (m : gmap nat Object)
  (this : ServiceTracker_API) : ServiceTracker_API :=
  mkTracker (_customizer this) m (_trackingCount this) (_cachedService this)
    (notified this).

Definition with_cachedService (service : Object) (this : ServiceTracker_API)
  : ServiceTracker_API :=
  mkTracker (_customizer this) (_trackedServices this) (_trackingCount this)
    service (notified this).

(** [_trackingCount++]. *)
Definition increment_trackingCount (this : ServiceTracker_API)
  : ServiceTracker_API :=
  mkTracker (_customizer this) (_trackedServices this)
    (int32 (_trackingCount this + 1)) (_cachedService this) (notified this).

(** [ServiceListenerImpl::serviceChanged(serviceEvent)]: the throwable
    raised, if any, and the tracker afterwards. *)
Definition serviceChanged (this : ServiceTracker_API)
  (serviceEvent : ServiceEvent_API) : option Throwable * ServiceTracker_API :=
  let serviceReference := _reference serviceEvent in
  if _type serviceEvent =? ServiceEvent.REGISTERED then
    let this := notify (AddingService serviceReference) this in
    match addingService (_customizer this) serviceReference with
    | inl e => (Some e, this)
    | inr service =>
        let this :=
          with_trackedServices
            (<[serviceReference := service]> (_trackedServices this)) this in
        let this := with_cachedService service this in
        (None, increment_trackingCount this)
    end
  else if _type serviceEvent =? ServiceEvent.MODIFIED then
    let this := with_cachedService None this in
    let this := increment_trackingCount this in
    let service := getService this serviceReference in
    let this := notify (ModifiedService serviceReference service) this in
    (modifiedService (_customizer this) serviceReference service, this)
  else if _type serviceEvent =? ServiceEvent.UNREGISTERING then
    let this :=
      with_trackedServices (delete serviceReference (_trackedServices this))
        this in
    let this := with_cachedService None this in
    let this := increment_trackingCount this in
    let service := getService this serviceReference in
    let this := notify (RemovedService serviceReference service) this in
    (removedService (_customizer this) serviceReference service, this)
  else
    (Some (RuntimeException_newInstance "Unknown service event"), this).

End ServiceTracker.

(* ================================================================== *)
(** * Notions used to state the properties *)

(** The world an outcome leaves behind, however the call ended. *)
Definition world_after {A : Type} (o : Outcome A) : World :=
  match o with
  | Returned _ w => w
  | Thrown _ w => w
  | Unfinished w => w
  end.

(** A method ends in the world [w], returning or raising as [r] says. *)
Definition finish (r : option Throwable) (w : World) : Outcome unit :=
  match r with
  | None => Returned tt w
  | Some e => Thrown e w
  end.

(** ** Event delivery, in the words of the specification *)

(** The listeners of one bundle whose stored filter string equals
    [filter], in registration order. *)
Fixpoint select (filter : string) (listeners : list ServiceListener_API)
  (filters : list (option string)) : list ServiceListener_API :=
  match listeners, filters with
  | l :: ls, f :: fs =>
      if String_equals filter f then l :: select filter ls fs
      else select filter ls fs
  | _, _ => []
  end.

(** The same over every bundle, in registry order. *)
Definition subscribers (filter : string) (bundles : list BundleImpl_API)
  : list ServiceListener_API :=
  flat_map
    (fun bundle =>
       select filter (_serviceListeners bundle) (_serviceListenerFilters bundle))
    bundles.

(** What user code does when it ends before any call on the registry:
    it returns ([Some None]) or raises ([Some (Some e)]); [None] when its
    first statement is a call on the registry. *)
Definition at_once (calls : list Call) : option (option Throwable) :=
  match calls with
  | [] => Some None
  | CallThrow e :: _ => Some (Some e)
  | _ => None
  end.

(** The callback of [l] makes no call on the registry for the event. *)
Definition passive (serviceEvent : ServiceEvent_API) (l : ServiceListener_API)
  : Prop :=
  at_once (serviceChanged l serviceEvent) <> None.

(** The throwable that the callback of [l] raises at once, if any. *)
Definition raised (serviceEvent : ServiceEvent_API) (l : ServiceListener_API)
  : option Throwable :=
  match at_once (serviceChanged l serviceEvent) with
  | Some r => r
  | None => None
  end.

(** The listeners of [ls] that are invoked when callbacks may raise: all
    of them up to and including the first whose callback raises. *)
Fixpoint until_raise (serviceEvent : ServiceEvent_API)
  (ls : list ServiceListener_API)
  : list ServiceListener_API * option Throwable :=
  match ls with
  | [] => ([], None)
  | l :: rest =>
      match raised serviceEvent l with
      | Some e => ([l], Some e)
      | None =>
          let '(invoked, r) := until_raise serviceEvent rest in
          (l :: invoked, r)
      end
  end.

(** The world after [serviceEvent] was handed to each listener of [ls]. *)
Definition record (serviceEvent : ServiceEvent_API)
  (ls : list ServiceListener_API) (w : World) : World :=
  mkWorld (memory w)
    (delivered w ++ map (fun l => mkDelivery l serviceEvent (memory w)) ls)
    (logged w).

(** The interface name of the reference at address [r]. *)
Definition serviceName_of (m : Memory) (r : nat) : string :=
  match references m !! r with
  | Some serviceReference => _serviceName serviceReference
  | None => ""
  end.

(** What a listener was handed: the listener and the event. *)
Definition d_pair (d : Delivery) : ServiceListener_API * ServiceEvent_API :=
  (d_listener d, d_event d).

(** The UNREGISTERING notifications owed for the references [rs]. *)
Definition unregistering (m : Memory) (rs : list nat)
  : list (ServiceListener_API * ServiceEvent_API) :=
  flat_map
    (fun r =>
       map (fun l => (l, mkServiceEvent ServiceEvent.UNREGISTERING r))
         (subscribers (FilterImpl.canonical (serviceName_of m r)) (_bundles m)))
    rs.

(** The callback returns from the notification without a call on the
    registry. *)
Definition returns_at_once (p : ServiceListener_API * ServiceEvent_API) : Prop :=
  serviceChanged (fst p) (snd p) = [].

(** When the delivery [d] was made, the bundle [b] still listed the
    reference of the event in its table. *)
Definition still_listed (b : nat) (d : Delivery) : Prop :=
  exists bundle,
    _bundles (d_seen d) !! b = Some bundle
    /\ _reference (d_event d) ∈ _serviceReferences bundle.

(** When the delivery was made, its listener was held in a slot of some
    bundle whose filter string was [(objectClass=<interfaceName>)], for
    the interface name of the event's reference. *)
Definition selected (d : Delivery) : Prop :=
  exists (b : nat) (bundle : BundleImpl_API) (j : nat),
    _bundles (d_seen d) !! b = Some bundle
    /\ _serviceListeners bundle !! j = Some (d_listener d)
    /\ _serviceListenerFilters bundle !! j
       = Some (Some (FilterImpl.canonical
                       (serviceName_of (d_seen d) (_reference (d_event d))))).

(** Every reference object of [m] is one of [m'], under the same
    interface name. *)
Definition names_kept (m m' : Memory) : Prop :=
  forall r serviceReference,
    references m !! r = Some serviceReference ->
    exists serviceReference',
      references m' !! r = Some serviceReference'
      /\ _serviceName serviceReference' = _serviceName serviceReference.

(** The deliveries made since [pre] were all selected by a filter, and
    the references of [m0] have kept their names. *)
Definition exact (pre : list Delivery) (m0 : Memory) (w : World) : Prop :=
  (exists ds, delivered w = (pre ++ ds)%list /\ Forall selected ds)
  /\ names_kept m0 (memory w).

(** The tables of the registry are shorter than the step budget. *)
Definition within (fuel : nat) (m : Memory) : Prop :=
  (List.length (_bundles m) < fuel)%nat
  /\ Forall
       (fun bundle =>
          (List.length (_serviceListenerFilters bundle) < fuel)%nat
          /\ (List.length (_serviceReferences bundle) < fuel)%nat)
       (_bundles m).

(** ** Invariants of the registry *)

Section Invariant.

(** [P sl filter]: the pair was handed to [addServiceListener] together. *)
Variable P : ServiceListener_API -> option string -> Prop.

Definition call_ok (c : Call) : Prop :=
  match c with
  | CallAddServiceListener sl filter => P sl filter
  | _ => True
  end.

Definition bundle_ok (m : Memory) (bundle : BundleImpl_API) : Prop :=
  Forall2 P (_serviceListeners bundle) (_serviceListenerFilters bundle)
  /\ Forall call_ok (start_hook (_activator bundle))
  /\ Forall call_ok (stop_hook (_activator bundle))
  /\ Forall (fun r => (r < List.length (references m))%nat)
       (_serviceReferences bundle)
  /\ (forall c, _context bundle = Some c -> (context_id c < contexts m)%nat).

Definition wf (m : Memory) : Prop := Forall (bundle_ok m) (_bundles m).

(** The calls that the callback of a listener satisfying [P] makes
    satisfy [P] in turn. *)
Definition closed : Prop :=
  forall l stored serviceEvent,
    P l stored -> Forall call_ok (serviceChanged l serviceEvent).

End Invariant.

(** The two listener tables of a bundle run in lock step. *)
Definition aligned (bundle : BundleImpl_API) : Prop :=
  List.length (_serviceListeners bundle)
  = List.length (_serviceListenerFilters bundle).

(** ** Sequences of operations on a registry *)

Inductive Operation : Type :=
| OpStart (symbolicName : string) (activator : BundleActivator_API)
| OpStop (symbolicName : string)
| OpBundleStart (bundle : nat)
| OpBundleStop (bundle : nat)
| OpCall (context : BundleContextImpl_API) (c : Call).

Definition step (fuel : nat) (op : Operation) (w : World) : World :=
  match op with
  | OpStart symbolicName activator =>
      world_after (OSGiImpl_start fuel symbolicName activator w)
  | OpStop symbolicName => world_after (OSGiImpl_stop fuel symbolicName w)
  | OpBundleStart b => world_after (BundleImpl_start fuel b w)
  | OpBundleStop b => world_after (BundleImpl_stop fuel b w)
  | OpCall context c =>
      world_after (perform (OSGiImpl_fireServiceEvent fuel) (Some context) c w)
  end.

Fixpoint run (fuel : nat) (ops : list Operation) (w : World) : World :=
  match ops with
  | [] => w
  | op :: rest => run fuel rest (step fuel op w)
  end.

(** The (listener, filter) pairs handed to [addServiceListener] by a call,
    by an activator, by an operation, by a sequence of operations. *)
Definition call_pairs (c : Call) : list (ServiceListener_API * option string) :=
  match c with
  | CallAddServiceListener sl filter => [(sl, filter)]
  | _ => []
  end.

Definition activator_pairs (activator : BundleActivator_API)
  : list (ServiceListener_API * option string) :=
  flat_map call_pairs (start_hook activator ++ stop_hook activator).

Definition issued_by (op : Operation)
  : list (ServiceListener_API * option string) :=
  match op with
  | OpStart _ activator => activator_pairs activator
  | OpCall _ c => call_pairs c
  | _ => []
  end.

Definition issued (ops : list Operation)
  : list (ServiceListener_API * option string) :=
  flat_map issued_by ops.

(** The pairs that the operations can hand to [addServiceListener]:
    those of the operations and of their activators, and those of the
    callbacks of the listeners so handed. *)
Inductive handed (ops : list Operation)
  : ServiceListener_API -> option string -> Prop :=
| handed_by_operation (sl : ServiceListener_API) (filter : option string) :
    (sl, filter) ∈ issued ops -> handed ops sl filter
| handed_by_callback (l : ServiceListener_API) (stored : option string)
    (serviceEvent : ServiceEvent_API) (sl : ServiceListener_API)
    (filter : option string) :
    handed ops l stored ->
    CallAddServiceListener sl filter ∈ serviceChanged l serviceEvent ->
    handed ops sl filter.

(** The pairs an operation hands to [addServiceListener] satisfy [P]. *)
Definition op_ok (P : ServiceListener_API -> option string -> Prop)
  (op : Operation) : Prop :=
  match op with
  | OpStart _ activator =>
      Forall (call_ok P) (start_hook activator)
      /\ Forall (call_ok P) (stop_hook activator)
  | OpCall _ c => call_ok P c
  | _ => True
  end.

(** [start(symbolicName, a)] for each activator [a] in turn. *)
Fixpoint OSGiImpl_starts (fuel : nat) (symbolicName : string)
  (activators : list BundleActivator_API) (w : World) : World :=
  match activators with
  | [] => w
  | a :: rest =>
      OSGiImpl_starts fuel symbolicName rest
        (world_after (OSGiImpl_start fuel symbolicName a w))
  end.

(** The bundle table keeps its length and every bundle where it is,
    under its name and with its activator, and every bundle but [b] in
    the state it has. *)
Definition same_bundles (b : nat) (m m' : Memory) : Prop :=
  List.length (_bundles m') = List.length (_bundles m)
  /\ forall i bundle,
       _bundles m !! i = Some bundle ->
       exists bundle',
         _bundles m' !! i = Some bundle'
         /\ _symbolicName bundle' = _symbolicName bundle
         /\ _activator bundle' = _activator bundle
         /\ (i <> b -> _state bundle' = _state bundle).

(** A field assignment that leaves the name and the activator alone,
    and one that leaves the state alone. *)
Definition keeps_identity (f : BundleImpl_API -> BundleImpl_API) : Prop :=
  forall this,
    _symbolicName (f this) = _symbolicName this
    /\ _activator (f this) = _activator this.

Definition keeps_state (f : BundleImpl_API -> BundleImpl_API) : Prop :=
  forall this, _state (f this) = _state this.

(** The world [w] with [bundle] stored at the handle [b]. *)
Definition replace_bundle (b : nat) (bundle : BundleImpl_API) (w : World)
  : World :=
  set_memory (set_bundles (<[b := bundle]> (_bundles (memory w))) (memory w)) w.

(** The invariants as predicates on worlds. *)
Definition same (b : nat) (m0 : Memory) (w : World) : Prop :=
  same_bundles b m0 (memory w).

Definition wfW (P : ServiceListener_API -> option string -> Prop) (w : World)
  : Prop :=
  wf P (memory w).

(** ** Triples

    [triple Pre m Post Exc]: from a world satisfying [Pre], the method [m]
    either returns [a] in a world satisfying [Post a], or raises or is
    cut off in a world satisfying [Exc]. *)
Definition triple {A : Type} (Pre : World -> Prop) (m : M A)
  (Post : A -> World -> Prop) (Exc : World -> Prop) : Prop :=
  forall w,
    Pre w ->
    match m w with
    | Returned a w' => Post a w'
    | Thrown _ w' => Exc w'
    | Unfinished w' => Exc w'
    end.

(** [m] keeps [I] whichever way it ends. *)
Definition preserves {A : Type} (I : World -> Prop) (m : M A) : Prop :=
  triple I m (fun _ => I) I.

(* ================================================================== *)
(** * BundleContextImpl: looking services up (BundleContextImpl.hpp) *)

(** A method declared [throw (C)]: when its body raises a throwable that
    is not a [C], the C++ runtime calls [std::unexpected()], whose
    default handler ends the program.  [None] is that outcome.  (Visual
    C++ ignores the declaration, as JAVOLUTION.hpp notes; the embedding
    follows the compilers that implement it.) *)
Definition throw_spec {A : Type} (C : ThrowableClass) (body : M A)
  : World -> option (Outcome A) :=
  fun w =>
    match body w with
    | Returned a w' => Some (Returned a w')
    | Thrown e w' =>
        if instanceOf (t_class e) C then Some (Thrown e w') else None
    | Unfinished w' => Some (Unfinished w')
    end.

(** [getService(sr)]: [sri->_service]. *)
Definition BundleContextImpl_getService (this : BundleContextImpl_API)
  (sr : nat) : M Object :=
  sri <- the_reference sr ;;
  ret (_service sri).

(** [ungetService(sr)]. *)
Definition BundleContextImpl_ungetService (this : BundleContextImpl_API)
  (sr : nat) : bool := false.

(** [createFilter(filter)]: [new FilterImpl_API(filter)]. *)
Definition BundleContextImpl_createFilter (this : BundleContextImpl_API)
  (filter : string) : M FilterImpl.FilterImpl_API :=
  lift (FilterImpl.compile filter).

(** The inner loop of [getServiceReferences], over the table
    [bundle->_serviceReferences]; [services] is the table being filled. *)
Fixpoint matching_references (clazz : option string)
  (filter : option FilterImpl.FilterImpl_API) (serviceReferences : list nat)
  (services : list nat) : M (list nat) :=
  match serviceReferences with
  | [] => ret services
  | r :: rest =>
      serviceReference <- the_reference r ;;
      if negb (String_equals (_serviceName serviceReference) clazz) then
        matching_references clazz filter rest services
      else if match filter with
              | Some f =>
                  negb (FilterImpl.matches f (_serviceName serviceReference))
              | None => false
              end then
        matching_references clazz filter rest services
      else
        matching_references clazz filter rest (FastTable.add services r)
  end.

(** The outer loop, over [_osgi->_bundles]. *)
Fixpoint matching_bundles (clazz : option string)
  (filter : option FilterImpl.FilterImpl_API) (bundles : list BundleImpl_API)
  (services : list nat) : M (list nat) :=
  match bundles with
  | [] => ret services
  | bundle :: rest =>
      services <- matching_references clazz filter (_serviceReferences bundle)
                    services ;;
      matching_bundles clazz filter rest services
  end.

(** The body of [getServiceReferences(clazz, filterExpression)]; either
    argument may be null.  The result is null when nothing matches,
    otherwise the array [services->toArray(...)]. *)
Definition BundleContextImpl_getServiceReferences_body
  (this : BundleContextImpl_API) (clazz filterExpression : option string)
  : M (option (list nat)) :=
  filter <- match filterExpression with
            | Some expression =>
                f <- BundleContextImpl_createFilter this expression ;;
                ret (Some f)
            | None => ret None
            end ;;
  services <- (fun w => matching_bundles clazz filter (_bundles (memory w)) [] w) ;;
  let count := FastTable.size services in
  if count =? 0 then ret None else ret (Some services).

(** [getServiceReferences] is declared [const throw (InvalidSyntaxException)]. *)
Definition BundleContextImpl_getServiceReferences
  (this : BundleContextImpl_API) (clazz filterExpression : option string)
  : World -> option (Outcome (option (list nat))) :=
  throw_spec InvalidSyntaxException_class
    (BundleContextImpl_getServiceReferences_body this clazz filterExpression).

(** [getServiceReference(clazz)]: the first element of the array, or
    null; an InvalidSyntaxException is logged and null is returned. *)
Definition BundleContextImpl_getServiceReference (this : BundleContextImpl_API)
  (clazz : option string) : World -> option (Outcome (option nat)) :=
  fun w =>
    match BundleContextImpl_getServiceReferences this clazz None w with
    | None => None
    | Some (Returned None w') => Some (Returned None w')
    | Some (Returned (Some refs) w') =>
        match refs with
        | r :: _ => Some (Returned (Some r) w')
        | [] =>
            Some (Thrown
                    (mkThrowable ArrayIndexOutOfBoundsException_class (ArrayIndex 0))
                    w')
        end
    | Some (Thrown e w') =>
        if instanceOf (t_class e) InvalidSyntaxException_class then
          Some ((Logging_error e ;; ret None) w')
        else Some (Thrown e w')
    | Some (Unfinished w') => Some (Unfinished w')
    end.

(** The references registered under the name [clazz]: bundles in
    registry order, the references of a bundle in registration order. *)
Definition registered (m : Memory) (clazz : string) : list nat :=
  flat_map
    (fun bundle =>
       List.filter (fun r => String.eqb (serviceName_of m r) clazz)
         (_serviceReferences bundle))
    (_bundles m).

(** What the two tests of the loop of [getServiceReferences] select. *)
Definition selects (m : Memory) (clazz : option string)
  (filter : option FilterImpl.FilterImpl_API) (r : nat) : bool :=
  String_equals (serviceName_of m r) clazz
  && match filter with
     | Some f => FilterImpl.matches f (serviceName_of m r)
     | None => true
     end.

(** The table [services] that the loops of [getServiceReferences] fill. *)
Definition found (m : Memory) (clazz : option string)
  (filter : option FilterImpl.FilterImpl_API) : list nat :=
  flat_map
    (fun bundle =>
       List.filter (selects m clazz filter) (_serviceReferences bundle))
    (_bundles m).

(* ================================================================== *)
(** * A tracker that receives a sequence of events *)

(** The tracker after its listener was handed the events [evs], oldest
    first (whether or not a customizer call raised). *)
Definition tracker_after (this : ServiceTracker.ServiceTracker_API)
  (evs : list ServiceEvent_API) : ServiceTracker.ServiceTracker_API :=
  fold_left (fun t ev => snd (ServiceTracker.serviceChanged t ev)) evs this.

(** The events on which the listener reaches [_trackingCount++]. *)
Definition counted (customizer : ServiceTracker.ServiceTrackerCustomizer_API)
  (ev : ServiceEvent_API) : bool :=
  if _type ev =? ServiceEvent.REGISTERED then
    match ServiceTracker.addingService customizer (_reference ev) with
    | inr _ => true
    | inl _ => false
    end
  else (_type ev =? ServiceEvent.MODIFIED)
       || (_type ev =? ServiceEvent.UNREGISTERING).

(** What the events say about the reference [r], newest event first:
    [Some (Some service)] when the newest event that settles it is a
    REGISTERED event for which [addingService] answered [service],
    [Some None] when it is an UNREGISTERING event, [None] when no event
    settles it. *)
Fixpoint last_word (customizer : ServiceTracker.ServiceTrackerCustomizer_API)
  (r : nat) (newest_first : list ServiceEvent_API) : option (option Object) :=
  match newest_first with
  | [] => None
  | ev :: older =>
      if Nat.eqb (_reference ev) r then
        if _type ev =? ServiceEvent.REGISTERED then
          match ServiceTracker.addingService customizer r with
          | inr service => Some (Some service)
          | inl _ => last_word customizer r older
          end
        else if _type ev =? ServiceEvent.UNREGISTERING then Some None
        else last_word customizer r older
      else last_word customizer r older
  end.

(* ================================================================== *)
(** * Methods of the collection classes

    The objects of [javolution::util] modelled below have fields that
    their methods read and assign: a method is a function of the
    object's state that returns a value and the new state, or raises
    with the state it had reached.  Besides the throwables of the
    classes listed in [ThrowableClass], these classes raise two further
    kinds of RuntimeException. *)

Inductive Failure : Type :=
| Throws (e : Throwable)
| NoSuchElementException (message : string)
| IllegalStateException (message : string).

Inductive Result (S A : Type) : Type :=
| Done (a : A) (s : S)
| Raised (e : Failure) (s : S).

Arguments Done {S A} a s.
Arguments Raised {S A} e s.

Definition Method (S A : Type) : Type := S -> Result S A.

Definition done {S A : Type} (a : A) : Method S A := fun s => Done a s.

Definition raise {S A : Type} (e : Failure) : Method S A := fun s => Raised e s.

Definition and_then {S A B : Type} (m : Method S A) (k : A -> Method S B)
  : Method S B :=
  fun s =>
    match m s with
    | Done a s' => k a s'
    | Raised e s' => Raised e s'
    end.

(** The fields of [this], and an assignment to them. *)
Definition fields {S : Type} : Method S S := fun s => Done s s.

Definition assign {S : Type} (s' : S) : Method S unit := fun _ => Done tt s'.

(** A value that an expression computes or fails to compute. *)
Definition eval {S A : Type} (r : Failure + A) : Method S A :=
  match r with
  | inl e => raise e
  | inr a => done a
  end.

Declare Scope object_scope.
Delimit Scope object_scope with object.
Notation "x <- c1 ;; c2" := (and_then c1 (fun x => c2))
  (at level 100, c1 at next level, right associativity) : object_scope.
Notation "c1 ;; c2" := (and_then c1 (fun _ => c2))
  (at level 100, right associativity) : object_scope.

(** [Type::int32] arithmetic on a result that may leave the range. *)
Definition int32 (z : Z) : Z := ServiceTracker.int32 z.

(* ================================================================== *)
(** * Type::Array (Object.hpp) and System_API::arraycopy (System.hpp)

    An array of handles is the list of its slots; [None] is the null
    handle, with which [new E[length]] fills a new array. *)

Module Array.
Section Array.
Context {E : Type}.

Definition new (length : Z) : list (option E) :=
  replicate (Z.to_nat length) None.

Definition length (a : list (option E)) : Z := Z.of_nat (List.length a).

(** [Type::NullHandle::throwArrayIndexOutOfBoundsException(index, length)]. *)
Definition throwArrayIndexOutOfBoundsException (index : Z) : Failure :=
  Throws (mkThrowable ArrayIndexOutOfBoundsException_class (ArrayIndex index)).

(** [a[index]], read. *)
Definition get (a : list (option E)) (index : Z) : Failure + option E :=
  if (index <? 0) || (index >=? length a) then
    inl (throwArrayIndexOutOfBoundsException index)
  else
    match a !! Z.to_nat index with
    | Some x => inr x
    | None => inl (throwArrayIndexOutOfBoundsException index)
    end.

(** [a[index] = x]. *)
Definition set (a : list (option E)) (index : Z) (x : option E)
  : Failure + list (option E) :=
  if (index <? 0) || (index >=? length a) then
    inl (throwArrayIndexOutOfBoundsException index)
  else inr (<[Z.to_nat index := x]> a).

End Array.
End Array.

Module System.
Section System.
Context {E : Type}.

(** The loop of [arraycopy], from [i] on, [n] elements to go. *)
Fixpoint arraycopy_from (src : list (option E)) (srcPos : Z)
  (dest : list (option E)) (destPos : Z) (i : Z) (n : nat)
  : Failure + list (option E) :=
  match n with
  | O => inr dest
  | S n' =>
      match Array.get src (i + srcPos) with
      | inl e => inl e
      | inr x =>
          match Array.set dest (i + destPos) x with
          | inl e => inl e
          | inr dest' => arraycopy_from src srcPos dest' destPos (i + 1) n'
          end
      end
  end.

(** [System_API::arraycopy(src, srcPos, dest, destPos, length)], for two
    distinct arrays; the result is the destination array. *)
Definition arraycopy (src : list (option E)) (srcPos : Z)
  (dest : list (option E)) (destPos : Z) (length : Z)
  : Failure + list (option E) :=
  if (srcPos + length >? Array.length src)
     || (destPos + length >? Array.length dest) then
    inl (Throws (IndexOutOfBoundsException_newInstance NoMessage))
  else arraycopy_from src srcPos dest destPos 0 (Z.to_nat length).

End System.
End System.

(* ================================================================== *)
(** * FastTable_API: the resizable array (FastTable.hpp)

    The class as it is written: the backing array [elements] and the
    size [count].  Elements are handles, which may be null.  The
    registry above works on the list of the elements of a table (module
    [FastTable]); the properties of [FastTable_API] relate each method
    of the class to its counterpart on that list. *)

Module FastTable_API.
Section Methods.
Context {E : Type}.

(** [o->equals(x)] on two objects ([Object_API::equals] or an override). *)
Variable equals : E -> E -> bool.

Record FastTable : Type := mkFastTable {
  elements : list (option E);
  count : Z
}.

Local Open Scope object_scope.

(** [FastTable_API()]. *)
Definition newInstance : FastTable := mkFastTable (Array.new 16) 0.

(** [elements[index]] and [elements[index] = x]. *)
Definition load (index : Z) : Method FastTable (option E) :=
  this <- fields ;;
  eval (Array.get (elements this) index).

Definition store (index : Z) (x : option E) : Method FastTable unit :=
  this <- fields ;;
  a <- eval (Array.set (elements this) index x) ;;
  assign (mkFastTable a (count this)).

Definition set_count (n : Z) : Method FastTable unit :=
  this <- fields ;;
  assign (mkFastTable (elements this) n).

Definition size (this : FastTable) : Z := count this.

Definition throwIndexOutOfBoundsException {A : Type} (index : Z)
  : Method FastTable A :=
  this <- fields ;;
  raise (Throws (IndexOutOfBoundsException_newInstance
                   (IndexListSize index (size this)))).

(** [resize()]: a new array of twice the capacity, the old slots copied. *)
Definition resize : Method FastTable unit :=
  this <- fields ;;
  let newCapacity := int32 (Array.length (elements this) * 2) in
  let newElements := Array.new newCapacity in
  newElements <- eval (System.arraycopy (elements this) 0 newElements 0
                         (Array.length (elements this))) ;;
  assign (mkFastTable newElements (count this)).

(** [add(element)]: [elements[count++] = element]. *)
Definition add (element : option E) : Method FastTable bool :=
  this <- fields ;;
  (if count this >=? Array.length (elements this) then resize else done tt) ;;
  this <- fields ;;
  set_count (count this + 1) ;;
  store (count this) element ;;
  done true.

(** [clear()]: the loop over [i < count], then [count = 0]. *)
Fixpoint clear_from (i : Z) (n : nat) : Method FastTable unit :=
  match n with
  | O => done tt
  | S n' => store i None ;; clear_from (i + 1) n'
  end.

Definition clear : Method FastTable unit :=
  this <- fields ;;
  clear_from 0 (Z.to_nat (count this)) ;;
  set_count 0.

(** [get(index)]. *)
Definition get (index : Z) : Method FastTable (option E) :=
  this <- fields ;;
  (if index >=? count this then throwIndexOutOfBoundsException index
   else done tt) ;;
  load index.

(** [set(index, element)]. *)
Definition set (index : Z) (element : option E) : Method FastTable (option E) :=
  this <- fields ;;
  (if index >=? count this then throwIndexOutOfBoundsException index
   else done tt) ;;
  previous <- load index ;;
  store index element ;;
  done previous.

(** [shiftLeft(index, shift)]: the loop over [index <= i < count]. *)
Fixpoint shiftLeft_from (i shift : Z) (n : nat) : Method FastTable unit :=
  match n with
  | O => done tt
  | S n' =>
      x <- load i ;;
      store (i - shift) x ;;
      shiftLeft_from (i + 1) shift n'
  end.

Definition shiftLeft (index shift : Z) : Method FastTable unit :=
  this <- fields ;;
  shiftLeft_from index shift (Z.to_nat (count this - index)).

(** [remove(index)]. *)
Definition remove (index : Z) : Method FastTable (option E) :=
  previous <- get index ;;
  shiftLeft (index + 1) 1 ;;
  this <- fields ;;
  set_count (count this - 1) ;;
  store (count this - 1) None ;;
  done previous.

(** The test of [indexOf(o)], [lastIndexOf(o)], [contains(value)] and
    [remove(element)]: [x == Type::Null] for a null [o], otherwise
    [o->equals(x)], which is false for a null [x]. *)
Definition same_element (o x : option E) : bool :=
  match o, x with
  | None, None => true
  | Some a, Some b => equals a b
  | _, _ => false
  end.

(** [indexOf(o)]: the loop over [i < count]. *)
Fixpoint indexOf_from (o : option E) (i : Z) (n : nat)
  : Method FastTable Z :=
  match n with
  | O => done (-1)
  | S n' =>
      x <- load i ;;
      if same_element o x then done i else indexOf_from o (i + 1) n'
  end.

Definition indexOf (o : option E) : Method FastTable Z :=
  this <- fields ;;
  indexOf_from o 0 (Z.to_nat (count this)).

(** [lastIndexOf(o)]: the loop over [count > i >= 0]; [n] is [i + 1]. *)
Fixpoint lastIndexOf_from (o : option E) (n : nat) : Method FastTable Z :=
  match n with
  | O => done (-1)
  | S n' =>
      x <- load (Z.of_nat n') ;;
      if same_element o x then done (Z.of_nat n') else lastIndexOf_from o n'
  end.

Definition lastIndexOf (o : option E) : Method FastTable Z :=
  this <- fields ;;
  lastIndexOf_from o (Z.to_nat (count this)).

(** ** FastTableIterator_API

    The iterator holds a handle on its list; its methods read and change
    both the iterator's fields and the list. *)

Record FastTableIterator : Type := mkIterator {
  currentIndex : Z;
  start : Z;        (* inclusive *)
  end_ : Z;         (* exclusive *)
  nIndex : Z
}.

(** [listIterator(index)], of which [iterator()] is [listIterator(0)]. *)
Definition listIterator (this : FastTable) (index : Z) : FastTableIterator :=
  mkIterator (-1) index (count this) index.

Definition iterator (this : FastTable) : FastTableIterator :=
  listIterator this 0.

Definition hasNext (i : FastTableIterator) : bool :=
  negb (nIndex i =? end_ i).

(** A method of the list, called through the iterator's handle. *)
Definition on_list {A : Type} (m : Method FastTable A)
  : Method (FastTable * FastTableIterator) A :=
  fun s =>
    match m (fst s) with
    | Done a list => Done a (list, snd s)
    | Raised e list => Raised e (list, snd s)
    end.

Definition iterator_fields
  : Method (FastTable * FastTableIterator) FastTableIterator :=
  s <- fields ;; done (snd s).

Definition iterator_assign (i : FastTableIterator)
  : Method (FastTable * FastTableIterator) unit :=
  s <- fields ;; assign (fst s, i).

(** [next()]. *)
Definition next : Method (FastTable * FastTableIterator) (option E) :=
  i <- iterator_fields ;;
  if nIndex i =? end_ i then raise (NoSuchElementException "iterator->next()")
  else
    iterator_assign (mkIterator (nIndex i) (start i) (end_ i) (nIndex i + 1)) ;;
    on_list (load (nIndex i)).

(** The iterator's [remove()]. *)
Definition iterator_remove : Method (FastTable * FastTableIterator) unit :=
  i <- iterator_fields ;;
  if currentIndex i <? 0 then raise (IllegalStateException "iterator->remove()")
  else
    on_list (remove (currentIndex i)) ;;
    let nIndex' := if currentIndex i <? nIndex i then nIndex i - 1 else nIndex i in
    iterator_assign (mkIterator (-1) (start i) (end_ i - 1) nIndex').

(** ** Methods inherited from AbstractCollection_API
       (AbstractCollection.hpp)

    Their [while (i->hasNext())] loops run on an iterator obtained from
    [this->iterator()]: [n] bounds the iterations by the number of
    elements left to visit. *)

(** [remove(element)]. *)
Fixpoint remove_loop (element : option E) (n : nat)
  : Method (FastTable * FastTableIterator) bool :=
  i <- iterator_fields ;;
  if hasNext i then
    match n with
    | O => done false
    | S n' =>
        x <- next ;;
        if same_element element x then iterator_remove ;; done true
        else remove_loop element n'
    end
  else done false.

Definition with_iterator {A : Type}
  (m : Method (FastTable * FastTableIterator) A) : Method FastTable A :=
  fun this =>
    match m (this, iterator this) with
    | Done a s => Done a (fst s)
    | Raised e s => Raised e (fst s)
    end.

Definition removeElement (element : option E) : Method FastTable bool :=
  this <- fields ;;
  with_iterator (remove_loop element (Z.to_nat (count this))).

(** [contains(value)]. *)
Fixpoint contains_loop (value : option E) (n : nat)
  : Method (FastTable * FastTableIterator) bool :=
  i <- iterator_fields ;;
  if hasNext i then
    match n with
    | O => done false
    | S n' =>
        x <- next ;;
        if same_element value x then done true else contains_loop value n'
    end
  else done false.

Definition contains (value : option E) : Method FastTable bool :=
  this <- fields ;;
  with_iterator (contains_loop value (Z.to_nat (count this))).

(** [isEmpty()]. *)
Definition isEmpty (this : FastTable) : bool := size this =? 0.

(** [toArray(result)]: the loop [result[j++] = i->next()]. *)
Fixpoint toArray_loop (result : list (option E)) (j : Z) (n : nat)
  : Method (FastTable * FastTableIterator) (list (option E)) :=
  i <- iterator_fields ;;
  if hasNext i then
    match n with
    | O => done result
    | S n' =>
        x <- next ;;
        result <- eval (Array.set result j x) ;;
        toArray_loop result (j + 1) n'
    end
  else done result.

Definition toArray (result : list (option E))
  : Method FastTable (list (option E)) :=
  this <- fields ;;
  if negb (Array.length result =? size this) then
    raise (Throws (mkThrowable UnsupportedOperationException_class
                     (Text "Method toArray(Type::Array<E>) requires array's length == size()")))
  else with_iterator (toArray_loop result 0 (Z.to_nat (count this))).

(** ** What a table holds *)

(** The elements of the table, in order. *)
Definition contents (this : FastTable) : list (option E) :=
  take (Z.to_nat (count this)) (elements this).

Definition capacity (this : FastTable) : Z := Array.length (elements this).

(** The class invariant: the size is within the capacity, and the slots
    past the size hold null handles. *)
Definition well_formed (this : FastTable) : Prop :=
  0 <= count this <= capacity this
  /\ 1 <= capacity this < 2 ^ 31
  /\ forall i, (Z.to_nat (count this) <= i < List.length (elements this))%nat ->
               elements this !! i = Some None.

End Methods.
End FastTable_API.

(* ================================================================== *)
(** * Sample registries, used to exercise the statements *)

(** The step budget of the samples. *)
Definition sample_fuel : nat := 8.

Definition quiet_listener (id : nat) : ServiceListener_API :=
  mkServiceListener id None (fun _ => []).

Definition raising_listener (id : nat) : ServiceListener_API :=
  mkServiceListener id None
    (fun _ => [CallThrow (RuntimeException_newInstance "listener failed")]).

(** A listener that holds the context [context] and, on every event,
    removes itself from the listeners of that context. *)
Definition leaving_listener (id : nat) (context : BundleContextImpl_API)
  : ServiceListener_API :=
  mkServiceListener id (Some context)
    (fun _ => [CallRemoveServiceListener (quiet_listener id)]).

(** Listens for X and publishes an X service. *)
Definition sample_activatorA : BundleActivator_API :=
  mkBundleActivator 0
    [CallAddServiceListener (quiet_listener 1) (Some "(objectClass=X)");
     CallRegisterService "X" (Some 7%nat)]
    [].

(** Listens for X, publishes an X service, then fails with [failure]. *)
Definition sample_failing_activator (failure : Throwable) : BundleActivator_API :=
  mkBundleActivator 1
    [CallAddServiceListener (quiet_listener 2) (Some "(objectClass=X)");
     CallRegisterService "X" (Some 9%nat);
     CallThrow failure]
    [].

Definition sample_exception : Throwable :=
  Exception_newInstance "activation failed".

Definition sample_error : Throwable :=
  mkThrowable Error_class (Text "activation failed").

(** An error created without message, as [Error_API::newInstance()]
    creates it. *)
Definition sample_silent_error : Throwable :=
  mkThrowable Error_class NoMessage.

(** An exception created without message, as
    [Exception_API::newInstance()] creates it. *)
Definition sample_silent_exception : Throwable :=
  mkThrowable Exception_class NoMessage.

(** Two listeners for X in one bundle; the first one raises. *)
Definition sample_activatorC : BundleActivator_API :=
  mkBundleActivator 2
    [CallAddServiceListener (raising_listener 1) (Some "(objectClass=X)");
     CallAddServiceListener (quiet_listener 2) (Some "(objectClass=X)")]
    [].

(** Two listeners for X in one bundle; the first one removes itself when
    it is told of an event. *)
Definition sample_activatorD : BundleActivator_API :=
  mkBundleActivator 3
    [CallAddServiceListener (leaving_listener 1 (mkBundleContext 0 0))
       (Some "(objectClass=X)");
     CallAddServiceListener (quiet_listener 2) (Some "(objectClass=X)")]
    [].

(** Bundle A started on a new registry: ACTIVE. *)
Definition sample_started : World :=
  world_after (OSGiImpl_start sample_fuel "A" sample_activatorA OSGiImpl_new).

(** Bundle E started on a new registry: ACTIVE; its stop hook throws an
    exception created without message. *)
Definition sample_stoppable : World :=
  world_after
    (OSGiImpl_start sample_fuel "E"
       (mkBundleActivator 4 [] [CallThrow sample_silent_exception])
       OSGiImpl_new).

(** Bundle B created next to A and given its context, as
    [OSGiImpl_API::start] does before it calls [bundle->start()]. *)
Definition sample_resolved (activator : BundleActivator_API) : World :=
  world_after
    ((bundle <- OSGiImpl_addBundle "B" activator ;;
      context <- BundleContextImpl_new bundle ;;
      update_bundle bundle (with_context (Some context)))
       sample_started).

(** The bundle stored at [b], or a blank one. *)
Definition bundle_at (b : nat) (w : World) : BundleImpl_API :=
  match _bundles (memory w) !! b with
  | Some bundle => bundle
  | None => BundleImpl_new "" (mkBundleActivator 0 [] [])
  end.

(** Bundle B of [sample_resolved] once its start hook has raised. *)
Definition sample_hook_raised (failure : Throwable) : World :=
  world_after
    (BundleActivator_start (OSGiImpl_fireServiceEvent sample_fuel)
       (sample_failing_activator failure)
       (_context (bundle_at 1 (sample_resolved (sample_failing_activator failure))))
       (replace_bundle 1
          (with_state Bundle.STARTING
             (bundle_at 1 (sample_resolved (sample_failing_activator failure))))
          (sample_resolved (sample_failing_activator failure)))).

(** A bundle started on a new registry with the given activator, and an
    X service published by it: the reference object exists, no event has
    been fired yet. *)
Definition sample_listening (symbolicName : string)
  (activator : BundleActivator_API) : World :=
  world_after
    (ServiceReferenceImpl_new 0 "X" (Some 7%nat)
       (world_after
          (OSGiImpl_start sample_fuel symbolicName activator OSGiImpl_new))).

Definition sample_two_listeners : World := sample_listening "C" sample_activatorC.

Definition sample_leaving : World := sample_listening "D" sample_activatorD.

(** [sample_started] after the registration of the X service was
    unregistered once. *)
Definition sample_unregistered : World :=
  match ServiceRegistrationImpl_unregister sample_fuel (mkServiceRegistration 0)
          sample_started with
  | Some o => world_after o
  | None => sample_started
  end.

(** A customizer that answers the service object 7 for every reference. *)
Definition sample_customizer : ServiceTracker.ServiceTrackerCustomizer_API :=
  ServiceTracker.mkCustomizer (fun _ => inr (Some 7%nat)) (fun _ _ => None)
    (fun _ _ => None).

(** An open tracker that tracks nothing yet, and one tracking the
    reference 5 with the service object 7. *)
Definition sample_tracker : ServiceTracker.ServiceTracker_API :=
  ServiceTracker.mkTracker sample_customizer ∅ 0 None [].

Definition sample_tracking : ServiceTracker.ServiceTracker_API :=
  snd (ServiceTracker.serviceChanged sample_tracker
         (mkServiceEvent ServiceEvent.REGISTERED 5)).

(** ** Sample tables *)

(** The context of bundle A in [sample_started]. *)
Definition sample_context : BundleContextImpl_API := mkBundleContext 0 0.

(** Bundle B of [sample_resolved], with the activator of A, once its
    start hook has returned. *)
Definition sample_hook_returned : World :=
  world_after
    (BundleActivator_start (OSGiImpl_fireServiceEvent sample_fuel)
       sample_activatorA
       (_context (bundle_at 1 (sample_resolved sample_activatorA)))
       (replace_bundle 1
          (with_state Bundle.STARTING
             (bundle_at 1 (sample_resolved sample_activatorA)))
          (sample_resolved sample_activatorA))).

(** [sample_started] after bundle A has published a second X service. *)
Definition sample_registered : World :=
  world_after
    (BundleContextImpl_registerService (OSGiImpl_fireServiceEvent sample_fuel)
       sample_context "X" (Some 3%nat) sample_started).

(** A table of numbers that holds 1, a null handle and 2 in an array of
    four slots, and a table with every slot taken. *)
Definition sample_table : @FastTable_API.FastTable nat :=
  FastTable_API.mkFastTable [Some 1%nat; None; Some 2%nat; None] 3.

Definition sample_full_table : @FastTable_API.FastTable nat :=
  FastTable_API.mkFastTable [Some 1%nat; None; Some 2%nat; Some 1%nat] 4.

(* ================================================================== *)
(* ================================================================== *)
(** * Properties *)

(* ================================================================== *)
(** * Strings and filters *)

Lemma String_length_append (a b : string) :
  String.length (a ++ b) = (String.length a + String.length b)%nat.
Proof. induction a as [|c a IH]; simpl; [reflexivity | now rewrite IH]. Qed.

Lemma String_substring_prefix (v t : string) :
  String.substring 0 (String.length v) (v ++ t) = v.
Proof.
  induction v as [|c v IH]; simpl.
  - now destruct t.
  - now rewrite IH.
Qed.

Lemma canonical_length (value : string) :
  String_length (FilterImpl.canonical value) = 14 + String_length value.
Proof.
  unfold String_length, FilterImpl.canonical, Constants.OBJECTCLASS.
  rewrite !String_length_append.
  change (String.length "(") with 1%nat.
  change (String.length "objectClass") with 11%nat.
  change (String.length "=") with 1%nat.
  change (String.length ")") with 1%nat.
  lia.
Qed.

Lemma canonical_startsWith (value : string) :
  startsWith (FilterImpl.canonical value) Constants.OBJECTCLASS 1 = true.
Proof.
  unfold startsWith. rewrite canonical_length.
  destruct (Z.ltb_spec (14 + String_length value)
              (String_length Constants.OBJECTCLASS + Z.of_nat 1)) as [H|_].
  - unfold String_length in H. simpl in H. lia.
  - reflexivity.
Qed.

Lemma compile_canonical (value : string) :
  FilterImpl.compile (FilterImpl.canonical value)
  = inr (FilterImpl.mkFilter value (FilterImpl.canonical value)).
Proof.
  unfold FilterImpl.compile. rewrite canonical_startsWith. simpl negb. cbv iota.
  unfold substring. rewrite canonical_length.
  assert (Hl : 0 <= String_length value) by (unfold String_length; lia).
  replace (String_length Constants.OBJECTCLASS + 2) with 13 by reflexivity.
  destruct (Z.ltb_spec 13 0); [lia|].
  destruct (Z.gtb_spec (14 + String_length value - 1) (14 + String_length value));
    [lia|].
  destruct (Z.gtb_spec 13 (14 + String_length value - 1)); [lia|].
  replace (Z.to_nat (14 + String_length value - 1 - 13))
    with (String.length value) by (unfold String_length; lia).
  change (Z.to_nat 13) with 13%nat.
  unfold FilterImpl.canonical, Constants.OBJECTCLASS. simpl.
  change ("" ++ value ++ ")") with (value ++ ")").
  now rewrite String_substring_prefix.
Qed.

Lemma canonical_inj (a b : string) :
  FilterImpl.canonical a = FilterImpl.canonical b -> a = b.
Proof.
  unfold FilterImpl.canonical, Constants.OBJECTCLASS. simpl.
  intros H. injection H as H. clear -H.
  revert b H. induction a as [|c a IH]; intros [|d b] H; simpl in H.
  - reflexivity.
  - injection H as _ H. destruct b; discriminate.
  - injection H as _ H. destruct a; discriminate.
  - injection H as -> H. f_equal. now apply IH.
Qed.

(** [startsWith(OBJECTCLASS, 1)] holds of the strings that read
    [objectClass] from their second character on, and of no other. *)
Lemma startsWith_objectClass (filterString : string) :
  startsWith filterString Constants.OBJECTCLASS 1 = true
  <-> exists (c0 : ascii) (rest : string),
        filterString = String c0 ("objectClass" ++ rest).
Proof.
  split.
  - unfold startsWith, Constants.OBJECTCLASS.
    destruct (Z.ltb_spec (String_length filterString)
                (String_length "objectClass" + Z.of_nat 1)) as [_|Hlen];
      [discriminate|].
    destruct filterString
      as [|c0 [|c1 [|c2 [|c3 [|c4 [|c5 [|c6 [|c7 [|c8 [|c9 [|c10 [|c11 rest]]]]]]]]]]]];
      try (exfalso; unfold String_length in Hlen; simpl in Hlen; lia).
    cbn [forallb seq String.length String.get Nat.add].
    rewrite !andb_true_iff, !Ascii.eqb_eq.
    intros (-> & -> & -> & -> & -> & -> & -> & -> & -> & -> & -> & _).
    exists c0, rest. reflexivity.
  - intros (c0 & rest & ->). unfold startsWith, Constants.OBJECTCLASS.
    destruct (Z.ltb_spec (String_length (String c0 ("objectClass" ++ rest)))
                (String_length "objectClass" + Z.of_nat 1)) as [Hlen|_].
    + exfalso. unfold String_length in Hlen. simpl in Hlen. lia.
    + reflexivity.
Qed.

Lemma String_substring_skip (c : ascii) (n len : nat) (s : string) :
  String.substring (S n) len (String c s) = String.substring n len s.
Proof. reflexivity. Qed.

Lemma String_substring_middle (value t : string) :
  String.substring 0 (String.length value) (value ++ t) = value.
Proof. apply String_substring_prefix. Qed.

(** The strings that [compile] accepts, and the filter it makes of them. *)
Lemma compile_shape (c0 c12 clast : ascii) (value : string) :
  FilterImpl.compile
    (String c0 ("objectClass" ++ String c12 (value ++ String clast "")))
  = inr (FilterImpl.mkFilter value
           (String c0 ("objectClass" ++ String c12 (value ++ String clast "")))).
Proof.
  unfold FilterImpl.compile.
  rewrite (proj2 (startsWith_objectClass _)) by eauto.
  cbn [negb]. unfold substring.
  set (s := String c0 ("objectClass" ++ String c12 (value ++ String clast ""))).
  assert (Hlen : String_length s = 14 + String_length value).
  { unfold s, String_length. simpl. rewrite String_length_append. simpl. lia. }
  rewrite Hlen.
  assert (Hl : 0 <= String_length value) by (unfold String_length; lia).
  replace (String_length Constants.OBJECTCLASS + 2) with 13 by reflexivity.
  destruct (Z.ltb_spec 13 0); [lia|].
  destruct (Z.gtb_spec (14 + String_length value - 1) (14 + String_length value));
    [lia|].
  destruct (Z.gtb_spec 13 (14 + String_length value - 1)); [lia|].
  replace (Z.to_nat (14 + String_length value - 1 - 13))
    with (String.length value) by (unfold String_length; lia).
  change (Z.to_nat 13) with 13%nat.
  unfold s. simpl. f_equal. f_equal. apply String_substring_prefix.
Qed.

(** A string that reads [objectClass] from its second character on and
    is followed by at least two characters has the accepted shape. *)
Lemma String_last_split (s : string) :
  (1 <= String.length s)%nat ->
  exists (value : string) (clast : ascii), s = value ++ String clast "".
Proof.
  induction s as [|c s IH]; simpl; [lia|]. intros _.
  destruct s as [|d s].
  - exists "", c. reflexivity.
  - destruct IH as (value & clast & E); [simpl; lia|].
    exists (String c value), clast. rewrite E. reflexivity.
Qed.

Lemma compile_too_short (c0 : ascii) (rest : string) :
  (String.length rest < 2)%nat ->
  FilterImpl.compile (String c0 ("objectClass" ++ rest))
  = inl (IndexOutOfBoundsException_newInstance
           (Text "beginIndex is larger than endIndex.")).
Proof.
  intros Hrest. unfold FilterImpl.compile.
  rewrite (proj2 (startsWith_objectClass _)) by eauto.
  cbn [negb]. unfold substring.
  set (s := String c0 ("objectClass" ++ rest)).
  assert (Hlen : String_length s = 12 + Z.of_nat (String.length rest)).
  { unfold s, String_length. cbn [String.length].
    rewrite String_length_append. simpl. lia. }
  rewrite Hlen.
  replace (String_length Constants.OBJECTCLASS + 2) with 13 by reflexivity.
  destruct (Z.ltb_spec 13 0); [lia|].
  destruct (Z.gtb_spec (12 + Z.of_nat (String.length rest) - 1)
              (12 + Z.of_nat (String.length rest))); [lia|].
  destruct (Z.gtb_spec 13 (12 + Z.of_nat (String.length rest) - 1)); [|lia].
  reflexivity.
Qed.

Lemma compile_without_objectClass (filterString : string) :
  (forall (c0 : ascii) (rest : string),
      filterString <> String c0 ("objectClass" ++ rest)) ->
  FilterImpl.compile filterString = inl UnsupportedOperationException_newInstance.
Proof.
  intros H. unfold FilterImpl.compile.
  destruct (startsWith filterString Constants.OBJECTCLASS 1) eqn:E;
    [|reflexivity].
  apply startsWith_objectClass in E as (c0 & rest & ->).
  now destruct (H c0 rest).
Qed.

Lemma compile_accepted (filterString : string) (f : FilterImpl.FilterImpl_API) :
  FilterImpl.compile filterString = inr f ->
  exists (c0 c12 clast : ascii) (value : string),
    filterString
    = String c0 ("objectClass" ++ String c12 (value ++ String clast ""))
    /\ f = FilterImpl.mkFilter value filterString.
Proof.
  intros Hf.
  destruct (startsWith filterString Constants.OBJECTCLASS 1) eqn:E.
  - apply startsWith_objectClass in E as (c0 & rest & ->).
    destruct rest as [|c12 rest].
    { rewrite compile_too_short in Hf by (simpl; lia). discriminate. }
    destruct rest as [|c rest].
    { rewrite compile_too_short in Hf by (simpl; lia). discriminate. }
    destruct (String_last_split (String c rest)) as (value & clast & Ev);
      [simpl; lia|].
    rewrite Ev in *. rewrite compile_shape in Hf. injection Hf as <-.
    exists c0, c12, clast, value. split; reflexivity.
  - unfold FilterImpl.compile in Hf. rewrite E in Hf. discriminate.
Qed.

(* ================================================================== *)
(** * Rules for triples *)

Section TripleRules.
Context {A B : Type}.

Lemma triple_ret (Pre : World -> Prop) (a : A) (Post : A -> World -> Prop)
  (Exc : World -> Prop) :
  (forall w, Pre w -> Post a w) -> triple Pre (ret a) Post Exc.
Proof. intros H w Hw. simpl. auto. Qed.

Lemma triple_throw (Pre : World -> Prop) (e : Throwable)
  (Post : A -> World -> Prop) (Exc : World -> Prop) :
  (forall w, Pre w -> Exc w) -> triple Pre (throw e) Post Exc.
Proof. intros H w Hw. simpl. auto. Qed.

Lemma triple_bind (Pre : World -> Prop) (m : M A) (k : A -> M B)
  (Mid : A -> World -> Prop) (Post : B -> World -> Prop) (Exc : World -> Prop) :
  triple Pre m Mid Exc ->
  (forall a, triple (Mid a) (k a) Post Exc) ->
  triple Pre (bind m k) Post Exc.
Proof.
  intros Hm Hk w Hw. unfold bind. specialize (Hm w Hw).
  destruct (m w) as [a w'|e w'|w']; [exact (Hk a w' Hm) | exact Hm | exact Hm].
Qed.

Lemma triple_weaken (Pre Pre' : World -> Prop) (m : M A)
  (Post Post' : A -> World -> Prop) (Exc Exc' : World -> Prop) :
  triple Pre' m Post' Exc' ->
  (forall w, Pre w -> Pre' w) ->
  (forall a w, Post' a w -> Post a w) ->
  (forall w, Exc' w -> Exc w) ->
  triple Pre m Post Exc.
Proof.
  intros Hm H1 H2 H3 w Hw. specialize (Hm w (H1 w Hw)).
  destruct (m w); auto.
Qed.

Lemma triple_pure (Pre : World -> Prop) (phi : Prop) (m : M A)
  (Post : A -> World -> Prop) (Exc : World -> Prop) :
  (forall w, Pre w -> phi) ->
  (phi -> triple Pre m Post Exc) ->
  triple Pre m Post Exc.
Proof. intros H1 H2 w Hw. exact (H2 (H1 w Hw) w Hw). Qed.

Lemma triple_try_catch (Pre : World -> Prop) (body : M A) (C : ThrowableClass)
  (handler : Throwable -> M A) (Post : A -> World -> Prop)
  (Caught Exc : World -> Prop) :
  triple Pre body Post Caught ->
  (forall e, triple Caught (handler e) Post Exc) ->
  (forall w, Caught w -> Exc w) ->
  triple Pre (try_catch body C handler) Post Exc.
Proof.
  intros Hb Hh Hc w Hw. unfold try_catch. specialize (Hb w Hw).
  destruct (body w) as [a w'|e w'|w']; [exact Hb| |exact (Hc w' Hb)].
  destruct (instanceOf (t_class e) C); [exact (Hh e w' Hb) | exact (Hc w' Hb)].
Qed.

End TripleRules.

Section PreservesRules.
Context {A B : Type}.
Variable I : World -> Prop.

Lemma preserves_ret (a : A) : preserves I (ret a).
Proof. apply triple_ret. auto. Qed.

Lemma preserves_throw (e : Throwable) : preserves I (@throw A e).
Proof. apply triple_throw. auto. Qed.

Lemma preserves_unfinished : preserves I (@unfinished A).
Proof. intros w Hw. exact Hw. Qed.

Lemma preserves_bind_ret (a : A) (k : A -> M B) :
  preserves I (k a) -> preserves I (bind (ret a) k).
Proof. intros H w Hw. exact (H w Hw). Qed.

Lemma preserves_bind_throw (e : Throwable) (k : A -> M B) :
  preserves I (bind (throw e) k).
Proof. intros w Hw. exact Hw. Qed.

Lemma preserves_lift (r : Throwable + A) : preserves I (lift r).
Proof. destruct r; [apply preserves_throw | apply preserves_ret]. Qed.

Lemma preserves_bind (m : M A) (k : A -> M B) :
  preserves I m -> (forall a, preserves I (k a)) -> preserves I (bind m k).
Proof. intros Hm Hk. eapply triple_bind; [exact Hm | exact Hk]. Qed.

Lemma preserves_try_catch (body : M A) (C : ThrowableClass)
  (handler : Throwable -> M A) :
  preserves I body -> (forall e, preserves I (handler e)) ->
  preserves I (try_catch body C handler).
Proof. intros Hb Hh. eapply triple_try_catch; [exact Hb | exact Hh | auto]. Qed.

(** A method that leaves the world alone. *)
Lemma preserves_reader (m : M A) :
  (forall w, world_after (m w) = w) -> preserves I m.
Proof.
  intros H w Hw. specialize (H w). destruct (m w); simpl in H; now subst.
Qed.

End PreservesRules.

Lemma the_bundle_reads (b : nat) (w : World) : world_after (the_bundle b w) = w.
Proof. unfold the_bundle. now destruct (_ !! _). Qed.

Lemma the_reference_reads (r : nat) (w : World) :
  world_after (the_reference r w) = w.
Proof. unfold the_reference. now destruct (_ !! _). Qed.

Lemma the_context_reads (ctx : option BundleContextImpl_API) (w : World) :
  world_after (the_context ctx w) = w.
Proof. now destruct ctx. Qed.

(** What [the_bundle] returns is the bundle stored at the handle. *)
Lemma triple_the_bundle (I : World -> Prop) (b : nat) :
  triple I (the_bundle b)
    (fun this w => I w /\ _bundles (memory w) !! b = Some this) I.
Proof.
  intros w Hw. unfold the_bundle.
  destruct (_bundles (memory w) !! b) eqn:E; auto.
Qed.

Lemma preserves_bind_the_bundle {B : Type} (I : World -> Prop) (b : nat)
  (k : BundleImpl_API -> M B) :
  (forall this,
      triple (fun w => I w /\ _bundles (memory w) !! b = Some this) (k this)
        (fun _ => I) I) ->
  preserves I (bind (the_bundle b) k).
Proof. intros Hk. eapply triple_bind; [apply triple_the_bundle | exact Hk]. Qed.

(** The exact effect of a field assignment. *)
Lemma update_bundle_eq (b : nat) (f : BundleImpl_API -> BundleImpl_API)
  (w : World) :
  update_bundle b f w
  = match _bundles (memory w) !! b with
    | Some this =>
        Returned tt
          (set_memory
             (set_bundles (<[b := f this]> (_bundles (memory w))) (memory w)) w)
    | None => Thrown NullPointerException_nullHandle w
    end.
Proof.
  unfold update_bundle, bind, the_bundle. now destruct (_ !! _).
Qed.

Lemma preserves_world_after {A : Type} (I : World -> Prop) (m : M A) (w : World) :
  preserves I m -> I w -> I (world_after (m w)).
Proof. intros H Hw. specialize (H w Hw). now destruct (m w). Qed.

(** The world [w] with the bundle at [b] replaced by [bundle]. *)
Lemma lookup_replace_bundle (b : nat) (bundle this : BundleImpl_API) (w : World) :
  _bundles (memory w) !! b = Some this ->
  _bundles (memory (replace_bundle b bundle w)) !! b = Some bundle.
Proof.
  intros H. simpl. apply list_lookup_insert_eq. eapply lookup_lt_Some; eauto.
Qed.

Lemma lookup_replace_bundle_ne (b b' : nat) (bundle : BundleImpl_API) (w : World) :
  b' <> b ->
  _bundles (memory (replace_bundle b bundle w)) !! b'
  = _bundles (memory w) !! b'.
Proof. intros H. simpl. now apply list_lookup_insert_ne. Qed.

Lemma replace_replace_bundle (b : nat) (x y : BundleImpl_API) (w : World) :
  replace_bundle b y (replace_bundle b x w) = replace_bundle b y w.
Proof.
  unfold replace_bundle, set_memory, set_bundles. simpl.
  now rewrite list_insert_insert_eq.
Qed.

Lemma update_bundle_at (b : nat) (f : BundleImpl_API -> BundleImpl_API)
  (this : BundleImpl_API) (w : World) :
  _bundles (memory w) !! b = Some this ->
  update_bundle b f w = Returned tt (replace_bundle b (f this) w).
Proof. intros H. rewrite update_bundle_eq, H. reflexivity. Qed.

Lemma the_bundle_at (b : nat) (this : BundleImpl_API) (w : World) :
  _bundles (memory w) !! b = Some this -> the_bundle b w = Returned this w.
Proof. intros H. unfold the_bundle. now rewrite H. Qed.

Lemma the_reference_at (r : nat) (ref : ServiceReferenceImpl_API) (w : World) :
  references (memory w) !! r = Some ref -> the_reference r w = Returned ref w.
Proof. intros H. unfold the_reference. now rewrite H. Qed.

Ltac keeps := intros ?; split; reflexivity.

Ltac frame_step leaf :=
  first
    [ apply preserves_ret
    | apply preserves_throw
    | apply preserves_unfinished
    | apply preserves_lift
    | apply preserves_reader; solve [ apply the_bundle_reads
                                    | apply the_reference_reads
                                    | apply the_context_reads
                                    | reflexivity ]
    | leaf
    | apply preserves_bind; [|intros ?]
    | apply preserves_try_catch; [|intros ?]
    | match goal with
      | |- preserves _ (if ?c then _ else _) => destruct c
      | |- preserves _ (match ?x with _ => _ end) => destruct x
      | |- preserves _ (fun w => _) => fail
      end ].

(* ================================================================== *)
(** * Bundles keep their place and their identity

    Only [OSGiImpl_API::start] adds a bundle; nothing else changes the
    length of the bundle table, and nothing changes the name or the
    activator of a bundle. *)

Lemma same_bundles_refl (b : nat) (m : Memory) : same_bundles b m m.
Proof. split; [reflexivity|]. intros i bundle H. eauto. Qed.

Lemma same_bundles_trans (b : nat) (m1 m2 m3 : Memory) :
  same_bundles b m1 m2 -> same_bundles b m2 m3 -> same_bundles b m1 m3.
Proof.
  intros [L12 H12] [L23 H23]. split; [congruence|]. intros i bundle H.
  destruct (H12 i bundle H) as (b2 & H2 & Hn2 & Ha2 & Hs2).
  destruct (H23 i b2 H2) as (b3 & H3 & Hn3 & Ha3 & Hs3).
  exists b3. repeat split; try congruence.
  intros Hi. rewrite (Hs3 Hi). exact (Hs2 Hi).
Qed.

Lemma same_bundles_eq (b : nat) (m m' : Memory) :
  _bundles m' = _bundles m -> same_bundles b m m'.
Proof. intros E. split; [now rewrite E|]. intros i bundle H. rewrite E. eauto. Qed.

Section SameBundles.
Variable b0 : nat.
Variable m0 : Memory.

Lemma same_step (w w' : World) :
  same b0 m0 w -> same_bundles b0 (memory w) (memory w') -> same b0 m0 w'.
Proof. unfold same. apply same_bundles_trans. Qed.

Lemma same_untouched {A : Type} (m : M A) :
  (forall w, _bundles (memory (world_after (m w))) = _bundles (memory w)) ->
  preserves (same b0 m0) m.
Proof.
  intros H w Hw. specialize (H w).
  destruct (m w) as [a w'|e w'|w']; simpl in H;
    (eapply same_step; [exact Hw | now apply same_bundles_eq]).
Qed.

Lemma same_update_bundle (b : nat) (f : BundleImpl_API -> BundleImpl_API) :
  keeps_identity f -> b = b0 \/ keeps_state f ->
  preserves (same b0 m0) (update_bundle b f).
Proof.
  intros Hf Hs w Hw. rewrite update_bundle_eq.
  destruct (_bundles (memory w) !! b) as [this|] eqn:E; [|exact Hw].
  eapply same_step; [exact Hw|]. split; [simpl; apply length_insert|].
  intros i bundle Hi. simpl. destruct (decide (i = b)) as [->|Hne].
  - rewrite list_lookup_insert_eq by (eapply lookup_lt_Some; eauto).
    exists (f this). rewrite E in Hi. injection Hi as <-.
    destruct (Hf this). repeat split; auto.
    intros Hb. destruct Hs as [->|Hs]; [contradiction | apply Hs].
  - rewrite list_lookup_insert_ne by auto. eauto.
Qed.

Lemma same_clear_ref_bundle (r : nat) : preserves (same b0 m0) (clear_ref_bundle r).
Proof.
  apply same_untouched. intros w. unfold clear_ref_bundle, bind, the_reference.
  now destruct (_ !! _).
Qed.

Lemma same_Logging_error (e : Throwable) : preserves (same b0 m0) (Logging_error e).
Proof. apply same_untouched. intros w. unfold Logging_error. now destruct (t_message e). Qed.

Lemma same_ServiceReferenceImpl_new (b : nat) (n : string) (s : Object) :
  preserves (same b0 m0) (ServiceReferenceImpl_new b n s).
Proof. now apply same_untouched. Qed.

Lemma same_BundleContextImpl_new (b : nat) :
  preserves (same b0 m0) (BundleContextImpl_new b).
Proof. now apply same_untouched. Qed.

Lemma same_bundles_get (i : Z) : preserves (same b0 m0) (OSGiImpl_bundles_get i).
Proof.
  apply preserves_reader. intros w. unfold OSGiImpl_bundles_get.
  now destruct (FastTable.get _ i).
Qed.

Lemma same_recorded (l : ServiceListener_API) (ev : ServiceEvent_API) :
  preserves (same b0 m0)
    (fun w =>
       Returned tt
         (mkWorld (memory w) (delivered w ++ [mkDelivery l ev (memory w)])
            (logged w))).
Proof. now apply same_untouched. Qed.

End SameBundles.

Ltac same_leaf :=
  first
    [ apply same_update_bundle;
      [ keeps
      | first [ right; intros ?; reflexivity | left; reflexivity ] ]
    | apply same_clear_ref_bundle
    | apply same_Logging_error
    | apply same_ServiceReferenceImpl_new
    | apply same_BundleContextImpl_new
    | apply same_bundles_get
    | apply same_recorded ].

Section SameRegistry.
Variable b0 : nat.
Variable m0 : Memory.
Variable fire : ServiceEvent_API -> M unit.
Hypothesis fire_same : forall ev, preserves (same b0 m0) (fire ev).

Lemma same_addServiceListener this sl filter :
  preserves (same b0 m0) (BundleContextImpl_addServiceListener this sl filter).
Proof. unfold BundleContextImpl_addServiceListener. repeat frame_step same_leaf. Qed.

Lemma same_removeServiceListener this sl :
  preserves (same b0 m0) (BundleContextImpl_removeServiceListener this sl).
Proof.
  unfold BundleContextImpl_removeServiceListener. repeat frame_step same_leaf.
Qed.

Lemma same_registerService this n s :
  preserves (same b0 m0) (BundleContextImpl_registerService fire this n s).
Proof.
  unfold BundleContextImpl_registerService.
  repeat first [apply fire_same | frame_step same_leaf].
Qed.

Lemma same_perform ctx c : preserves (same b0 m0) (perform fire ctx c).
Proof.
  destruct c; simpl;
    repeat first [ apply same_registerService | apply same_addServiceListener
                 | apply same_removeServiceListener | frame_step same_leaf ].
Qed.

Lemma same_run_hook ctx calls : preserves (same b0 m0) (run_hook fire ctx calls).
Proof.
  induction calls as [|c rest IH]; simpl.
  - apply preserves_ret.
  - apply preserves_bind; [apply same_perform | intros _; exact IH].
Qed.

Lemma same_invoke l ev : preserves (same b0 m0) (invoke fire l ev).
Proof.
  unfold invoke. apply preserves_bind; [same_leaf | intros _; apply same_run_hook].
Qed.

Lemma same_notify_listeners n ev filter b :
  forall j, preserves (same b0 m0) (notify_listeners fire n ev filter b j).
Proof.
  induction n as [|n IH]; intros j; simpl;
    repeat first [apply same_invoke | apply IH | frame_step same_leaf].
Qed.

Lemma same_notify_bundles budget n ev filter :
  forall i, preserves (same b0 m0) (notify_bundles fire budget n ev filter i).
Proof.
  induction n as [|n IH]; intros i w Hw; simpl.
  - now destruct (i <? _).
  - destruct (i <? _); [|exact Hw].
    revert w Hw. change (preserves (same b0 m0)
      (bundle <- OSGiImpl_bundles_get i ;;
       notify_listeners fire budget ev filter bundle 0 ;;
       notify_bundles fire budget n ev filter (i + 1))).
    repeat first [apply same_notify_listeners | apply IH | frame_step same_leaf].
Qed.

Lemma same_fireServiceEvent_body budget ev :
  preserves (same b0 m0) (fireServiceEvent_body fire budget ev).
Proof.
  unfold fireServiceEvent_body.
  repeat first [apply same_notify_bundles | frame_step same_leaf].
Qed.

End SameRegistry.

Lemma same_fireServiceEvent (b0 : nat) (m0 : Memory) (fuel : nat) :
  forall ev, preserves (same b0 m0) (OSGiImpl_fireServiceEvent fuel ev).
Proof.
  induction fuel as [|fuel IH]; intros ev; simpl.
  - apply preserves_unfinished.
  - apply same_fireServiceEvent_body. exact IH.
Qed.

Section SameOperations.
Variable b0 : nat.
Variable m0 : Memory.
Variable fuel : nat.

Lemma same_unregister_each n b :
  forall i, preserves (same b0 m0) (unregister_each fuel n b i).
Proof.
  induction n as [|n IH]; intros i; simpl;
    repeat first [apply same_fireServiceEvent | apply IH | frame_step same_leaf].
Qed.

Lemma same_unregisterServices b :
  preserves (same b0 m0) (BundleImpl_unregisterServices fuel b).
Proof.
  unfold BundleImpl_unregisterServices.
  repeat first [apply same_unregister_each | frame_step same_leaf].
Qed.

Lemma same_unregisterListeners b :
  preserves (same b0 m0) (BundleImpl_unregisterListeners b).
Proof. unfold BundleImpl_unregisterListeners. repeat frame_step same_leaf. Qed.

Lemma same_BundleImpl_start : preserves (same b0 m0) (BundleImpl_start fuel b0).
Proof.
  unfold BundleImpl_start, BundleImpl_start_catch, BundleActivator_start.
  repeat first [ apply same_run_hook; apply same_fireServiceEvent
               | apply same_unregisterServices
               | apply same_unregisterListeners | frame_step same_leaf ].
Qed.

Lemma same_BundleImpl_stop : preserves (same b0 m0) (BundleImpl_stop fuel b0).
Proof.
  unfold BundleImpl_stop, BundleActivator_stop, rethrow_as.
  repeat first [ apply same_run_hook; apply same_fireServiceEvent
               | apply same_unregisterServices
               | apply same_unregisterListeners | frame_step same_leaf ].
Qed.

(** [start] once the bundle has been looked up or created. *)
Lemma same_start_bundle :
  preserves (same b0 m0)
    (context <- BundleContextImpl_new b0 ;;
     update_bundle b0 (with_context (Some context)) ;;
     BundleImpl_start fuel b0).
Proof. repeat first [ apply same_BundleImpl_start | frame_step same_leaf ]. Qed.

Lemma same_stop_bundle :
  preserves (same b0 m0)
    (BundleImpl_stop fuel b0 ;; update_bundle b0 (with_context None)).
Proof. repeat first [ apply same_BundleImpl_stop | frame_step same_leaf ]. Qed.

End SameOperations.

(* ================================================================== *)
(** * FastTable *)

Lemma FastTable_get_inr {E : Type} (l : list E) (index : Z) (x : E) :
  FastTable.get l index = inr x <->
  0 <= index /\ l !! Z.to_nat index = Some x.
Proof.
  unfold FastTable.get, FastTable.size.
  destruct (Z.geb_spec index (Z.of_nat (List.length l))) as [Hge|Hlt].
  - split; [discriminate|]. intros [H0 Hx]. apply lookup_lt_Some in Hx. lia.
  - destruct (Z.ltb_spec index 0) as [Hneg|Hpos].
    + split; [discriminate | intros [H0 _]; lia].
    + destruct (l !! Z.to_nat index) as [y|] eqn:Hy.
      * split; [intros [= ->]; auto | intros [_ [= ->]]; reflexivity].
      * split; [discriminate | intros [_ Hx]; discriminate].
Qed.

Lemma FastTable_get_lookup {E : Type} (l : list E) (j : nat) (x : E) :
  l !! j = Some x -> FastTable.get l (Z.of_nat j) = inr x.
Proof.
  intros H. apply FastTable_get_inr. rewrite Nat2Z.id. split; [lia | exact H].
Qed.

Lemma FastTable_remove_inr {E : Type} (l l' : list E) (index : Z) (x : E) :
  FastTable.remove l index = inr (x, l') ->
  0 <= index /\ (Z.to_nat index < List.length l)%nat
  /\ l' = delete (Z.to_nat index) l.
Proof.
  unfold FastTable.remove. destruct (FastTable.get l index) as [e|y] eqn:Hg;
    [discriminate|].
  intros [= -> <-]. apply FastTable_get_inr in Hg as [H0 Hx].
  apply lookup_lt_Some in Hx. auto.
Qed.

Lemma FastTable_remove_in_range {E : Type} (l : list E) (index : Z) :
  0 <= index -> (Z.to_nat index < List.length l)%nat ->
  exists x, FastTable.remove l index = inr (x, delete (Z.to_nat index) l).
Proof.
  intros H0 Hlt. destruct (lookup_lt_is_Some_2 l _ Hlt) as [x Hx].
  exists x. unfold FastTable.remove.
  now rewrite (proj2 (FastTable_get_inr l index x) (conj H0 Hx)).
Qed.

(* ================================================================== *)
(** * The invariant [wf] *)

Section WellFormed.
Variable P : ServiceListener_API -> option string -> Prop.

Lemma bundle_ok_mono (m m' : Memory) (bundle : BundleImpl_API) :
  (List.length (references m) <= List.length (references m'))%nat ->
  (contexts m <= contexts m')%nat ->
  bundle_ok P m bundle -> bundle_ok P m' bundle.
Proof.
  intros Hr Hc (H1 & H2 & H3 & H4 & H5). repeat split; auto.
  - eapply Forall_impl; [exact H4|]. simpl. intros. lia.
  - intros c Hctx. specialize (H5 c Hctx). lia.
Qed.

Lemma wf_shape (m m' : Memory) :
  _bundles m' = _bundles m ->
  (List.length (references m) <= List.length (references m'))%nat ->
  (contexts m <= contexts m')%nat ->
  wf P m -> wf P m'.
Proof.
  unfold wf. intros -> Hr Hc H. eapply Forall_impl; [exact H|].
  intros bundle. now apply bundle_ok_mono.
Qed.

Lemma wf_shaped {A : Type} (m : M A) :
  (forall w, let m' := memory (world_after (m w)) in
             _bundles m' = _bundles (memory w)
             /\ (List.length (references (memory w))
                 <= List.length (references m'))%nat
             /\ (contexts (memory w) <= contexts m')%nat) ->
  preserves (wfW P) m.
Proof.
  intros H w Hw. specialize (H w). simpl in H. destruct H as (Hb & Hr & Hc).
  destruct (m w) as [a w'|e w'|w']; simpl in *; eapply wf_shape; eauto.
Qed.


Lemma wf_Logging_error (e : Throwable) : preserves (wfW P) (Logging_error e).
Proof.
  apply wf_shaped. intros w. unfold Logging_error.
  destruct (t_message e); simpl; auto.
Qed.

Lemma wf_recorded (l : ServiceListener_API) (ev : ServiceEvent_API) :
  preserves (wfW P)
    (fun w =>
       Returned tt
         (mkWorld (memory w) (delivered w ++ [mkDelivery l ev (memory w)])
            (logged w))).
Proof. apply wf_shaped. intros w. simpl. auto. Qed.

Lemma wf_bundles_get (i : Z) : preserves (wfW P) (OSGiImpl_bundles_get i).
Proof.
  apply preserves_reader. intros w. unfold OSGiImpl_bundles_get.
  now destruct (FastTable.get _ i).
Qed.

Lemma wf_clear_ref_bundle (r : nat) : preserves (wfW P) (clear_ref_bundle r).
Proof.
  apply wf_shaped. intros w. unfold clear_ref_bundle, bind, the_reference.
  destruct (_ !! _); simpl; [|auto].
  rewrite length_insert. auto.
Qed.

Lemma triple_ServiceReferenceImpl_new (b : nat) (n : string) (s : Object) :
  triple (wfW P) (ServiceReferenceImpl_new b n s)
    (fun r w => (wfW P) w /\ (r < List.length (references (memory w)))%nat) (wfW P).
Proof.
  intros w Hw. simpl. split.
  - eapply wf_shape; [| | |exact Hw]; simpl; auto.
    rewrite length_app. lia.
  - rewrite length_app. simpl. lia.
Qed.

Lemma triple_BundleContextImpl_new (b : nat) :
  triple (wfW P) (BundleContextImpl_new b)
    (fun c w => (wfW P) w /\ (context_id c < contexts (memory w))%nat) (wfW P).
Proof.
  intros w Hw. simpl. split; [|lia].
  eapply wf_shape; [| | |exact Hw]; simpl; auto.
Qed.

(** A field assignment keeps [wf] when it keeps the bundle well formed. *)
Lemma triple_update_bundle (Q : World -> Prop) (b : nat)
  (f : BundleImpl_API -> BundleImpl_API) :
  (forall w this, Q w -> bundle_ok P (memory w) this ->
                  bundle_ok P (memory w) (f this)) ->
  triple (fun w => (wfW P) w /\ Q w) (update_bundle b f) (fun _ => (wfW P)) (wfW P).
Proof.
  intros Hf w [Hw HQ]. rewrite update_bundle_eq.
  destruct (_bundles (memory w) !! b) as [this|] eqn:E; [|exact Hw].
  unfold wfW, wf in *. simpl. apply Forall_insert.
  - eapply Forall_impl; [exact Hw|]. intros x. now apply bundle_ok_mono.
  - eapply bundle_ok_mono with (m := memory w); [simpl; lia..|].
    apply Hf; [exact HQ|]. eapply Forall_lookup_1; eauto.
Qed.

Lemma wf_update_bundle (b : nat) (f : BundleImpl_API -> BundleImpl_API) :
  (forall m this, bundle_ok P m this -> bundle_ok P m (f this)) ->
  preserves (wfW P) (update_bundle b f).
Proof.
  intros Hf. eapply triple_weaken.
  - apply (triple_update_bundle (fun _ => True) b f). intros w this _. apply Hf.
  - intros w Hw. split; [exact Hw | exact Logic.I].
  - auto.
  - auto.
Qed.

Lemma bundle_ok_with_state m s this :
  bundle_ok P m this -> bundle_ok P m (with_state s this).
Proof. unfold bundle_ok. simpl. tauto. Qed.

Lemma bundle_ok_with_context_None m this :
  bundle_ok P m this -> bundle_ok P m (with_context None this).
Proof.
  unfold bundle_ok. simpl. intros (H1 & H2 & H3 & H4 & H5).
  repeat split; auto; discriminate.
Qed.

Lemma bundle_ok_with_context_Some m c this :
  (context_id c < contexts m)%nat ->
  bundle_ok P m this -> bundle_ok P m (with_context (Some c) this).
Proof.
  unfold bundle_ok. simpl. intros Hc (H1 & H2 & H3 & H4 & H5).
  repeat split; auto; now intros c' [= <-].
Qed.

Lemma bundle_ok_clear_references m this :
  bundle_ok P m this ->
  bundle_ok P m
    (with_serviceReferences (FastTable.clear (_serviceReferences this)) this).
Proof.
  unfold bundle_ok. simpl. intros (H1 & H2 & H3 & H4 & H5).
  repeat split; auto; constructor.
Qed.

Lemma bundle_ok_add_reference m r this :
  (r < List.length (references m))%nat ->
  bundle_ok P m this ->
  bundle_ok P m
    (with_serviceReferences (FastTable.add (_serviceReferences this) r) this).
Proof.
  unfold bundle_ok. simpl. intros Hr (H1 & H2 & H3 & H4 & H5).
  repeat split; auto; unfold FastTable.add; apply Forall_app; split; auto.
Qed.

Lemma bundle_ok_BundleImpl_new m n a :
  Forall (call_ok P) (start_hook a) -> Forall (call_ok P) (stop_hook a) ->
  bundle_ok P m (BundleImpl_new n a).
Proof.
  intros H1 H2. unfold bundle_ok. simpl.
  repeat split; auto; try constructor; discriminate.
Qed.

Lemma wf_OSGiImpl_addBundle (n : string) (a : BundleActivator_API) :
  Forall (call_ok P) (start_hook a) -> Forall (call_ok P) (stop_hook a) ->
  preserves (wfW P) (OSGiImpl_addBundle n a).
Proof.
  intros H1 H2 w Hw. unfold wfW, wf in *. simpl. unfold FastTable.add.
  apply Forall_app. split.
  - eapply Forall_impl; [exact Hw|]. intros x. now apply bundle_ok_mono.
  - constructor; [|constructor]. apply bundle_ok_BundleImpl_new; assumption.
Qed.

End WellFormed.

Lemma addServiceListener_at (this : BundleContextImpl_API)
  (sl : ServiceListener_API) (filter : option string) (bundle : BundleImpl_API)
  (w : World) :
  _bundles (memory w) !! ctx_bundle this = Some bundle ->
  BundleContextImpl_addServiceListener this sl filter w
  = Returned tt
      (replace_bundle (ctx_bundle this)
         (with_serviceListenerFilters (_serviceListenerFilters bundle ++ [filter])
            (with_serviceListeners (_serviceListeners bundle ++ [sl]) bundle))
         w).
Proof.
  intros H. unfold BundleContextImpl_addServiceListener, bind.
  rewrite (update_bundle_at _ _ _ _ H).
  erewrite update_bundle_at by (eapply lookup_replace_bundle; eauto).
  now rewrite replace_replace_bundle.
Qed.

Lemma addServiceListener_null (this : BundleContextImpl_API)
  (sl : ServiceListener_API) (filter : option string) (w : World) :
  _bundles (memory w) !! ctx_bundle this = None ->
  BundleContextImpl_addServiceListener this sl filter w
  = Thrown NullPointerException_nullHandle w.
Proof.
  intros H. unfold BundleContextImpl_addServiceListener, bind.
  now rewrite update_bundle_eq, H.
Qed.

Lemma unregisterListeners_at (b : nat) (bundle : BundleImpl_API) (w : World) :
  _bundles (memory w) !! b = Some bundle ->
  BundleImpl_unregisterListeners b w
  = Returned tt
      (replace_bundle b
         (with_serviceListenerFilters [] (with_serviceListeners [] bundle)) w).
Proof.
  intros H. unfold BundleImpl_unregisterListeners, bind.
  rewrite (update_bundle_at _ _ _ _ H).
  erewrite update_bundle_at by (eapply lookup_replace_bundle; eauto).
  now rewrite replace_replace_bundle.
Qed.

Section WellFormedCompound.
Variable P : ServiceListener_API -> option string -> Prop.

Lemma wf_replace_bundle (b : nat) (bundle : BundleImpl_API) (w : World) :
  wfW P w -> bundle_ok P (memory w) bundle ->
  wfW P (replace_bundle b bundle w).
Proof.
  intros Hw Hb. unfold wfW, wf in *. simpl. apply Forall_insert.
  - eapply Forall_impl; [exact Hw|]. intros x. now apply bundle_ok_mono.
  - eapply bundle_ok_mono with (m := memory w); [simpl; lia..|exact Hb].
Qed.

Lemma wf_lookup (b : nat) (bundle : BundleImpl_API) (w : World) :
  wfW P w -> _bundles (memory w) !! b = Some bundle ->
  bundle_ok P (memory w) bundle.
Proof. intros Hw H. eapply Forall_lookup_1; eauto. Qed.

Lemma wf_addServiceListener this sl filter :
  P sl filter ->
  preserves (wfW P) (BundleContextImpl_addServiceListener this sl filter).
Proof.
  intros HP w Hw.
  destruct (_bundles (memory w) !! ctx_bundle this) as [bundle|] eqn:E.
  - rewrite (addServiceListener_at _ _ _ _ _ E).
    apply wf_replace_bundle; [exact Hw|].
    destruct (wf_lookup _ _ _ Hw E) as (H1 & H2 & H3 & H4 & H5).
    repeat split; simpl; auto. apply Forall2_app; auto.
  - now rewrite addServiceListener_null.
Qed.

Lemma wf_unregisterListeners b :
  preserves (wfW P) (BundleImpl_unregisterListeners b).
Proof.
  intros w Hw.
  destruct (_bundles (memory w) !! b) as [bundle|] eqn:E.
  - rewrite (unregisterListeners_at _ _ _ E).
    apply wf_replace_bundle; [exact Hw|].
    destruct (wf_lookup _ _ _ Hw E) as (H1 & H2 & H3 & H4 & H5).
    repeat split; simpl; auto.
  - unfold BundleImpl_unregisterListeners, bind.
    now rewrite update_bundle_eq, E.
Qed.

Lemma wf_removeServiceListener this sl :
  preserves (wfW P) (BundleContextImpl_removeServiceListener this sl).
Proof.
  intros w Hw. unfold BundleContextImpl_removeServiceListener, bind.
  destruct (_bundles (memory w) !! ctx_bundle this) as [bundle|] eqn:E.
  2: { unfold the_bundle. now rewrite E. }
  rewrite (the_bundle_at _ _ _ E).
  destruct (wf_lookup _ _ _ Hw E) as (H1 & H2 & H3 & H4 & H5).
  set (index := FastTable.indexOf ServiceListener_equals
                  (_serviceListeners bundle) sl).
  destruct (FastTable.remove (_serviceListeners bundle) index)
    as [e|[x ls']] eqn:R1; simpl; [exact Hw|].
  apply FastTable_remove_inr in R1 as (H0 & Hlt & ->).
  rewrite (update_bundle_at _ _ _ _ E).
  erewrite the_bundle_at by (eapply lookup_replace_bundle; eauto).
  simpl _serviceListenerFilters.
  destruct (FastTable_remove_in_range (_serviceListenerFilters bundle) index H0)
    as [y R2].
  { rewrite <- (Forall2_length _ _ _ H1). exact Hlt. }
  rewrite R2. simpl.
  erewrite update_bundle_at by (eapply lookup_replace_bundle; eauto).
  rewrite replace_replace_bundle.
  apply wf_replace_bundle; [exact Hw|].
  repeat split; simpl; auto. now apply Forall2_delete.
Qed.

End WellFormedCompound.

Lemma aligned_of_wf P (m : Memory) : wf P m -> Forall aligned (_bundles m).
Proof.
  unfold wf. intros H. eapply Forall_impl; [exact H|].
  intros bundle (H1 & _). exact (Forall2_length _ _ _ H1).
Qed.

Lemma call_ok_True (calls : list Call) : Forall (call_ok (fun _ _ => True)) calls.
Proof. apply Forall_forall. intros c _. now destruct c. Qed.

Lemma closed_True : closed (fun _ _ => True).
Proof. intros l stored ev _. apply call_ok_True. Qed.

Ltac wf_leaf :=
  first
    [ apply wf_update_bundle; intros ? ? ?;
      first [ apply bundle_ok_with_state
            | apply bundle_ok_with_context_None
            | apply bundle_ok_clear_references ]; assumption
    | apply wf_clear_ref_bundle
    | apply wf_Logging_error
    | apply wf_recorded
    | apply wf_bundles_get
    | apply wf_unregisterListeners
    | apply wf_removeServiceListener ].

(** Code that reads a bundle may rely on what [wf] says of it. *)
Lemma wf_bind_the_bundle {B : Type} P (b : nat) (k : BundleImpl_API -> M B) :
  (forall this,
      Forall2 P (_serviceListeners this) (_serviceListenerFilters this) ->
      Forall (call_ok P) (start_hook (_activator this)) ->
      Forall (call_ok P) (stop_hook (_activator this)) ->
      preserves (wfW P) (k this)) ->
  preserves (wfW P) (bind (the_bundle b) k).
Proof.
  intros Hk. apply preserves_bind_the_bundle. intros this.
  eapply triple_pure
    with (phi := Forall2 P (_serviceListeners this) (_serviceListenerFilters this)
                 /\ Forall (call_ok P) (start_hook (_activator this))
                 /\ Forall (call_ok P) (stop_hook (_activator this))).
  - intros w [Hw Hb]. destruct (wf_lookup P _ _ _ Hw Hb) as (H1 & H2 & H3 & _).
    auto.
  - intros (H1 & H2 & H3). eapply triple_weaken; [apply (Hk this H1 H2 H3) | | |];
      simpl; tauto.
Qed.

Section WellFormedRegistry.
Variable P : ServiceListener_API -> option string -> Prop.
Hypothesis P_closed : closed P.
Variable fire : ServiceEvent_API -> M unit.
Hypothesis fire_wf : forall ev, preserves (wfW P) (fire ev).

Lemma wf_registerService this n s :
  preserves (wfW P) (BundleContextImpl_registerService fire this n s).
Proof.
  unfold BundleContextImpl_registerService.
  eapply triple_bind; [apply triple_ServiceReferenceImpl_new|].
  intros r. eapply triple_bind.
  - apply (triple_update_bundle P
             (fun w => (r < List.length (references (memory w)))%nat)).
    intros w bundle Hr Hb. now apply bundle_ok_add_reference.
  - intros u. repeat first [apply fire_wf | frame_step wf_leaf].
Qed.

Lemma wf_perform ctx c : call_ok P c -> preserves (wfW P) (perform fire ctx c).
Proof.
  intros Hc. destruct c; simpl;
    repeat first [ apply wf_registerService
                 | apply wf_addServiceListener; exact Hc
                 | frame_step wf_leaf ].
Qed.

Lemma wf_run_hook ctx calls :
  Forall (call_ok P) calls -> preserves (wfW P) (run_hook fire ctx calls).
Proof.
  induction 1 as [|c rest Hc _ IH]; simpl.
  - apply preserves_ret.
  - apply preserves_bind; [now apply wf_perform | intros _; exact IH].
Qed.

Lemma wf_invoke l stored ev :
  P l stored -> preserves (wfW P) (invoke fire l ev).
Proof.
  intros Hl. unfold invoke. apply preserves_bind; [wf_leaf|]. intros _.
  apply wf_run_hook. exact (P_closed l stored ev Hl).
Qed.

Lemma wf_notify_listeners n ev filter b :
  forall j, preserves (wfW P) (notify_listeners fire n ev filter b j).
Proof.
  induction n as [|n IH]; intros j; simpl; apply wf_bind_the_bundle;
    intros this H1 _ _; (destruct (j <? _); [|apply preserves_ret]).
  - apply preserves_unfinished.
  - destruct (FastTable.get (_serviceListenerFilters this) j) as [e|stored] eqn:Ef;
      simpl lift.
    { apply preserves_bind_throw. }
    apply preserves_bind_ret.
    apply preserves_bind; [|intros _; apply IH].
    destruct (String_equals filter stored); [|apply preserves_ret].
    destruct (FastTable.get (_serviceListeners this) j) as [e|l] eqn:El;
      simpl lift.
    { apply preserves_bind_throw. }
    apply preserves_bind_ret.
    apply FastTable_get_inr in Ef as [_ Ef].
    apply FastTable_get_inr in El as [_ El].
    apply (wf_invoke l stored). eapply Forall2_lookup_lr; eauto.
Qed.

Lemma wf_notify_bundles budget n ev filter :
  forall i, preserves (wfW P) (notify_bundles fire budget n ev filter i).
Proof.
  induction n as [|n IH]; intros i w Hw; simpl.
  - now destruct (i <? _).
  - destruct (i <? _); [|exact Hw].
    revert w Hw. change (preserves (wfW P)
      (bundle <- OSGiImpl_bundles_get i ;;
       notify_listeners fire budget ev filter bundle 0 ;;
       notify_bundles fire budget n ev filter (i + 1))).
    repeat first [apply wf_notify_listeners | apply IH | frame_step wf_leaf].
Qed.

Lemma wf_fireServiceEvent_body budget ev :
  preserves (wfW P) (fireServiceEvent_body fire budget ev).
Proof.
  unfold fireServiceEvent_body.
  repeat first [apply wf_notify_bundles | frame_step wf_leaf].
Qed.

End WellFormedRegistry.

Lemma wf_fireServiceEvent P (fuel : nat) :
  closed P -> forall ev, preserves (wfW P) (OSGiImpl_fireServiceEvent fuel ev).
Proof.
  intros HP. induction fuel as [|fuel IH]; intros ev; simpl.
  - apply preserves_unfinished.
  - apply wf_fireServiceEvent_body; [exact HP | exact IH].
Qed.

Section WellFormedOperations.
Variable P : ServiceListener_API -> option string -> Prop.
Hypothesis P_closed : closed P.
Variable fuel : nat.

Lemma wf_unregister_each n b :
  forall i, preserves (wfW P) (unregister_each fuel n b i).
Proof.
  induction n as [|n IH]; intros i; simpl;
    repeat first [ apply wf_fireServiceEvent; exact P_closed
                 | apply IH | frame_step wf_leaf ].
Qed.

Lemma wf_unregisterServices b :
  preserves (wfW P) (BundleImpl_unregisterServices fuel b).
Proof.
  unfold BundleImpl_unregisterServices.
  repeat first [apply wf_unregister_each | frame_step wf_leaf].
Qed.

Lemma wf_hook calls ctx :
  Forall (call_ok P) calls ->
  preserves (wfW P) (run_hook (OSGiImpl_fireServiceEvent fuel) ctx calls).
Proof.
  intros H. apply wf_run_hook; [|exact H].
  apply wf_fireServiceEvent. exact P_closed.
Qed.

Lemma wf_BundleImpl_start b : preserves (wfW P) (BundleImpl_start fuel b).
Proof.
  unfold BundleImpl_start, BundleActivator_start.
  apply wf_bind_the_bundle. intros this _ _ _.
  destruct (negb _); [apply preserves_throw|].
  apply preserves_bind; [wf_leaf|]. intros _.
  apply preserves_try_catch.
  - apply wf_bind_the_bundle. intros this' _ H1 _.
    apply preserves_bind; [now apply wf_hook | intros _; wf_leaf].
  - intros e. unfold BundleImpl_start_catch.
    repeat first [ apply wf_unregisterServices | frame_step wf_leaf ].
Qed.

Lemma wf_BundleImpl_stop b : preserves (wfW P) (BundleImpl_stop fuel b).
Proof.
  unfold BundleImpl_stop, BundleActivator_stop, rethrow_as.
  apply wf_bind_the_bundle. intros this _ _ _.
  destruct (negb _); [apply preserves_ret|].
  apply preserves_bind; [wf_leaf|]. intros _.
  apply preserves_bind.
  - apply preserves_try_catch.
    + apply wf_bind_the_bundle. intros this' _ _ H2.
      apply preserves_bind; [now apply wf_hook | intros _; apply preserves_ret].
    + intros e. apply preserves_ret.
  - intros error.
    repeat first [ apply wf_unregisterServices | frame_step wf_leaf ].
Qed.

Lemma wf_start_bundle b :
  preserves (wfW P)
    (context <- BundleContextImpl_new b ;;
     update_bundle b (with_context (Some context)) ;;
     BundleImpl_start fuel b).
Proof.
  eapply triple_bind; [apply triple_BundleContextImpl_new|].
  intros c. eapply triple_bind.
  - apply (triple_update_bundle P
             (fun w => (context_id c < contexts (memory w))%nat)).
    intros w this Hc Hb. now apply bundle_ok_with_context_Some.
  - intros u. apply wf_BundleImpl_start.
Qed.

Lemma wf_OSGiImpl_start_body n a :
  Forall (call_ok P) (start_hook a) -> Forall (call_ok P) (stop_hook a) ->
  preserves (wfW P) (OSGiImpl_start_body fuel n a).
Proof.
  intros H1 H2. unfold OSGiImpl_start_body, OSGiImpl_getBundle.
  apply preserves_bind; [now apply preserves_reader|]. intros found.
  apply preserves_bind.
  - destruct found; [apply preserves_ret | now apply wf_OSGiImpl_addBundle].
  - intros bundle. apply wf_start_bundle.
Qed.

Lemma wf_OSGiImpl_start n a :
  Forall (call_ok P) (start_hook a) -> Forall (call_ok P) (stop_hook a) ->
  preserves (wfW P) (OSGiImpl_start fuel n a).
Proof.
  intros H1 H2. unfold OSGiImpl_start. apply preserves_try_catch.
  - now apply wf_OSGiImpl_start_body.
  - intros e. apply wf_Logging_error.
Qed.

Lemma wf_OSGiImpl_stop n : preserves (wfW P) (OSGiImpl_stop fuel n).
Proof.
  unfold OSGiImpl_stop, OSGiImpl_stop_body, OSGiImpl_getBundle.
  repeat first [ apply wf_BundleImpl_stop | frame_step wf_leaf ].
Qed.

(* ================================================================== *)
(** * Sequences of operations *)

Lemma step_wf (op : Operation) (w : World) :
  op_ok P op -> wfW P w -> wfW P (step fuel op w).
Proof.
  intros Hop Hw. destruct op; simpl; apply preserves_world_after; auto.
  - destruct Hop. now apply wf_OSGiImpl_start.
  - apply wf_OSGiImpl_stop.
  - apply wf_BundleImpl_start.
  - apply wf_BundleImpl_stop.
  - apply wf_perform; [|exact Hop]. apply wf_fireServiceEvent. exact P_closed.
Qed.

Lemma run_wf (ops : list Operation) (w : World) :
  Forall (op_ok P) ops -> wfW P w -> wfW P (run fuel ops w).
Proof.
  intros H. revert w. induction H as [|op rest Hop _ IH]; intros w Hw; simpl.
  - exact Hw.
  - apply IH. now apply step_wf.
Qed.

End WellFormedOperations.

(* ================================================================== *)
(** * Event delivery to listeners that do not call back *)

Lemma record_nil (ev : ServiceEvent_API) (w : World) : record ev [] w = w.
Proof. unfold record. simpl. rewrite app_nil_r. now destruct w. Qed.

Lemma record_record (ev : ServiceEvent_API) (a b : list ServiceListener_API)
  (w : World) :
  record ev b (record ev a w) = record ev (a ++ b) w.
Proof. unfold record. simpl. now rewrite map_app, app_assoc. Qed.

Lemma until_raise_app (ev : ServiceEvent_API) (a b : list ServiceListener_API) :
  until_raise ev (a ++ b)
  = match until_raise ev a with
    | (ia, Some e) => (ia, Some e)
    | (ia, None) => ((ia ++ fst (until_raise ev b))%list, snd (until_raise ev b))
    end.
Proof.
  induction a as [|l a IH]; simpl.
  - now destruct (until_raise ev b).
  - destruct (raised ev l); [reflexivity|].
    rewrite IH. destruct (until_raise ev a) as [ia [e|]]; reflexivity.
Qed.

Lemma raised_quiet (ev : ServiceEvent_API) (l : ServiceListener_API) :
  serviceChanged l ev = [] -> raised ev l = None.
Proof. unfold raised. now intros ->. Qed.

Lemma passive_quiet (ev : ServiceEvent_API) (l : ServiceListener_API) :
  serviceChanged l ev = [] -> passive ev l.
Proof. unfold passive. now intros ->. Qed.

Lemma until_raise_quiet (ev : ServiceEvent_API) (ls : list ServiceListener_API) :
  Forall (fun l => serviceChanged l ev = []) ls ->
  until_raise ev ls = (ls, None).
Proof.
  induction 1 as [|l ls Hl _ IH]; simpl; [reflexivity|].
  now rewrite (raised_quiet _ _ Hl), IH.
Qed.

Lemma until_raise_prefix (ev : ServiceEvent_API) (ls : list ServiceListener_API) :
  exists rest, ls = (fst (until_raise ev ls) ++ rest)%list.
Proof.
  induction ls as [|l ls [rest IH]]; simpl.
  - now exists [].
  - destruct (raised ev l).
    + now exists ls.
    + destruct (until_raise ev ls) as [inv r]. simpl in *.
      exists rest. now f_equal.
Qed.

Section Delivery.
Variable fire : ServiceEvent_API -> M unit.

(** User code that ends before any call on the registry. *)
Lemma run_hook_at_once (ctx : option BundleContextImpl_API) (calls : list Call)
  (r : option Throwable) (w : World) :
  at_once calls = Some r -> run_hook fire ctx calls w = finish r w.
Proof.
  destruct calls as [|[] rest]; simpl; try discriminate; now intros [= <-].
Qed.

Lemma invoke_passive (l : ServiceListener_API) (ev : ServiceEvent_API)
  (w : World) :
  passive ev l ->
  invoke fire l ev w = finish (raised ev l) (record ev [l] w).
Proof.
  unfold passive, raised, invoke. intros H. unfold bind at 1.
  destruct (at_once (serviceChanged l ev)) as [r|] eqn:E; [|contradiction].
  now rewrite (run_hook_at_once _ _ r _ E).
Qed.

(** The inner loop on two tables in lock step, entered at the index
    that follows [pre_fs]. *)
Lemma notify_listeners_eq (ev : ServiceEvent_API) (filter : string) (b : nat)
  (this : BundleImpl_API) :
  forall (post_fs : list (option string)) (post_ls pre_ls : list ServiceListener_API)
         (pre_fs : list (option string)) (n : nat) (w : World),
    _bundles (memory w) !! b = Some this ->
    _serviceListeners this = (pre_ls ++ post_ls)%list ->
    _serviceListenerFilters this = (pre_fs ++ post_fs)%list ->
    List.length pre_ls = List.length pre_fs ->
    List.length post_ls = List.length post_fs ->
    (List.length post_fs <= n)%nat ->
    Forall (passive ev) (select filter post_ls post_fs) ->
    notify_listeners fire n ev filter b (Z.of_nat (List.length pre_fs)) w
    = finish (snd (until_raise ev (select filter post_ls post_fs)))
        (record ev (fst (until_raise ev (select filter post_ls post_fs))) w).
Proof.
  induction post_fs as [|f rest IH];
    intros post_ls pre_ls pre_fs n w Hb Hls Hfs Hpre Hpost Hn Hp.
  - destruct post_ls; [|discriminate]. simpl. rewrite record_nil.
    destruct n; simpl; unfold bind; rewrite (the_bundle_at b this w Hb);
      rewrite Hfs, app_nil_r; unfold FastTable.size;
      now rewrite Z.ltb_irrefl.
  - destruct post_ls as [|l ls]; [discriminate|]. injection Hpost as Hpost.
    destruct n as [|n]; [simpl in Hn; lia|].
    cbn [notify_listeners]. unfold bind at 1.
    rewrite (the_bundle_at b this w Hb).
    assert (Hlt : (Z.of_nat (List.length pre_fs)
                   <? FastTable.size (_serviceListenerFilters this)) = true).
    { apply Z.ltb_lt. unfold FastTable.size. rewrite Hfs, length_app. simpl. lia. }
    rewrite Hlt.
    rewrite (FastTable_get_lookup (_serviceListenerFilters this)
               (List.length pre_fs) f)
      by (rewrite Hfs, lookup_app_r by lia; now rewrite Nat.sub_diag).
    cbn [lift]. unfold bind at 1. unfold ret at 1.
    assert (Hnext : forall w',
               _bundles (memory w') !! b = Some this ->
               Forall (passive ev) (select filter ls rest) ->
               notify_listeners fire n ev filter b
                 (Z.of_nat (List.length pre_fs) + 1) w'
               = finish (snd (until_raise ev (select filter ls rest)))
                   (record ev (fst (until_raise ev (select filter ls rest))) w')).
    { intros w' Hb' Hp'.
      replace (Z.of_nat (List.length pre_fs) + 1)
        with (Z.of_nat (List.length (pre_fs ++ [f])))
        by (rewrite length_app; simpl; lia).
      apply (IH ls (pre_ls ++ [l])%list (pre_fs ++ [f])%list n w' Hb').
      - now rewrite <- app_assoc.
      - now rewrite <- app_assoc.
      - rewrite !length_app. simpl. lia.
      - exact Hpost.
      - simpl in Hn. lia.
      - exact Hp'. }
    simpl select in *. unfold bind at 1.
    destruct (String_equals filter f).
    + apply Forall_cons in Hp as [Hl Hp].
      unfold bind at 1.
      rewrite (FastTable_get_lookup (_serviceListeners this)
                 (List.length pre_fs) l)
        by (rewrite Hls, lookup_app_r by lia;
            now replace (List.length pre_fs - List.length pre_ls)%nat
              with 0%nat by lia).
      cbn [lift]. unfold ret at 1. rewrite (invoke_passive l ev w Hl).
      simpl until_raise. destruct (raised ev l) as [e|]; simpl finish.
      * reflexivity.
      * cbv beta iota. rewrite (Hnext (record ev [l] w) Hb Hp).
        destruct (until_raise ev (select filter ls rest)) as [inv r]. simpl.
        now rewrite record_record.
    + unfold ret at 1. apply (Hnext w Hb Hp).
Qed.

(** The outer loop, entered at the index that follows [pre]. *)
Lemma notify_bundles_eq (ev : ServiceEvent_API) (filter : string)
  (budget : nat) :
  forall (post pre : list BundleImpl_API) (n : nat) (w : World),
    _bundles (memory w) = (pre ++ post)%list ->
    Forall aligned post ->
    Forall
      (fun bundle => (List.length (_serviceListenerFilters bundle) <= budget)%nat)
      post ->
    (List.length post <= n)%nat ->
    Forall (passive ev) (subscribers filter post) ->
    notify_bundles fire budget n ev filter (Z.of_nat (List.length pre)) w
    = finish (snd (until_raise ev (subscribers filter post)))
        (record ev (fst (until_raise ev (subscribers filter post))) w).
Proof.
  induction post as [|bundle rest IH]; intros pre n w Hbs Hal Hbud Hn Hp.
  - simpl. rewrite record_nil.
    destruct n; simpl; rewrite Hbs, app_nil_r; unfold FastTable.size;
      now rewrite Z.ltb_irrefl.
  - destruct n as [|n]; [simpl in Hn; lia|].
    apply Forall_cons in Hal as [Hb Hal]. apply Forall_cons in Hbud as [Hbb Hbud].
    cbn [notify_bundles].
    assert (Hlt : (Z.of_nat (List.length pre)
                   <? FastTable.size (_bundles (memory w))) = true).
    { apply Z.ltb_lt. unfold FastTable.size. rewrite Hbs, length_app. simpl. lia. }
    rewrite Hlt. unfold bind at 1. unfold OSGiImpl_bundles_get.
    rewrite (FastTable_get_lookup (_bundles (memory w)) (List.length pre) bundle)
      by (rewrite Hbs, lookup_app_r by lia; now rewrite Nat.sub_diag).
    rewrite Nat2Z.id. unfold bind at 1.
    assert (Hlook : _bundles (memory w) !! List.length pre = Some bundle)
      by (rewrite Hbs, lookup_app_r by lia; now rewrite Nat.sub_diag).
    unfold subscribers in Hp. simpl in Hp. apply Forall_app in Hp as [Hp1 Hp2].
    change 0 with (Z.of_nat (List.length (@nil (option string)))).
    rewrite (notify_listeners_eq ev filter (List.length pre) bundle
               (_serviceListenerFilters bundle) (_serviceListeners bundle)
               [] [] budget w Hlook eq_refl eq_refl eq_refl Hb Hbb Hp1).
    unfold subscribers. simpl flat_map. rewrite until_raise_app.
    destruct (until_raise ev (select filter (_serviceListeners bundle)
                                (_serviceListenerFilters bundle)))
      as [ia [e|]]; simpl.
    + reflexivity.
    + replace (Z.of_nat (List.length pre) + 1)
        with (Z.of_nat (List.length (pre ++ [bundle])))
        by (rewrite length_app; simpl; lia).
      rewrite (IH (pre ++ [bundle])%list n); auto.
      * now rewrite record_record.
      * simpl. rewrite Hbs. now rewrite <- app_assoc.
      * simpl in Hn. lia.
Qed.

End Delivery.

(** [fireServiceEvent] when the listeners subscribed to the service's
    interface name do not call back: the budget [fuel] is enough as soon
    as the tables are shorter than it. *)
Lemma fireServiceEvent_eq (fuel : nat) (ev : ServiceEvent_API)
  (ref : ServiceReferenceImpl_API) (w : World) :
  references (memory w) !! _reference ev = Some ref ->
  Forall aligned (_bundles (memory w)) ->
  within fuel (memory w) ->
  Forall (passive ev)
    (subscribers (FilterImpl.canonical (_serviceName ref)) (_bundles (memory w))) ->
  OSGiImpl_fireServiceEvent fuel ev w
  = finish
      (snd (until_raise ev
              (subscribers (FilterImpl.canonical (_serviceName ref))
                 (_bundles (memory w)))))
      (record ev
         (fst (until_raise ev
                 (subscribers (FilterImpl.canonical (_serviceName ref))
                    (_bundles (memory w)))))
         w).
Proof.
  intros Href Hal [Hlen Hin] Hp.
  destruct fuel as [|fuel]; [lia|].
  cbn [OSGiImpl_fireServiceEvent]. unfold fireServiceEvent_body. unfold bind at 1.
  rewrite (the_reference_at _ ref w Href).
  change 0 with (Z.of_nat (List.length (@nil BundleImpl_API))).
  apply (notify_bundles_eq (OSGiImpl_fireServiceEvent fuel) ev _ (S fuel)
           (_bundles (memory w)) [] (S fuel) w eq_refl Hal).
  - eapply Forall_impl; [exact Hin|]. simpl. intros x [H _]. lia.
  - lia.
  - exact Hp.
Qed.

Lemma within_eq (fuel : nat) (m m' : Memory) :
  _bundles m' = _bundles m -> within fuel m -> within fuel m'.
Proof. unfold within. now intros ->. Qed.

(* ================================================================== *)
(** * Every delivery is selected by a filter

    Reference objects are never dropped and never renamed; a callback
    is only ever invoked from a slot whose filter string is the one
    built from the event. *)

Lemma names_kept_refl (m : Memory) : names_kept m m.
Proof. intros r ref H. eauto. Qed.

Lemma names_kept_trans (m1 m2 m3 : Memory) :
  names_kept m1 m2 -> names_kept m2 m3 -> names_kept m1 m3.
Proof.
  intros H12 H23 r ref H. destruct (H12 r ref H) as (ref2 & H2 & Hn2).
  destruct (H23 r ref2 H2) as (ref3 & H3 & Hn3). exists ref3. split; congruence.
Qed.

Lemma names_kept_eq (m m' : Memory) :
  references m' = references m -> names_kept m m'.
Proof. intros E r ref H. rewrite E. eauto. Qed.

Lemma triple_bind_ret {A B : Type} (Pre : World -> Prop) (a : A) (k : A -> M B)
  (Post : B -> World -> Prop) (Exc : World -> Prop) :
  triple Pre (k a) Post Exc -> triple Pre (bind (ret a) k) Post Exc.
Proof. intros H w Hw. exact (H w Hw). Qed.

Lemma triple_bind_throw {A B : Type} (Pre : World -> Prop) (e : Throwable)
  (k : A -> M B) (Post : B -> World -> Prop) (Exc : World -> Prop) :
  (forall w, Pre w -> Exc w) -> triple Pre (bind (throw e) k) Post Exc.
Proof. intros H w Hw. exact (H w Hw). Qed.

Section Exact.
Variable pre : list Delivery.
Variable m0 : Memory.

Lemma exact_step (w w' : World) :
  exact pre m0 w -> delivered w' = delivered w ->
  names_kept (memory w) (memory w') -> exact pre m0 w'.
Proof.
  intros [Hd Hn] Ed Hk. split; [now rewrite Ed|].
  eapply names_kept_trans; eauto.
Qed.

Lemma exact_untouched {A : Type} (m : M A) :
  (forall w, delivered (world_after (m w)) = delivered w
             /\ references (memory (world_after (m w))) = references (memory w)) ->
  preserves (exact pre m0) m.
Proof.
  intros H w Hw. destruct (H w) as [Hd Hr].
  destruct (m w) as [a w'|e w'|w']; simpl in Hd, Hr;
    (eapply exact_step; [exact Hw | exact Hd | now apply names_kept_eq]).
Qed.

Lemma exact_update_bundle (b : nat) (f : BundleImpl_API -> BundleImpl_API) :
  preserves (exact pre m0) (update_bundle b f).
Proof.
  apply exact_untouched. intros w. rewrite update_bundle_eq.
  destruct (_ !! _); split; reflexivity.
Qed.

Lemma exact_clear_ref_bundle (r : nat) : preserves (exact pre m0) (clear_ref_bundle r).
Proof.
  intros w Hw. unfold clear_ref_bundle, bind, the_reference.
  destruct (references (memory w) !! r) as [ref|] eqn:E; [|exact Hw].
  eapply exact_step; [exact Hw | reflexivity |].
  intros r' ref' H. simpl. destruct (decide (r' = r)) as [->|Hne].
  - rewrite list_lookup_insert_eq by (eapply lookup_lt_Some; eauto).
    eexists. split; [reflexivity|]. simpl. congruence.
  - rewrite list_lookup_insert_ne by auto. eauto.
Qed.

Lemma exact_Logging_error (e : Throwable) : preserves (exact pre m0) (Logging_error e).
Proof.
  apply exact_untouched. intros w. unfold Logging_error.
  destruct (t_message e); split; reflexivity.
Qed.

Lemma exact_ServiceReferenceImpl_new (b : nat) (n : string) (s : Object) :
  preserves (exact pre m0) (ServiceReferenceImpl_new b n s).
Proof.
  intros w Hw. simpl. eapply exact_step; [exact Hw | reflexivity |].
  intros r ref H. simpl. exists ref. split; [|reflexivity].
  now apply lookup_app_l_Some.
Qed.

Lemma exact_BundleContextImpl_new (b : nat) :
  preserves (exact pre m0) (BundleContextImpl_new b).
Proof. apply exact_untouched. intros w. split; reflexivity. Qed.

Lemma exact_bundles_get (i : Z) : preserves (exact pre m0) (OSGiImpl_bundles_get i).
Proof.
  apply preserves_reader. intros w. unfold OSGiImpl_bundles_get.
  now destruct (FastTable.get _ i).
Qed.

Lemma exact_addBundle (n : string) (a : BundleActivator_API) :
  preserves (exact pre m0) (OSGiImpl_addBundle n a).
Proof. apply exact_untouched. intros w. split; reflexivity. Qed.

End Exact.

Ltac exact_leaf :=
  first
    [ apply exact_update_bundle
    | apply exact_clear_ref_bundle
    | apply exact_Logging_error
    | apply exact_ServiceReferenceImpl_new
    | apply exact_BundleContextImpl_new
    | apply exact_bundles_get
    | apply exact_addBundle ].

Section ExactRegistry.
Variable fire : ServiceEvent_API -> M unit.
Hypothesis fire_exact : forall pre m0 ev, preserves (exact pre m0) (fire ev).

Lemma exact_addServiceListener pre m0 this sl filter :
  preserves (exact pre m0) (BundleContextImpl_addServiceListener this sl filter).
Proof. unfold BundleContextImpl_addServiceListener. repeat frame_step exact_leaf. Qed.

Lemma exact_removeServiceListener pre m0 this sl :
  preserves (exact pre m0) (BundleContextImpl_removeServiceListener this sl).
Proof.
  unfold BundleContextImpl_removeServiceListener. repeat frame_step exact_leaf.
Qed.

Lemma exact_registerService pre m0 this n s :
  preserves (exact pre m0) (BundleContextImpl_registerService fire this n s).
Proof.
  unfold BundleContextImpl_registerService.
  repeat first [apply fire_exact | frame_step exact_leaf].
Qed.

Lemma exact_perform pre m0 ctx c : preserves (exact pre m0) (perform fire ctx c).
Proof.
  destruct c; simpl;
    repeat first [ apply exact_registerService | apply exact_addServiceListener
                 | apply exact_removeServiceListener | frame_step exact_leaf ].
Qed.

Lemma exact_run_hook pre m0 ctx calls : preserves (exact pre m0) (run_hook fire ctx calls).
Proof.
  induction calls as [|c rest IH]; simpl.
  - apply preserves_ret.
  - apply preserves_bind; [apply exact_perform | intros _; exact IH].
Qed.

(** A callback invoked from the slot [j] of the bundle [b], whose
    filter is the string built from the event. *)
Lemma exact_invoke (pre : list Delivery) (m1 : Memory) (ev : ServiceEvent_API)
  (ref0 : ServiceReferenceImpl_API) (b : nat) (this : BundleImpl_API) (j : nat)
  (l : ServiceListener_API) :
  references m1 !! _reference ev = Some ref0 ->
  _serviceListeners this !! j = Some l ->
  _serviceListenerFilters this !! j
  = Some (Some (FilterImpl.canonical (_serviceName ref0))) ->
  triple (fun w => exact pre m1 w /\ _bundles (memory w) !! b = Some this)
    (invoke fire l ev) (fun _ => exact pre m1) (exact pre m1).
Proof.
  intros Href Hl Hf. unfold invoke.
  eapply triple_bind with (Mid := fun _ => exact pre m1);
    [|intros _; apply exact_run_hook].
  intros w [[(ds & Hd & Hs) Hn] Hb]. split; [|exact Hn]. simpl.
  exists (ds ++ [mkDelivery l ev (memory w)])%list.
  split; [now rewrite Hd, <- app_assoc|].
  apply Forall_app. split; [exact Hs|]. constructor; [|constructor].
  exists b, this, j. simpl. split; [exact Hb|]. split; [exact Hl|].
  destruct (Hn _ _ Href) as (ref' & Hr' & Hname).
  unfold serviceName_of. now rewrite Hr', Hname.
Qed.

Lemma exact_notify_listeners (pre : list Delivery) (m1 : Memory) (ev : ServiceEvent_API)
  (ref0 : ServiceReferenceImpl_API) (n : nat) (b : nat) :
  references m1 !! _reference ev = Some ref0 ->
  forall j,
    preserves (exact pre m1)
      (notify_listeners fire n ev (FilterImpl.canonical (_serviceName ref0)) b j).
Proof.
  intros Href. induction n as [|n IH]; intros j; simpl;
    apply preserves_bind_the_bundle; intros this;
    (destruct (j <? _); [|apply triple_ret; tauto]).
  - intros w [Hw _]. exact Hw.
  - destruct (FastTable.get (_serviceListenerFilters this) j) as [e|stored] eqn:Ef;
      simpl lift.
    { apply triple_bind_throw. tauto. }
    apply triple_bind_ret.
    eapply triple_bind with (Mid := fun _ => exact pre m1); [|intros _; apply IH].
    destruct (String_equals _ stored) eqn:Es; [|apply triple_ret; tauto].
    destruct (FastTable.get (_serviceListeners this) j) as [e|l] eqn:El;
      simpl lift.
    { apply triple_bind_throw. tauto. }
    apply triple_bind_ret.
    apply FastTable_get_inr in Ef as [_ Ef].
    apply FastTable_get_inr in El as [_ El].
    destruct stored as [s|]; [|discriminate Es].
    apply String.eqb_eq in Es. subst s.
    eapply exact_invoke; eauto.
Qed.

Lemma exact_notify_bundles (pre : list Delivery) (m1 : Memory) (ev : ServiceEvent_API)
  (ref0 : ServiceReferenceImpl_API) (budget n : nat) :
  references m1 !! _reference ev = Some ref0 ->
  forall i,
    preserves (exact pre m1)
      (notify_bundles fire budget n ev
         (FilterImpl.canonical (_serviceName ref0)) i).
Proof.
  intros Href. induction n as [|n IH]; intros i w Hw; simpl.
  - now destruct (i <? _).
  - destruct (i <? _); [|exact Hw].
    revert w Hw. change (preserves (exact pre m1)
      (bundle <- OSGiImpl_bundles_get i ;;
       notify_listeners fire budget ev
         (FilterImpl.canonical (_serviceName ref0)) bundle 0 ;;
       notify_bundles fire budget n ev
         (FilterImpl.canonical (_serviceName ref0)) (i + 1))).
    repeat first [ eapply exact_notify_listeners; exact Href | apply IH
                 | frame_step exact_leaf ].
Qed.

Lemma exact_fireServiceEvent_body pre m0 budget ev :
  preserves (exact pre m0) (fireServiceEvent_body fire budget ev).
Proof.
  intros w Hw. unfold fireServiceEvent_body. unfold bind at 1, the_reference.
  destruct (references (memory w) !! _reference ev) as [ref0|] eqn:E;
    [|exact Hw].
  assert (H1 : exact pre (memory w) w)
    by (split; [apply Hw | apply names_kept_refl]).
  pose proof (exact_notify_bundles pre (memory w) ev ref0 budget budget E 0 w H1)
    as Hp.
  change ("(" ++ Constants.OBJECTCLASS ++ "=" ++ _serviceName ref0 ++ ")")
    with (FilterImpl.canonical (_serviceName ref0)).
  destruct Hw as [_ Hn].
  destruct (notify_bundles _ _ _ _ _ _ w) as [a w'|e w'|w'];
    (destruct Hp as [Hd Hk]; split;
     [exact Hd | eapply names_kept_trans; [exact Hn | exact Hk]]).
Qed.

End ExactRegistry.

Lemma exact_fireServiceEvent (fuel : nat) :
  forall pre m0 ev, preserves (exact pre m0) (OSGiImpl_fireServiceEvent fuel ev).
Proof.
  induction fuel as [|fuel IH]; intros pre m0 ev; simpl.
  - apply preserves_unfinished.
  - apply exact_fireServiceEvent_body. exact IH.
Qed.

Section ExactOperations.
Variable pre : list Delivery.
Variable m0 : Memory.
Variable fuel : nat.

Lemma exact_unregister_each n b :
  forall i, preserves (exact pre m0) (unregister_each fuel n b i).
Proof.
  induction n as [|n IH]; intros i; simpl;
    repeat first [apply exact_fireServiceEvent | apply IH | frame_step exact_leaf].
Qed.

Lemma exact_unregisterServices b :
  preserves (exact pre m0) (BundleImpl_unregisterServices fuel b).
Proof.
  unfold BundleImpl_unregisterServices.
  repeat first [apply exact_unregister_each | frame_step exact_leaf].
Qed.

Lemma exact_unregisterListeners b :
  preserves (exact pre m0) (BundleImpl_unregisterListeners b).
Proof. unfold BundleImpl_unregisterListeners. repeat frame_step exact_leaf. Qed.

Lemma exact_hook ctx calls :
  preserves (exact pre m0) (run_hook (OSGiImpl_fireServiceEvent fuel) ctx calls).
Proof. apply exact_run_hook. apply exact_fireServiceEvent. Qed.

Lemma exact_BundleImpl_start b : preserves (exact pre m0) (BundleImpl_start fuel b).
Proof.
  unfold BundleImpl_start, BundleImpl_start_catch, BundleActivator_start.
  repeat first [ apply exact_hook | apply exact_unregisterServices
               | apply exact_unregisterListeners | frame_step exact_leaf ].
Qed.

Lemma exact_BundleImpl_stop b : preserves (exact pre m0) (BundleImpl_stop fuel b).
Proof.
  unfold BundleImpl_stop, BundleActivator_stop, rethrow_as.
  repeat first [ apply exact_hook | apply exact_unregisterServices
               | apply exact_unregisterListeners | frame_step exact_leaf ].
Qed.

Lemma exact_OSGiImpl_start n a : preserves (exact pre m0) (OSGiImpl_start fuel n a).
Proof.
  unfold OSGiImpl_start, OSGiImpl_start_body, OSGiImpl_getBundle.
  repeat first [ apply exact_BundleImpl_start | frame_step exact_leaf ].
Qed.

Lemma exact_OSGiImpl_stop n : preserves (exact pre m0) (OSGiImpl_stop fuel n).
Proof.
  unfold OSGiImpl_stop, OSGiImpl_stop_body, OSGiImpl_getBundle.
  repeat first [ apply exact_BundleImpl_stop | frame_step exact_leaf ].
Qed.

Lemma step_exact (op : Operation) (w : World) :
  exact pre m0 w -> exact pre m0 (step fuel op w).
Proof.
  intros Hw. destruct op; simpl; apply preserves_world_after; auto.
  - apply exact_OSGiImpl_start.
  - apply exact_OSGiImpl_stop.
  - apply exact_BundleImpl_start.
  - apply exact_BundleImpl_stop.
  - apply exact_perform. apply exact_fireServiceEvent.
Qed.

Lemma run_exact (ops : list Operation) :
  forall w, exact pre m0 w -> exact pre m0 (run fuel ops w).
Proof.
  induction ops as [|op rest IH]; intros w Hw; simpl; [exact Hw|].
  apply IH. now apply step_exact.
Qed.

End ExactOperations.

(* ================================================================== *)
(** * The pairs handed to [addServiceListener] *)

Lemma handed_closed (ops : list Operation) : closed (handed ops).
Proof.
  intros l stored ev Hl. apply Forall_forall. intros c Hc.
  destruct c; simpl; auto. eapply handed_by_callback; eauto.
Qed.

Lemma call_ok_issued (ops : list Operation) (calls : list Call) :
  (forall p, p ∈ flat_map call_pairs calls -> p ∈ issued ops) ->
  Forall (call_ok (handed ops)) calls.
Proof.
  induction calls as [|c rest IH]; intros H; constructor.
  - destruct c; simpl; auto. apply handed_by_operation, H. simpl.
    apply elem_of_cons. now left.
  - apply IH. intros p Hp. apply H. simpl. apply elem_of_app. now right.
Qed.

Lemma op_ok_issued (ops : list Operation) : Forall (op_ok (handed ops)) ops.
Proof.
  apply Forall_forall. intros op Hop.
  assert (Hsub : forall p, p ∈ issued_by op -> p ∈ issued ops).
  { intros p Hp. unfold issued. apply list_elem_of_In, in_flat_map.
    exists op. split; now apply list_elem_of_In. }
  destruct op; simpl; auto.
  - split; apply call_ok_issued; intros p Hp; apply Hsub; simpl;
      unfold activator_pairs; rewrite flat_map_app; apply elem_of_app; auto.
  - destruct c; simpl; auto. apply handed_by_operation, Hsub. simpl.
    apply elem_of_cons. now left.
Qed.

(** When no listener that the operations hand over adds a listener from
    its callback, the pairs handed over are those of the operations. *)
Lemma handed_issued (ops : list Operation) :
  (forall sl filter ev sl' filter',
      (sl, filter) ∈ issued ops ->
      CallAddServiceListener sl' filter' ∉ serviceChanged sl ev) ->
  forall sl filter, handed ops sl filter -> (sl, filter) ∈ issued ops.
Proof.
  intros H sl filter Hh. induction Hh as [sl filter Hi|l stored ev sl filter _ IH Hc].
  - exact Hi.
  - destruct (H l stored ev sl filter IH Hc).
Qed.

(** C9.  Whatever sequence of registry starts and stops, bundle starts
    and stops, and context calls ([addServiceListener],
    [removeServiceListener], [registerService]) is run on a new registry,
    whatever the step budget, however each of them ends or is cut off,
    and whatever the listeners do from their callbacks, every bundle's
    listener table and filter table have the same length, and the
    listener and the filter found at the same index were handed to
    [addServiceListener] together: by one of the operations, by an
    activator hook, or by the callback of a listener so handed over.
    When no such callback adds a listener, they are a pair of the
    operations and of their activators. *)
Theorem listener_tables_in_lock_step (fuel : nat) (ops : list Operation) :
  Forall
    (fun bundle =>
       aligned bundle
       /\ forall i sl filter,
            _serviceListeners bundle !! i = Some sl ->
            _serviceListenerFilters bundle !! i = Some filter ->
            handed ops sl filter)
    (_bundles (memory (run fuel ops OSGiImpl_new)))
  /\ ((forall sl filter ev sl' filter',
         (sl, filter) ∈ issued ops ->
         CallAddServiceListener sl' filter' ∉ serviceChanged sl ev) ->
      Forall
        (fun bundle =>
           forall i sl filter,
             _serviceListeners bundle !! i = Some sl ->
             _serviceListenerFilters bundle !! i = Some filter ->
             (sl, filter) ∈ issued ops)
        (_bundles (memory (run fuel ops OSGiImpl_new)))).
Proof.
  pose proof (run_wf _ (handed_closed ops) fuel ops OSGiImpl_new
                (op_ok_issued ops)) as H.
  assert (H0 : wfW (handed ops) OSGiImpl_new) by constructor.
  specialize (H H0). unfold wfW, wf in H.
  assert (Hmain : Forall
    (fun bundle =>
       aligned bundle
       /\ forall i sl filter,
            _serviceListeners bundle !! i = Some sl ->
            _serviceListenerFilters bundle !! i = Some filter ->
            handed ops sl filter)
    (_bundles (memory (run fuel ops OSGiImpl_new)))).
  { eapply Forall_impl; [exact H|]. intros bundle (H1 & _). split.
    - exact (Forall2_length _ _ _ H1).
    - intros i sl filter Hl Hf. eapply Forall2_lookup_lr in H1; eauto. }
  split; [exact Hmain|]. intros Hq.
  eapply Forall_impl; [exact Hmain|]. intros bundle [_ Hb] i sl filter Hl Hf.
  apply (handed_issued ops Hq). eauto.
Qed.

(** Every registry reached from a new one is well formed. *)
Lemma reachable_wf (fuel : nat) (ops : list Operation) :
  wf (fun _ _ => True) (memory (run fuel ops OSGiImpl_new)).
Proof.
  apply (run_wf (fun _ _ => True) closed_True fuel ops OSGiImpl_new).
  - apply Forall_forall. intros op _. destruct op; simpl; auto.
    + split; apply call_ok_True.
    + now destruct c.
  - constructor.
Qed.

(* ================================================================== *)
(** * Lookup by symbolic name *)

Lemma getBundle_from_same (n : string) (bs : list BundleImpl_API) :
  forall (bs' : list BundleImpl_API) (i : nat),
    List.length bs' = List.length bs ->
    (forall j bundle, bs !! j = Some bundle ->
       exists bundle', bs' !! j = Some bundle'
                       /\ _symbolicName bundle' = _symbolicName bundle) ->
    getBundle_from i bs' n = getBundle_from i bs n.
Proof.
  induction bs as [|x rest IH]; intros bs' i Hlen H.
  - now destruct bs'.
  - destruct (H 0%nat x eq_refl) as (x' & Hx' & Hn).
    destruct bs' as [|y rest']; [discriminate|]. injection Hx' as ->.
    simpl in *. rewrite Hn. destruct (String.eqb (_symbolicName x) n);
      [reflexivity|].
    apply IH; [lia|]. intros j bundle Hj. exact (H (S j) bundle Hj).
Qed.

Lemma getBundle_same (b : nat) (m m' : Memory) (n : string) :
  same_bundles b m m' -> getBundle m' n = getBundle m n.
Proof.
  intros [Hlen H]. apply getBundle_from_same; [exact Hlen|]. intros j bundle Hj.
  destruct (H j bundle Hj) as (bundle' & H1 & H2 & _). eauto.
Qed.

Lemma getBundle_from_lookup (n : string) (bs : list BundleImpl_API) :
  forall (i b : nat),
    getBundle_from i bs n = Some b ->
    exists bundle, (i <= b)%nat /\ bs !! (b - i)%nat = Some bundle
                   /\ _symbolicName bundle = n.
Proof.
  induction bs as [|x rest IH]; intros i b Hg; [discriminate|]. simpl in Hg.
  destruct (String.eqb_spec (_symbolicName x) n) as [Hn|Hn].
  - injection Hg as <-. exists x. rewrite Nat.sub_diag. auto.
  - destruct (IH _ _ Hg) as (bundle & Hle & Hb & Hname).
    exists bundle. split; [lia|]. split; [|exact Hname].
    replace (b - i)%nat with (S (b - S i)) by lia. exact Hb.
Qed.

Lemma getBundle_lookup (m : Memory) (n : string) (b : nat) :
  getBundle m n = Some b ->
  exists bundle, _bundles m !! b = Some bundle /\ _symbolicName bundle = n.
Proof.
  intros H. destruct (getBundle_from_lookup _ _ _ _ H) as (x & _ & Hx & Hn).
  rewrite Nat.sub_0_r in Hx. eauto.
Qed.

Lemma getBundle_from_new (n : string) (x : BundleImpl_API)
  (bs : list BundleImpl_API) :
  forall i,
    getBundle_from i bs n = None -> _symbolicName x = n ->
    getBundle_from i (bs ++ [x]) n = Some (i + List.length bs)%nat.
Proof.
  induction bs as [|y rest IH]; intros i Hg Hn; simpl in *.
  - rewrite Hn, String.eqb_refl. f_equal. lia.
  - destruct (String.eqb (_symbolicName y) n); [discriminate|].
    rewrite (IH (S i) Hg Hn). f_equal. lia.
Qed.

Lemma getBundle_from_absent (n : string) (bs : list BundleImpl_API) :
  forall i,
    getBundle_from i bs n = None ->
    Forall (fun bundle => _symbolicName bundle <> n) bs.
Proof.
  induction bs as [|x rest IH]; intros i Hg; [constructor|]. simpl in Hg.
  destruct (String.eqb_spec (_symbolicName x) n); [discriminate|].
  constructor; [assumption | eapply IH; eauto].
Qed.

(* ================================================================== *)
(** * The registry's entry points *)

Lemma instanceOf_Throwable (c : ThrowableClass) :
  instanceOf c Throwable_class = true.
Proof. now destruct c. Qed.

(** [try { body } catch (Throwable error) { Logging_API::error(error) }]. *)
Lemma catch_all_eq (body : M unit) (w : World) :
  try_catch body Throwable_class Logging_error w
  = match body w with
    | Returned a w' => Returned a w'
    | Thrown e w' => Logging_error e w'
    | Unfinished w' => Unfinished w'
    end.
Proof.
  unfold try_catch. destruct (body w) as [a w'|e w'|w']; try reflexivity.
  now rewrite instanceOf_Throwable.
Qed.

Lemma Logging_error_silent (e : Throwable) (w : World) :
  t_message e = NoMessage ->
  Logging_error e w = Thrown NullPointerException_nullHandle w.
Proof. unfold Logging_error. now intros ->. Qed.

Lemma Logging_error_message (e : Throwable) (w : World) :
  t_message e <> NoMessage ->
  Logging_error e w
  = Returned tt (mkWorld (memory w) (delivered w) (logged w ++ [e])).
Proof. unfold Logging_error. now destruct (t_message e). Qed.

Lemma lookup_snoc {A : Type} (l : list A) (x : A) :
  (l ++ [x])%list !! List.length l = Some x.
Proof. rewrite lookup_app_r by lia. now rewrite Nat.sub_diag. Qed.

Lemma insert_snoc {A : Type} (l : list A) (x y : A) :
  <[List.length l := y]> (l ++ [x])%list = (l ++ [y])%list.
Proof. rewrite insert_app_r_alt by lia. now rewrite Nat.sub_diag. Qed.

(** The world in which [start(symbolicName, activator)] calls the start
    hook of a bundle that it has just created. *)
Lemma start_of_new_bundle (fuel : nat) (symbolicName : string)
  (activator : BundleActivator_API) (w : World) :
  getBundle (memory w) symbolicName = None ->
  OSGiImpl_start_body fuel symbolicName activator w
  = try_catch
      (BundleActivator_start (OSGiImpl_fireServiceEvent fuel) activator
         (Some (mkBundleContext (contexts (memory w))
                  (List.length (_bundles (memory w))))) ;;
       update_bundle (List.length (_bundles (memory w)))
         (with_state Bundle.ACTIVE))
      Exception_class
      (fun error =>
         BundleImpl_start_catch fuel (List.length (_bundles (memory w)))
           symbolicName)
      (mkWorld
         (mkMemory
            (_bundles (memory w)
             ++ [mkBundle symbolicName activator Bundle.STARTING [] [] []
                   (Some (mkBundleContext (contexts (memory w))
                            (List.length (_bundles (memory w)))))])
            (references (memory w))
            (S (contexts (memory w))))
         (delivered w) (logged w)).
Proof.
  intros Hg. unfold OSGiImpl_start_body, OSGiImpl_getBundle. unfold bind at 1.
  rewrite Hg. unfold bind at 1. unfold OSGiImpl_addBundle at 1.
  unfold bind at 1. unfold BundleContextImpl_new at 1. unfold bind at 1.
  unfold FastTable.add, set_memory, set_bundles.
  cbn [memory _bundles references contexts delivered logged].
  rewrite update_bundle_eq.
  cbn [memory _bundles references contexts delivered logged].
  rewrite lookup_snoc, insert_snoc.
  unfold BundleImpl_start. unfold bind at 1. unfold the_bundle at 1.
  cbn [memory _bundles references contexts delivered logged set_memory
       set_bundles].
  rewrite lookup_snoc.
  cbn [with_context BundleImpl_new _state _symbolicName _activator
       _serviceReferences _serviceListeners _serviceListenerFilters _context].
  change (Bundle.RESOLVED =? Bundle.RESOLVED) with true. cbn [negb].
  unfold bind at 1. rewrite update_bundle_eq.
  cbn [memory _bundles references contexts delivered logged set_memory
       set_bundles].
  rewrite lookup_snoc, insert_snoc.
  cbn [with_state _state _symbolicName _activator
       _serviceReferences _serviceListeners _serviceListenerFilters _context].
  unfold try_catch. unfold bind at 1. unfold the_bundle at 1.
  cbn [memory _bundles references contexts delivered logged set_memory
       set_bundles].
  rewrite lookup_snoc.
  reflexivity.
Qed.

(** C6.  [OSGiImpl_API::start] and [OSGiImpl_API::stop] catch every
    throwable that their [try] block raises and hand it to
    [Logging_API::error].  When the throwable carries a message, it is
    appended to the log and the call returns.  When it carries none (as
    every throwable created by [newInstance()] without argument), the
    logging itself raises a NullPointerException, inside the [catch]
    block, and the call raises it to its caller.  So does [start] for a
    new bundle whose start hook throws at once a throwable without
    message that is not an Exception (one that is an Exception is
    replaced by an Exception with a message in [BundleImpl_API::start]). *)
Theorem start_stop_raise_without_message (fuel : nat) (symbolicName : string)
  (activator : BundleActivator_API) (w : World) :
  (forall e w1,
      OSGiImpl_start_body fuel symbolicName activator w = Thrown e w1 ->
      OSGiImpl_start fuel symbolicName activator w
      = match t_message e with
        | NoMessage => Thrown NullPointerException_nullHandle w1
        | _ =>
            Returned tt (mkWorld (memory w1) (delivered w1) (logged w1 ++ [e]))
        end)
  /\ (forall e w1,
        OSGiImpl_stop_body fuel symbolicName w = Thrown e w1 ->
        OSGiImpl_stop fuel symbolicName w
        = match t_message e with
          | NoMessage => Thrown NullPointerException_nullHandle w1
          | _ =>
              Returned tt (mkWorld (memory w1) (delivered w1) (logged w1 ++ [e]))
          end)
  /\ (forall e rest,
        getBundle (memory w) symbolicName = None ->
        start_hook activator = CallThrow e :: rest ->
        t_message e = NoMessage ->
        instanceOf (t_class e) Exception_class = false ->
        OSGiImpl_start fuel symbolicName activator w
        = Thrown NullPointerException_nullHandle
            (mkWorld
               (mkMemory
                  (_bundles (memory w)
                   ++ [mkBundle symbolicName activator Bundle.STARTING [] [] []
                         (Some (mkBundleContext (contexts (memory w))
                                  (List.length (_bundles (memory w)))))])
                  (references (memory w))
                  (S (contexts (memory w))))
               (delivered w) (logged w))).
Proof.
  split; [|split].
  - intros e w1 H. unfold OSGiImpl_start. rewrite catch_all_eq, H.
    unfold Logging_error. now destruct (t_message e).
  - intros e w1 H. unfold OSGiImpl_stop. rewrite catch_all_eq, H.
    unfold Logging_error. now destruct (t_message e).
  - intros e rest Hg Hhook Hmsg Hclass. unfold OSGiImpl_start.
    rewrite catch_all_eq, (start_of_new_bundle fuel _ _ w Hg).
    unfold try_catch, BundleActivator_start. rewrite Hhook.
    cbn [run_hook perform]. unfold bind at 1. unfold bind at 1.
    unfold throw at 1. rewrite Hclass.
    now apply Logging_error_silent.
Qed.

(* ================================================================== *)
(** * Starting a bundle by name *)

Lemma same_Logging_after (b : nat) (m0 : Memory) (o : Outcome unit) :
  same b m0 (world_after o) ->
  same b m0
    (world_after
       match o with
       | Returned a w' => Returned a w'
       | Thrown e w' => Logging_error e w'
       | Unfinished w' => Unfinished w'
       end).
Proof.
  destruct o as [a w'|e w'|w']; simpl; auto.
  intros H. exact (preserves_world_after _ _ w' (same_Logging_error b m0 e) H).
Qed.

(** [start] when the name is known: nothing is added to the table. *)
Lemma start_found (fuel : nat) (n : string) (a : BundleActivator_API)
  (w : World) (b : nat) :
  getBundle (memory w) n = Some b ->
  same b (memory w) (world_after (OSGiImpl_start fuel n a w)).
Proof.
  intros Hg. unfold OSGiImpl_start. rewrite catch_all_eq.
  apply same_Logging_after.
  unfold OSGiImpl_start_body, OSGiImpl_getBundle. unfold bind at 1. rewrite Hg.
  unfold bind at 1. unfold ret at 1.
  apply preserves_world_after; [apply same_start_bundle|].
  apply same_bundles_refl.
Qed.

(** [start] when the name is not known: one bundle is added at the end
    of the table, and the rest of the call acts on it. *)
Lemma start_absent (fuel : nat) (n : string) (a : BundleActivator_API)
  (w : World) :
  getBundle (memory w) n = None ->
  same (List.length (_bundles (memory w)))
    (set_bundles (_bundles (memory w) ++ [BundleImpl_new n a]) (memory w))
    (world_after (OSGiImpl_start fuel n a w)).
Proof.
  intros Hg. unfold OSGiImpl_start. rewrite catch_all_eq.
  apply same_Logging_after.
  unfold OSGiImpl_start_body, OSGiImpl_getBundle. unfold bind at 1. rewrite Hg.
  unfold bind at 1. unfold OSGiImpl_addBundle at 1.
  apply preserves_world_after; [apply same_start_bundle|].
  apply same_bundles_refl.
Qed.

Lemma starts_same (fuel : nat) (b : nat) (m0 : Memory) (n : string)
  (activators : list BundleActivator_API) :
  getBundle m0 n = Some b ->
  forall w, same b m0 w -> same b m0 (OSGiImpl_starts fuel n activators w).
Proof.
  intros Hg. induction activators as [|a rest IH]; intros w Hw; simpl;
    [exact Hw|].
  apply IH. eapply same_step; [exact Hw|]. apply start_found.
  rewrite (getBundle_same b _ _ n Hw). exact Hg.
Qed.

(** C7.  [start(symbolicName, activator)] looks the name up first.  When
    a bundle carries it, the bundle table keeps its length and
    [getBundle(symbolicName)] answers afterwards the bundle it answered
    before, whose stored activator is the one it had (the argument is
    ignored).  When none does, exactly one bundle is added, at the end of
    the table; it is the one that [getBundle(symbolicName)] answers
    afterwards, and it holds the argument.  In both cases every other
    bundle keeps its name, its activator and its state.  After any
    further sequence of [start] calls with that name, whatever their
    activator arguments, the table has the same length, [getBundle]
    still answers the same bundle, with the same name and the same
    stored activator, and every other bundle is still in the state it
    had.  The bundle that [getBundle] answers is the one on which the
    call acts: it is given a new context and its [start()] is called,
    which runs the activator stored in the bundle. *)
Theorem start_reuses_bundle (fuel : nat) (symbolicName : string)
  (activator : BundleActivator_API) (activators : list BundleActivator_API)
  (w : World) :
  exists b bundle,
    getBundle
      (memory (world_after (OSGiImpl_start fuel symbolicName activator w)))
      symbolicName = Some b
    /\ _bundles
         (memory (world_after (OSGiImpl_start fuel symbolicName activator w)))
         !! b = Some bundle
    /\ match getBundle (memory w) symbolicName with
       | Some b0 =>
           b = b0
           /\ List.length
                (_bundles
                   (memory
                      (world_after
                         (OSGiImpl_start fuel symbolicName activator w))))
              = List.length (_bundles (memory w))
           /\ exists bundle0,
                _bundles (memory w) !! b0 = Some bundle0
                /\ _activator bundle = _activator bundle0
       | None =>
           b = List.length (_bundles (memory w))
           /\ List.length
                (_bundles
                   (memory
                      (world_after
                         (OSGiImpl_start fuel symbolicName activator w))))
              = S (List.length (_bundles (memory w)))
           /\ _activator bundle = activator
       end
    /\ (forall i x,
          i <> b -> _bundles (memory w) !! i = Some x ->
          exists x',
            _bundles
              (memory
                 (world_after (OSGiImpl_start fuel symbolicName activator w)))
              !! i = Some x'
            /\ _symbolicName x' = _symbolicName x
            /\ _activator x' = _activator x
            /\ _state x' = _state x)
    /\ getBundle
         (memory
            (OSGiImpl_starts fuel symbolicName activators
               (world_after (OSGiImpl_start fuel symbolicName activator w))))
         symbolicName = Some b
    /\ List.length
         (_bundles
            (memory
               (OSGiImpl_starts fuel symbolicName activators
                  (world_after (OSGiImpl_start fuel symbolicName activator w)))))
       = List.length
           (_bundles
              (memory
                 (world_after (OSGiImpl_start fuel symbolicName activator w))))
    /\ (exists bundle',
          _bundles
            (memory
               (OSGiImpl_starts fuel symbolicName activators
                  (world_after (OSGiImpl_start fuel symbolicName activator w))))
            !! b = Some bundle'
          /\ _symbolicName bundle' = symbolicName
          /\ _activator bundle' = _activator bundle)
    /\ (forall i x,
          i <> b ->
          _bundles
            (memory
               (world_after (OSGiImpl_start fuel symbolicName activator w)))
            !! i = Some x ->
          exists x',
            _bundles
              (memory
                 (OSGiImpl_starts fuel symbolicName activators
                    (world_after
                       (OSGiImpl_start fuel symbolicName activator w))))
              !! i = Some x'
            /\ _symbolicName x' = _symbolicName x
            /\ _activator x' = _activator x
            /\ _state x' = _state x)
    /\ OSGiImpl_start fuel symbolicName activator w
       = try_catch
           (context <- BundleContextImpl_new b ;;
            update_bundle b (with_context (Some context)) ;;
            BundleImpl_start fuel b)
           Throwable_class Logging_error
           match getBundle (memory w) symbolicName with
           | Some _ => w
           | None =>
               set_memory
                 (set_bundles
                    (_bundles (memory w)
                     ++ [BundleImpl_new symbolicName activator])
                    (memory w))
                 w
           end.
Proof.
  set (w1 := world_after (OSGiImpl_start fuel symbolicName activator w)).
  set (wn := OSGiImpl_starts fuel symbolicName activators w1).
  assert (Hfirst : exists b m0,
             same b m0 w1
             /\ getBundle m0 symbolicName = Some b
             /\ match getBundle (memory w) symbolicName with
                | Some b0 => b = b0 /\ m0 = memory w
                | None =>
                    b = List.length (_bundles (memory w))
                    /\ m0 = set_bundles
                              (_bundles (memory w)
                               ++ [BundleImpl_new symbolicName activator])
                              (memory w)
                end).
  { destruct (getBundle (memory w) symbolicName) as [b0|] eqn:Hg.
    - exists b0, (memory w). split; [now apply start_found|]. auto.
    - eexists _, _. split; [now apply start_absent|]. split; [|auto].
      unfold getBundle. simpl.
      now rewrite (getBundle_from_new symbolicName
                     (BundleImpl_new symbolicName activator)
                     (_bundles (memory w)) 0%nat Hg eq_refl). }
  destruct Hfirst as (b & m0 & Hsame & Hg0 & Hcase).
  pose proof (getBundle_same b _ _ symbolicName Hsame) as Hg1.
  rewrite Hg0 in Hg1.
  destruct (getBundle_lookup _ _ _ Hg1) as (bundle & Hb1 & Hn1).
  destruct (getBundle_lookup _ _ _ Hg0) as (bundle0 & Hb0 & Hn0).
  destruct Hsame as [Hlen Hsame].
  destruct (Hsame b bundle0 Hb0) as (x & Hx & _ & Hact & _).
  rewrite Hb1 in Hx. injection Hx as <-.
  pose proof (starts_same fuel b (memory w1) symbolicName activators Hg1 w1
                (same_bundles_refl _ _)) as [Hlenn Hlater].
  exists b, bundle. split; [exact Hg1|]. split; [exact Hb1|].
  split; [|split; [|split; [|split; [|split; [|split]]]]].
  - destruct (getBundle (memory w) symbolicName) as [b0|] eqn:Hg.
    + destruct Hcase as [-> ->]. split; [reflexivity|]. split; [exact Hlen|].
      exists bundle0. auto.
    + destruct Hcase as [-> ->]. split; [reflexivity|].
      split; [rewrite Hlen; simpl; rewrite length_app; simpl; lia|].
      simpl in Hb0. rewrite lookup_app_r in Hb0 by lia.
      rewrite Nat.sub_diag in Hb0. injection Hb0 as <-. exact Hact.
  - intros i x Hi Hx.
    assert (Hx0 : _bundles m0 !! i = Some x).
    { destruct (getBundle (memory w) symbolicName);
        destruct Hcase as [_ ->]; [exact Hx|].
      simpl. now apply lookup_app_l_Some. }
    destruct (Hsame i x Hx0) as (x' & H1 & H2 & H3 & H4).
    exists x'. auto.
  - pose proof (getBundle_same b (memory w1) (memory wn) symbolicName
                  (conj Hlenn Hlater)) as Hgn.
    rewrite Hg1 in Hgn. exact Hgn.
  - exact Hlenn.
  - destruct (Hlater b bundle Hb1) as (bundle' & H1 & H2 & H3 & _).
    exists bundle'. split; [exact H1|]. split; [congruence | exact H3].
  - intros i x Hi Hx. destruct (Hlater i x Hx) as (x' & H1 & H2 & H3 & H4).
    exists x'. auto.
  - unfold OSGiImpl_start, try_catch, OSGiImpl_start_body, OSGiImpl_getBundle.
    unfold bind at 1.
    destruct (getBundle (memory w) symbolicName) as [b0|] eqn:Hg;
      destruct Hcase as [-> _]; reflexivity.
Qed.

(** C10.  Starting, through the registry, a bundle whose state is not
    RESOLVED returns normally and leaves everything as it was (the bundle
    table and its order, the bundle's state, name, activator, services
    and listeners, every reference) but for three things: the bundle's
    context is replaced by a newly constructed one, which differs from
    the one it replaces, the count of constructed contexts grows by one,
    and the illegal-state error is logged. *)
Theorem start_of_unresolved_bundle (fuel : nat) (symbolicName : string)
  (activator : BundleActivator_API) (w : World) (b : nat)
  (this : BundleImpl_API) :
  getBundle (memory w) symbolicName = Some b ->
  _bundles (memory w) !! b = Some this ->
  _state this <> Bundle.RESOLVED ->
  (forall c, _context this = Some c -> (context_id c < contexts (memory w))%nat) ->
  OSGiImpl_start fuel symbolicName activator w
  = Returned tt
      (mkWorld
         (mkMemory
            (<[b := with_context
                      (Some (mkBundleContext (contexts (memory w)) b)) this]>
               (_bundles (memory w)))
            (references (memory w))
            (S (contexts (memory w))))
         (delivered w)
         (logged w
            ++ [Exception_newInstance
                  ("Bundle " ++ _symbolicName this ++ " not in a resolved state")]))
  /\ _context this <> Some (mkBundleContext (contexts (memory w)) b).
Proof.
  intros Hg Hb Hstate Hctx. split.
  - unfold OSGiImpl_start. rewrite catch_all_eq.
    unfold OSGiImpl_start_body, OSGiImpl_getBundle. unfold bind at 1.
    rewrite Hg. unfold bind at 1, ret at 1. unfold bind at 1.
    unfold BundleContextImpl_new at 1. unfold bind at 1.
    rewrite (update_bundle_at b _ this) by exact Hb.
    unfold BundleImpl_start, bind at 1.
    erewrite the_bundle_at by (eapply lookup_replace_bundle; simpl; eauto).
    cbn [_state _symbolicName with_context].
    destruct (Z.eqb_spec (_state this) Bundle.RESOLVED) as [E|_];
      [contradiction|].
    reflexivity.
  - intros E. specialize (Hctx _ E). simpl in Hctx. lia.
Qed.

(* ================================================================== *)
(** * Bundle teardown *)

Lemma clear_ref_bundle_at (r : nat) (ref : ServiceReferenceImpl_API) (w : World) :
  references (memory w) !! r = Some ref ->
  clear_ref_bundle r w
  = Returned tt
      (set_memory
         (set_references
            (<[r := mkServiceReference None (_serviceName ref) (_service ref)]>
               (references (memory w)))
            (memory w))
         w).
Proof.
  intros H. unfold clear_ref_bundle, bind, the_reference. now rewrite H.
Qed.

Lemma serviceName_of_clear (r r' : nat) (ref : ServiceReferenceImpl_API)
  (m : Memory) :
  references m !! r = Some ref ->
  serviceName_of
    (set_references
       (<[r := mkServiceReference None (_serviceName ref) (_service ref)]>
          (references m)) m) r'
  = serviceName_of m r'.
Proof.
  intros H. unfold serviceName_of. simpl.
  destruct (decide (r' = r)) as [->|Hne].
  - rewrite list_lookup_insert_eq by (eapply lookup_lt_Some; eauto).
    now rewrite H.
  - now rewrite list_lookup_insert_ne by auto.
Qed.

Lemma unregistering_ext (m m' : Memory) (rs : list nat) :
  _bundles m' = _bundles m ->
  (forall r, serviceName_of m' r = serviceName_of m r) ->
  unregistering m' rs = unregistering m rs.
Proof.
  intros Hb Hn. unfold unregistering. rewrite Hb.
  induction rs as [|r rest IH]; simpl; [reflexivity|].
  now rewrite Hn, IH.
Qed.

Lemma unregistering_cons (m : Memory) (r : nat) (rs : list nat) :
  unregistering m (r :: rs)
  = (map (fun l => (l, mkServiceEvent ServiceEvent.UNREGISTERING r))
       (subscribers (FilterImpl.canonical (serviceName_of m r)) (_bundles m))
     ++ unregistering m rs)%list.
Proof. reflexivity. Qed.

(** The loop of [unregisterServices] when the listeners that are told
    return at once, entered at the index that follows [pre]. *)
Lemma unregister_each_quiet (fuel : nat) (b : nat) (this : BundleImpl_API) :
  forall (post pre : list nat) (n : nat) (w : World),
    _bundles (memory w) !! b = Some this ->
    _serviceReferences this = (pre ++ post)%list ->
    (List.length post <= n)%nat ->
    Forall aligned (_bundles (memory w)) ->
    within fuel (memory w) ->
    Forall (fun r => (r < List.length (references (memory w)))%nat) post ->
    Forall returns_at_once (unregistering (memory w) post) ->
    exists w' ds,
      unregister_each fuel n b (Z.of_nat (List.length pre)) w = Returned tt w'
      /\ _bundles (memory w') = _bundles (memory w)
      /\ contexts (memory w') = contexts (memory w)
      /\ logged w' = logged w
      /\ delivered w' = (delivered w ++ ds)%list
      /\ map d_pair ds = unregistering (memory w) post
      /\ Forall (fun d => _bundles (d_seen d) = _bundles (memory w)
                          /\ _reference (d_event d) ∈ post) ds.
Proof.
  induction post as [|r rest IH]; intros pre n w Hb Hrefs Hn Hal Hin Hrs Hq.
  - exists w, []. rewrite app_nil_r. split; [|repeat split; auto].
    destruct n; simpl; unfold bind; rewrite (the_bundle_at b this w Hb);
      rewrite Hrefs, app_nil_r; unfold FastTable.size;
      now rewrite Z.ltb_irrefl.
  - apply Forall_cons in Hrs as [Hr Hrest].
    destruct n as [|n]; [simpl in Hn; lia|].
    destruct (lookup_lt_is_Some_2 _ _ Hr) as [ref Href].
    set (ev := mkServiceEvent ServiceEvent.UNREGISTERING r).
    set (subs := subscribers (FilterImpl.canonical (_serviceName ref))
                   (_bundles (memory w))).
    set (w1 := record ev subs w).
    rewrite unregistering_cons in Hq. apply Forall_app in Hq as [Hq1 Hq2].
    assert (Hname : serviceName_of (memory w) r = _serviceName ref)
      by (unfold serviceName_of; now rewrite Href).
    rewrite Hname in Hq1. fold subs in Hq1.
    assert (Hquiet : Forall (fun l => serviceChanged l ev = []) subs).
    { apply Forall_forall. intros l Hl.
      rewrite Forall_forall in Hq1.
      apply (Hq1 (l, ev)). apply list_elem_of_fmap. exists l. auto. }
    assert (Hfire : OSGiImpl_fireServiceEvent fuel ev w = Returned tt w1).
    { rewrite (fireServiceEvent_eq fuel ev ref w Href Hal Hin).
      - fold subs. now rewrite (until_raise_quiet ev subs Hquiet).
      - fold subs. eapply Forall_impl; [exact Hquiet|].
        intros l. apply passive_quiet. }
    set (w2 := set_memory
                 (set_references
                    (<[r := mkServiceReference None (_serviceName ref)
                              (_service ref)]> (references (memory w1)))
                    (memory w1)) w1).
    assert (Hclear : clear_ref_bundle r w1 = Returned tt w2)
      by (apply clear_ref_bundle_at; exact Href).
    destruct (IH (pre ++ [r])%list n w2)
      as (w' & ds & Hrun & Hb' & Hc & Hlog & Hd & Hpairs & Hseen).
    { exact Hb. }
    { now rewrite <- app_assoc. }
    { simpl in Hn. lia. }
    { exact Hal. }
    { exact Hin. }
    { simpl. rewrite length_insert. exact Hrest. }
    { rewrite (unregistering_ext (memory w) (memory w2) rest); [exact Hq2| |].
      - reflexivity.
      - intros r'. apply (serviceName_of_clear r r' ref (memory w) Href). }
    exists w', (map (fun l => mkDelivery l ev (memory w)) subs ++ ds)%list.
    split; [|split; [|split; [|split; [|split; [|split]]]]].
    + cbn [unregister_each]. unfold bind at 1.
      rewrite (the_bundle_at b this w Hb).
      assert (Hlt : (Z.of_nat (List.length pre)
                     <? FastTable.size (_serviceReferences this)) = true).
      { apply Z.ltb_lt. unfold FastTable.size. rewrite Hrefs, length_app.
        simpl. lia. }
      rewrite Hlt.
      rewrite (FastTable_get_lookup (_serviceReferences this)
                 (List.length pre) r)
        by (rewrite Hrefs, lookup_app_r by lia; now rewrite Nat.sub_diag).
      cbn [lift]. unfold bind at 1. unfold ret at 1. unfold bind at 1.
      fold ev. rewrite Hfire. unfold bind at 1. rewrite Hclear.
      replace (Z.of_nat (List.length pre) + 1)
        with (Z.of_nat (List.length (pre ++ [r])))
        by (rewrite length_app; simpl; lia).
      exact Hrun.
    + rewrite Hb'. reflexivity.
    + rewrite Hc. reflexivity.
    + rewrite Hlog. reflexivity.
    + rewrite Hd. simpl. now rewrite app_assoc.
    + rewrite map_app, Hpairs, unregistering_cons. f_equal.
      * rewrite map_map, Hname. reflexivity.
      * apply unregistering_ext; [reflexivity|].
        intros r'. apply (serviceName_of_clear r r' ref (memory w) Href).
    + apply Forall_app. split.
      * apply Forall_forall. intros d Hd'. apply list_elem_of_fmap in Hd'
          as (l & -> & _). simpl. split; [reflexivity | apply elem_of_cons; auto].
      * eapply Forall_impl; [exact Hseen|]. simpl. intros d [H1 H2].
        split; [exact H1 | apply elem_of_cons; auto].
Qed.

Lemma subscribers_insert (filter : string) (bs : list BundleImpl_API) :
  forall (b : nat) (this x : BundleImpl_API),
    bs !! b = Some this ->
    _serviceListeners x = _serviceListeners this ->
    _serviceListenerFilters x = _serviceListenerFilters this ->
    subscribers filter (<[b := x]> bs) = subscribers filter bs.
Proof.
  unfold subscribers.
  induction bs as [|y rest IH]; intros b this x Hb Hl Hf; [discriminate|].
  destruct b as [|b]; simpl in *.
  - injection Hb as ->. now rewrite Hl, Hf.
  - f_equal. eapply IH; eauto.
Qed.






(* ================================================================== *)
(** * Which listeners an event is for *)

(** Which slots [select] picks. *)
Lemma select_slot (filter : string) (listeners : list ServiceListener_API)
  (filters : list (option string)) (l : ServiceListener_API) :
  l ∈ select filter listeners filters ->
  exists j, listeners !! j = Some l /\ filters !! j = Some (Some filter).
Proof.
  revert filters. induction listeners as [|x ls IH]; intros [|f fs] H;
    simpl in H; try (now apply elem_of_nil in H).
  destruct (String_equals filter f) eqn:E.
  - apply elem_of_cons in H as [->|H].
    + exists 0%nat. split; [reflexivity|]. simpl.
      destruct f as [s|]; [|discriminate]. simpl in E.
      apply String.eqb_eq in E. now subst.
    + destruct (IH fs H) as (j & H1 & H2). now exists (S j).
  - destruct (IH fs H) as (j & H1 & H2). now exists (S j).
Qed.

Lemma subscribers_slot (filter : string) (bundles : list BundleImpl_API)
  (l : ServiceListener_API) :
  l ∈ subscribers filter bundles ->
  exists bundle j,
    bundle ∈ bundles
    /\ _serviceListeners bundle !! j = Some l
    /\ _serviceListenerFilters bundle !! j = Some (Some filter).
Proof.
  unfold subscribers. rewrite list_elem_of_In, in_flat_map.
  intros (bundle & Hb & Hl). apply list_elem_of_In in Hb, Hl.
  destruct (select_slot _ _ _ _ Hl) as (j & H1 & H2). eauto.
Qed.

Lemma select_complete (filter : string) (listeners : list ServiceListener_API)
  (filters : list (option string)) (j : nat) (l : ServiceListener_API) :
  listeners !! j = Some l -> filters !! j = Some (Some filter) ->
  l ∈ select filter listeners filters.
Proof.
  revert filters j. induction listeners as [|x ls IH]; intros [|f fs] [|j] Hl Hf;
    try discriminate; simpl in *.
  - injection Hl as ->. injection Hf as ->. simpl. rewrite String.eqb_refl.
    apply elem_of_cons. now left.
  - destruct (String_equals filter f); [apply elem_of_cons; right|];
      eapply IH; eauto.
Qed.

Lemma subscribers_complete (filter : string) (bundles : list BundleImpl_API)
  (bundle : BundleImpl_API) (j : nat) (l : ServiceListener_API) :
  bundle ∈ bundles ->
  _serviceListeners bundle !! j = Some l ->
  _serviceListenerFilters bundle !! j = Some (Some filter) ->
  l ∈ subscribers filter bundles.
Proof.
  intros Hb Hl Hf. unfold subscribers. apply list_elem_of_In, in_flat_map.
  exists bundle. split; apply list_elem_of_In; [exact Hb|].
  eapply select_complete; eauto.
Qed.

(** C2, as amended.  Whatever the listeners do from their callbacks
    (add or remove listeners, register services, raise), and however
    the call ends, every callback invocation that [fireServiceEvent]
    makes or causes is made from a slot of a bundle's listener table
    whose filter string, at the same index of the filter table, is
    [(objectClass=<interfaceName>)] for the interface name of the
    reference of the event delivered: a listener held only in slots
    whose filter is [(objectClass=A)] is handed no event of a service
    registered under another name.  Take now an event on an existing
    reference, in a registry whose listener tables are in lock step and
    shorter than the step budget, and suppose that no listener whose
    stored filter string equals [(objectClass=<interfaceName>)] calls
    the registry from its callback for this event (each returns or
    raises at once).  Then [fireServiceEvent] invokes these listeners,
    bundles in registry order and the listeners of a bundle in
    registration order, up to and including the first one whose callback
    raises: that throwable is raised on and the remaining listeners are
    not invoked.  When none of them raises, it returns after invoking
    exactly all of them.  The listeners selected are exactly those held
    in a slot whose filter is that string. *)
Theorem fireServiceEvent_delivery (fuel : nat) (serviceEvent : ServiceEvent_API)
  (w : World) :
  (exists ds,
      delivered (world_after (OSGiImpl_fireServiceEvent fuel serviceEvent w))
      = (delivered w ++ ds)%list
      /\ Forall selected ds
      /\ forall d A,
           d ∈ ds ->
           (forall b bundle j,
               _bundles (d_seen d) !! b = Some bundle ->
               _serviceListeners bundle !! j = Some (d_listener d) ->
               _serviceListenerFilters bundle !! j
               = Some (Some (FilterImpl.canonical A))) ->
           serviceName_of (d_seen d) (_reference (d_event d)) = A)
  /\ forall serviceReference,
       references (memory w) !! _reference serviceEvent = Some serviceReference ->
       Forall aligned (_bundles (memory w)) ->
       within fuel (memory w) ->
       Forall (passive serviceEvent)
         (subscribers (FilterImpl.canonical (_serviceName serviceReference))
            (_bundles (memory w))) ->
       OSGiImpl_fireServiceEvent fuel serviceEvent w
       = finish
           (snd (until_raise serviceEvent
                   (subscribers
                      (FilterImpl.canonical (_serviceName serviceReference))
                      (_bundles (memory w)))))
           (record serviceEvent
              (fst (until_raise serviceEvent
                      (subscribers
                         (FilterImpl.canonical (_serviceName serviceReference))
                         (_bundles (memory w)))))
              w)
       /\ (Forall (fun l => raised serviceEvent l = None)
             (subscribers (FilterImpl.canonical (_serviceName serviceReference))
                (_bundles (memory w))) ->
           OSGiImpl_fireServiceEvent fuel serviceEvent w
           = Returned tt
               (record serviceEvent
                  (subscribers
                     (FilterImpl.canonical (_serviceName serviceReference))
                     (_bundles (memory w)))
                  w))
       /\ (forall l,
             l ∈ subscribers
                   (FilterImpl.canonical (_serviceName serviceReference))
                   (_bundles (memory w))
             <-> exists bundle j,
                   bundle ∈ _bundles (memory w)
                   /\ _serviceListeners bundle !! j = Some l
                   /\ _serviceListenerFilters bundle !! j
                      = Some (Some (FilterImpl.canonical
                                      (_serviceName serviceReference))))
       /\ (forall l A,
             A <> _serviceName serviceReference ->
             (forall bundle j,
                 bundle ∈ _bundles (memory w) ->
                 _serviceListeners bundle !! j = Some l ->
                 _serviceListenerFilters bundle !! j
                 = Some (Some (FilterImpl.canonical A))) ->
             l ∉ subscribers
                   (FilterImpl.canonical (_serviceName serviceReference))
                   (_bundles (memory w))).
Proof.
  split.
  - destruct (preserves_world_after (exact (delivered w) (memory w))
                (OSGiImpl_fireServiceEvent fuel serviceEvent) w
                (exact_fireServiceEvent fuel _ _ serviceEvent))
      as [(ds & Hd & Hs) _].
    { split; [|apply names_kept_refl]. exists []. rewrite app_nil_r.
      split; [reflexivity | constructor]. }
    exists ds. split; [exact Hd|]. split; [exact Hs|].
    intros d A Hin Hslots. rewrite Forall_forall in Hs.
    destruct (Hs d Hin) as (b & bundle & j & Hb & Hl & Hf).
    specialize (Hslots b bundle j Hb Hl).
    assert (Hc : FilterImpl.canonical A
                 = FilterImpl.canonical
                     (serviceName_of (d_seen d) (_reference (d_event d))))
      by congruence.
    apply canonical_inj in Hc. now symmetry.
  - intros serviceReference Href Hal Hin Hp.
    pose proof (fireServiceEvent_eq fuel serviceEvent serviceReference w Href Hal
                  Hin Hp) as Heq.
    split; [exact Heq|]. split; [|split].
    + intros Hq. rewrite Heq.
      assert (Hu : forall ls,
                 Forall (fun l => raised serviceEvent l = None) ls ->
                 until_raise serviceEvent ls = (ls, None)).
      { induction 1 as [|l ls Hl _ IH]; simpl; [reflexivity|].
        now rewrite Hl, IH. }
      now rewrite (Hu _ Hq).
    + intros l. split.
      * apply subscribers_slot.
      * intros (bundle & j & Hb & Hl & Hf). eapply subscribers_complete; eauto.
    + intros l A HA Hslots Hin'.
      destruct (subscribers_slot _ _ _ Hin') as (bundle & j & Hb & Hl & Hf).
      specialize (Hslots bundle j Hb Hl).
      assert (Hc : FilterImpl.canonical A
                   = FilterImpl.canonical (_serviceName serviceReference))
        by congruence.
      apply canonical_inj in Hc. contradiction.
Qed.

(** C5, as amended.  Filter compilation accepts exactly the strings made
    of one character, the eleven characters [objectClass], one more
    character, a value, and a last character: it looks neither at the
    first character, nor at the one that follows [objectClass], nor at
    the last one, and the filter it makes has the value as class name.
    So every string [(objectClass=<value>)] is accepted, with class name
    [<value>].  A string that does not read [objectClass] from its
    second character on raises an UnsupportedOperationException (without
    message); one that does, with fewer than two characters after it,
    raises an IndexOutOfBoundsException.  [match] answers true exactly
    when the reference's interface name equals the class name. *)
Theorem filter_compile_and_match :
  (forall filterString f,
      FilterImpl.compile filterString = inr f
      <-> exists (c0 c12 clast : ascii) (value : string),
            filterString
            = String c0 ("objectClass" ++ String c12 (value ++ String clast ""))
            /\ f = FilterImpl.mkFilter value filterString)
  /\ (forall value,
        FilterImpl.compile (FilterImpl.canonical value)
        = inr (FilterImpl.mkFilter value (FilterImpl.canonical value)))
  /\ (forall filterString,
        (forall (c0 : ascii) (rest : string),
            filterString <> String c0 ("objectClass" ++ rest)) ->
        FilterImpl.compile filterString
        = inl (mkThrowable UnsupportedOperationException_class NoMessage))
  /\ (forall (c0 : ascii) (rest : string),
        (String.length rest < 2)%nat ->
        FilterImpl.compile (String c0 ("objectClass" ++ rest))
        = inl (mkThrowable IndexOutOfBoundsException_class
                 (Text "beginIndex is larger than endIndex.")))
  /\ (forall f serviceName,
        FilterImpl.matches f serviceName = true
        <-> serviceName = FilterImpl._className f).
Proof.
  split; [|split; [|split; [|split]]].
  - intros filterString f. split.
    + apply compile_accepted.
    + intros (c0 & c12 & clast & value & -> & ->). apply compile_shape.
  - exact compile_canonical.
  - exact compile_without_objectClass.
  - exact compile_too_short.
  - intros f serviceName. unfold FilterImpl.matches. apply String.eqb_eq.
Qed.

(* ================================================================== *)
(** * Service registrations *)

(** C8.  Once [unregister()] has returned, the reference's link to its
    owning bundle is null.  A second [unregister()] on the same
    registration, whatever its step budget, goes through that null link
    at its first statement, before the event is fired and before the
    reference is removed from any table: the call has no defined
    behaviour. *)
Theorem unregister_twice (fuel fuel' : nat) (this : ServiceRegistrationImpl_API)
  (w w1 : World) :
  ServiceRegistrationImpl_unregister fuel this w = Some (Returned tt w1) ->
  (exists serviceReference,
      references (memory w1) !! _serviceReference this = Some serviceReference
      /\ ref_bundle serviceReference = None)
  /\ the_owner (_serviceReference this) w1 = None
  /\ ServiceRegistrationImpl_unregister fuel' this w1 = None.
Proof.
  unfold ServiceRegistrationImpl_unregister.
  set (r := _serviceReference this).
  destruct (the_owner r w) as [[b0 w0|e0 w0|w0]|]; try discriminate.
  destruct (OSGiImpl_fireServiceEvent fuel _ w) as [[] wa|ea wa|wa];
    try discriminate.
  destruct (the_owner r wa) as [[b wa'|e1 wa'|wa']|]; try discriminate.
  unfold bind.
  destruct (update_bundle b _ wa) as [[] wb|eb wb|wb]; try discriminate.
  unfold clear_ref_bundle, bind, the_reference.
  destruct (references (memory wb) !! r) as [ref'|] eqn:E; [|discriminate].
  intros [= <-].
  assert (Hr : references
                 (memory
                    (set_memory
                       (set_references
                          (<[r := mkServiceReference None (_serviceName ref')
                                    (_service ref')]> (references (memory wb)))
                          (memory wb)) wb)) !! r
               = Some (mkServiceReference None (_serviceName ref')
                         (_service ref'))).
  { simpl. apply list_lookup_insert_eq. eapply lookup_lt_Some; eauto. }
  assert (Ho : the_owner r
                 (set_memory
                    (set_references
                       (<[r := mkServiceReference None (_serviceName ref')
                                 (_service ref')]> (references (memory wb)))
                       (memory wb)) wb) = None).
  { unfold the_owner. now rewrite Hr. }
  split; [eauto|]. split; [exact Ho|]. now rewrite Ho.
Qed.

(* ================================================================== *)
(** * Service tracker *)

Lemma FastMap_get_delete (m : gmap nat Object) (key : nat) :
  ServiceTracker.FastMap_get (delete key m) key = None.
Proof. unfold ServiceTracker.FastMap_get. now rewrite lookup_delete_eq. Qed.

(** C3.  On an UNREGISTERING event the tracker removes the mapping
    entry, clears the cache and increments the counter, and then calls
    [removedService]: the call sees the entry gone, the cache null and
    the counter incremented.  The service it passes is the one the map
    holds for the reference after the removal, that is the null object,
    whatever object was mapped to the reference before. *)
Theorem unregistering_passes_null (this : ServiceTracker.ServiceTracker_API)
  (serviceReference : nat) :
  ServiceTracker.serviceChanged this
    (mkServiceEvent ServiceEvent.UNREGISTERING serviceReference)
  = (ServiceTracker.removedService (ServiceTracker._customizer this)
       serviceReference None,
     ServiceTracker.mkTracker (ServiceTracker._customizer this)
       (delete serviceReference (ServiceTracker._trackedServices this))
       (ServiceTracker.int32 (ServiceTracker._trackingCount this + 1))
       None
       (ServiceTracker.notified this
          ++ [ServiceTracker.mkNotification
                (ServiceTracker.RemovedService serviceReference None)
                (delete serviceReference (ServiceTracker._trackedServices this))
                None
                (ServiceTracker.int32 (ServiceTracker._trackingCount this + 1))])).
Proof.
  unfold ServiceTracker.serviceChanged. simpl.
  unfold ServiceTracker.getService. simpl. now rewrite FastMap_get_delete.
Qed.

(** C4, as amended.  On a REGISTERED event the tracker calls
    [addingService(reference)] while the mapping, the cache and the
    counter are still as they were; when the customizer returns an
    object, the tracker maps the reference to it, sets the single-entry
    cache to that object, and increments the counter. *)
Theorem registered_adds_then_caches (this : ServiceTracker.ServiceTracker_API)
  (serviceReference : nat) (service : Object) :
  ServiceTracker.addingService (ServiceTracker._customizer this) serviceReference
  = inr service ->
  ServiceTracker.serviceChanged this
    (mkServiceEvent ServiceEvent.REGISTERED serviceReference)
  = (None,
     ServiceTracker.mkTracker (ServiceTracker._customizer this)
       (<[serviceReference := service]> (ServiceTracker._trackedServices this))
       (ServiceTracker.int32 (ServiceTracker._trackingCount this + 1))
       service
       (ServiceTracker.notified this
          ++ [ServiceTracker.mkNotification
                (ServiceTracker.AddingService serviceReference)
                (ServiceTracker._trackedServices this)
                (ServiceTracker._cachedService this)
                (ServiceTracker._trackingCount this)])).
Proof.
  intros H. unfold ServiceTracker.serviceChanged. simpl. now rewrite H.
Qed.

(* ================================================================== *)
(** * Looking services up *)

Lemma compile_rejects (filterString : string) (e : Throwable) :
  FilterImpl.compile filterString = inl e ->
  t_class e = UnsupportedOperationException_class
  \/ t_class e = IndexOutOfBoundsException_class.
Proof.
  unfold FilterImpl.compile, substring.
  destruct (startsWith filterString Constants.OBJECTCLASS 1); simpl.
  - repeat match goal with
           | |- context [if ?c then _ else _] => destruct c
           end; intros [= <-]; auto.
  - intros [= <-]. auto.
Qed.

Lemma matching_references_eq (clazz : option string)
  (filter : option FilterImpl.FilterImpl_API) (w : World) :
  forall (serviceReferences services : list nat),
    Forall (fun r => (r < List.length (references (memory w)))%nat)
      serviceReferences ->
    matching_references clazz filter serviceReferences services w
    = Returned
        (services ++ List.filter (selects (memory w) clazz filter) serviceReferences)%list
        w.
Proof.
  induction serviceReferences as [|r rest IH]; intros services Hrs; simpl.
  - now rewrite app_nil_r.
  - apply Forall_cons in Hrs as [Hr Hrest].
    destruct (lookup_lt_is_Some_2 _ _ Hr) as [ref Href].
    unfold bind at 1. unfold the_reference. rewrite Href.
    unfold selects at 1, serviceName_of at 1 2. rewrite Href.
    destruct (String_equals (_serviceName ref) clazz); simpl.
    + destruct filter as [f|].
      * destruct (FilterImpl.matches f (_serviceName ref)); simpl.
        -- rewrite IH by exact Hrest. unfold FastTable.add.
           now rewrite <- app_assoc.
        -- now apply IH.
      * rewrite IH by exact Hrest. unfold FastTable.add.
        now rewrite <- app_assoc.
    + now apply IH.
Qed.

Lemma matching_bundles_eq (clazz : option string)
  (filter : option FilterImpl.FilterImpl_API) (w : World) :
  forall (bundles : list BundleImpl_API) (services : list nat),
    Forall
      (fun bundle =>
         Forall (fun r => (r < List.length (references (memory w)))%nat)
           (_serviceReferences bundle))
      bundles ->
    matching_bundles clazz filter bundles services w
    = Returned
        (services
         ++ flat_map
              (fun bundle =>
                 List.filter (selects (memory w) clazz filter)
                   (_serviceReferences bundle))
              bundles)%list
        w.
Proof.
  induction bundles as [|bundle rest IH]; intros services Hbs; simpl.
  - now rewrite app_nil_r.
  - apply Forall_cons in Hbs as [Hb Hrest].
    unfold bind at 1. rewrite matching_references_eq by exact Hb.
    rewrite IH by exact Hrest. now rewrite <- app_assoc.
Qed.

Lemma wf_references_exist P (m : Memory) :
  wf P m ->
  Forall
    (fun bundle =>
       Forall (fun r => (r < List.length (references m))%nat)
         (_serviceReferences bundle))
    (_bundles m).
Proof.
  intros H. eapply Forall_impl; [exact H|]. now intros bundle (_ & _ & _ & H4 & _).
Qed.

Lemma filter_ext_in_list {A : Type} (f g : A -> bool) (l : list A) :
  (forall x, In x l -> f x = g x) -> List.filter f l = List.filter g l.
Proof.
  induction l as [|x l IH]; intros H; simpl; [reflexivity|].
  rewrite (H x (or_introl eq_refl)), IH; [reflexivity|].
  intros y Hy. apply H. now right.
Qed.

Lemma filter_none {A : Type} (f : A -> bool) (l : list A) :
  (forall x, In x l -> f x = false) -> List.filter f l = [].
Proof.
  induction l as [|x l IH]; intros H; simpl; [reflexivity|].
  rewrite (H x (or_introl eq_refl)). apply IH. intros y Hy. apply H. now right.
Qed.

Lemma found_registered (m : Memory) (clazz : string) :
  found m (Some clazz) None = registered m clazz.
Proof.
  unfold found, registered.
  induction (_bundles m) as [|bundle rest IH]; simpl; [reflexivity|].
  rewrite IH. f_equal. apply filter_ext_in_list. intros r _.
  unfold selects. simpl. apply andb_true_r.
Qed.

Lemma found_null_class (m : Memory) (filter : option FilterImpl.FilterImpl_API) :
  found m None filter = [].
Proof.
  unfold found. induction (_bundles m) as [|bundle rest IH]; simpl; [reflexivity|].
  rewrite IH, app_nil_r. apply filter_none. intros r _. reflexivity.
Qed.

Lemma found_filter (m : Memory) (clazz : string) (f : FilterImpl.FilterImpl_API) :
  found m (Some clazz) (Some f)
  = if String.eqb (FilterImpl._className f) clazz then registered m clazz else [].
Proof.
  rewrite <- found_registered. unfold found.
  induction (_bundles m) as [|bundle rest IH]; simpl.
  - now destruct (String.eqb _ _).
  - rewrite IH. destruct (String.eqb_spec (FilterImpl._className f) clazz) as [E|E].
    + f_equal. apply filter_ext_in_list. intros r _. unfold selects. simpl.
      unfold FilterImpl.matches. rewrite E.
      now destruct (String.eqb (serviceName_of m r) clazz).
    + rewrite app_nil_r. apply filter_none. intros r _. unfold selects. simpl.
      unfold FilterImpl.matches.
      destruct (String.eqb_spec (serviceName_of m r) clazz) as [E1|E1];
        [|reflexivity].
      destruct (String.eqb_spec (serviceName_of m r) (FilterImpl._className f))
        as [E2|E2]; [|reflexivity].
      congruence.
Qed.

Lemma getServiceReferences_body_eq (this : BundleContextImpl_API)
  (clazz : option string) (filter : option FilterImpl.FilterImpl_API)
  (w : World) :
  wf (fun _ _ => True) (memory w) ->
  bind (fun w => matching_bundles clazz filter (_bundles (memory w)) [] w)
    (fun services =>
       if FastTable.size services =? 0 then ret None else ret (Some services)) w
  = Returned
      (match found (memory w) clazz filter with
       | [] => None
       | r :: rest => Some (r :: rest)
       end) w.
Proof.
  intros Hwf. unfold bind.
  rewrite matching_bundles_eq by (eapply wf_references_exist; exact Hwf).
  simpl. fold (found (memory w) clazz filter).
  destruct (found (memory w) clazz filter) as [|r rest]; [reflexivity|].
  unfold FastTable.size. simpl length.
  destruct (Z.eqb_spec (Z.of_nat (S (List.length rest))) 0) as [E|_]; [lia|].
  reflexivity.
Qed.

Lemma registered_spec (m : Memory) (clazz : string) (r : nat) :
  r ∈ registered m clazz
  <-> exists bundle,
        bundle ∈ _bundles m /\ r ∈ _serviceReferences bundle
        /\ serviceName_of m r = clazz.
Proof.
  unfold registered. split.
  - intros H. apply list_elem_of_In, in_flat_map in H as (bundle & Hb & Hr).
    apply filter_In in Hr as [Hr Hn]. apply list_elem_of_In in Hb, Hr.
    exists bundle. repeat split; auto. now apply String.eqb_eq.
  - intros (bundle & Hb & Hr & Hn). apply list_elem_of_In, in_flat_map.
    exists bundle. apply list_elem_of_In in Hb, Hr. split; [exact Hb|].
    apply filter_In. split; [exact Hr|]. now apply String.eqb_eq.
Qed.

Lemma getServiceReferences_eq (this : BundleContextImpl_API)
  (clazz : option string) (w : World) :
  wf (fun _ _ => True) (memory w) ->
  BundleContextImpl_getServiceReferences this clazz None w
  = Some (Returned
            (match found (memory w) clazz None with
             | [] => None
             | r :: rest => Some (r :: rest)
             end) w).
Proof.
  intros Hwf. unfold BundleContextImpl_getServiceReferences, throw_spec,
    BundleContextImpl_getServiceReferences_body.
  unfold bind at 1. unfold ret at 1.
  now rewrite (getServiceReferences_body_eq this _ _ w Hwf).
Qed.

(** X1.  In a well-formed registry, [getServiceReferences(clazz, null)]
    returns without changing anything.  Its result is null when no bundle
    lists a reference registered under [clazz], and otherwise the array
    of these references, bundles in registry order and the references of
    a bundle in registration order.  A null [clazz] selects nothing. *)
Theorem getServiceReferences_lists_registered (this : BundleContextImpl_API)
  (clazz : string) (w : World) :
  wf (fun _ _ => True) (memory w) ->
  BundleContextImpl_getServiceReferences this (Some clazz) None w
  = Some (Returned
            (match registered (memory w) clazz with
             | [] => None
             | r :: rest => Some (r :: rest)
             end) w)
  /\ BundleContextImpl_getServiceReferences this None None w
     = Some (Returned None w)
  /\ forall r,
       r ∈ registered (memory w) clazz
       <-> exists bundle,
             bundle ∈ _bundles (memory w)
             /\ r ∈ _serviceReferences bundle
             /\ serviceName_of (memory w) r = clazz.
Proof.
  intros Hwf. rewrite !getServiceReferences_eq by exact Hwf.
  rewrite found_registered, found_null_class.
  split; [reflexivity|]. split; [reflexivity|]. apply registered_spec.
Qed.

(** X2.  The filter expression of [getServiceReferences] can only empty
    the result.  An expression that compiles to the class name [clazz]
    gives the result of the call without filter, one that compiles to
    another class name gives null.  An expression that does not compile
    raises an UnsupportedOperationException or an
    IndexOutOfBoundsException out of a method declared
    [throw (InvalidSyntaxException)]: where the compiler implements
    exception specifications, the call ends in [std::unexpected()]. *)
Theorem getServiceReferences_with_filter (this : BundleContextImpl_API)
  (clazz expression : string) (w : World) :
  wf (fun _ _ => True) (memory w) ->
  BundleContextImpl_getServiceReferences this (Some clazz) (Some expression) w
  = match FilterImpl.compile expression with
    | inl e => None
    | inr f =>
        if String.eqb (FilterImpl._className f) clazz then
          BundleContextImpl_getServiceReferences this (Some clazz) None w
        else Some (Returned None w)
    end.
Proof.
  intros Hwf. unfold BundleContextImpl_getServiceReferences, throw_spec,
    BundleContextImpl_getServiceReferences_body, BundleContextImpl_createFilter.
  destruct (FilterImpl.compile expression) as [e|f] eqn:E.
  - simpl. unfold bind, throw.
    destruct (compile_rejects _ _ E) as [-> | ->]; reflexivity.
  - simpl. unfold bind at 1 2. unfold ret at 1 2.
    unfold bind at 2. unfold ret at 3.
    rewrite !(getServiceReferences_body_eq this _ _ w Hwf).
    rewrite found_filter, found_registered.
    now destruct (String.eqb (FilterImpl._className f) clazz).
Qed.

(** X3.  In a well-formed registry, [getServiceReference(clazz)] returns
    the first reference registered under [clazz] (the earliest one of the
    first bundle that has one), or null when there is none; it changes
    nothing and logs nothing. *)
Theorem getServiceReference_is_first (this : BundleContextImpl_API)
  (clazz : string) (w : World) :
  wf (fun _ _ => True) (memory w) ->
  BundleContextImpl_getServiceReference this (Some clazz) w
  = Some (Returned (head (registered (memory w) clazz)) w).
Proof.
  intros Hwf. unfold BundleContextImpl_getServiceReference.
  rewrite getServiceReferences_eq by exact Hwf. rewrite found_registered.
  now destruct (registered (memory w) clazz).
Qed.

(* ================================================================== *)
(** * Removing a listener *)

Lemma indexOf_from_none {E : Type} (equals : E -> E -> bool) (o : E) (l : list E) :
  forall i,
    Forall (fun x => equals o x = false) l ->
    FastTable.indexOf_from equals i l o = -1.
Proof.
  induction l as [|x l IH]; intros i H; simpl; [reflexivity|].
  apply Forall_cons in H as [-> H]. now apply IH.
Qed.

Lemma indexOf_from_first {E : Type} (equals : E -> E -> bool) (o : E)
  (pre : list E) (x : E) (post : list E) :
  forall i,
    Forall (fun y => equals o y = false) pre ->
    equals o x = true ->
    FastTable.indexOf_from equals i (pre ++ x :: post) o
    = i + Z.of_nat (List.length pre).
Proof.
  induction pre as [|y pre IH]; intros i Hpre Hx; simpl.
  - rewrite Hx. lia.
  - apply Forall_cons in Hpre as [-> Hpre]. rewrite IH by assumption. lia.
Qed.

Lemma replace_bundle_same (b : nat) (bundle : BundleImpl_API) (w : World) :
  _bundles (memory w) !! b = Some bundle -> replace_bundle b bundle w = w.
Proof.
  intros H. destruct w as [[bs rs c] d l]. unfold replace_bundle. simpl in *.
  now rewrite list_insert_id.
Qed.

Lemma removeServiceListener_at (this : BundleContextImpl_API)
  (sl : ServiceListener_API) (bundle : BundleImpl_API) (w : World) (i : nat) :
  _bundles (memory w) !! ctx_bundle this = Some bundle ->
  aligned bundle ->
  FastTable.indexOf ServiceListener_equals (_serviceListeners bundle) sl
  = Z.of_nat i ->
  (i < List.length (_serviceListeners bundle))%nat ->
  BundleContextImpl_removeServiceListener this sl w
  = Returned tt
      (replace_bundle (ctx_bundle this)
         (with_serviceListenerFilters (delete i (_serviceListenerFilters bundle))
            (with_serviceListeners (delete i (_serviceListeners bundle)) bundle))
         w).
Proof.
  intros Hb Hal Hi Hlt. unfold BundleContextImpl_removeServiceListener.
  unfold bind at 1. rewrite (the_bundle_at _ bundle w Hb). rewrite Hi.
  destruct (FastTable_remove_in_range (_serviceListeners bundle) (Z.of_nat i))
    as [x Hx]; [lia | rewrite Nat2Z.id; exact Hlt |].
  rewrite Nat2Z.id in Hx. unfold bind at 1. rewrite Hx. unfold lift, ret at 1.
  unfold bind at 1. rewrite (update_bundle_at _ _ bundle w Hb). simpl snd.
  unfold bind at 1.
  erewrite the_bundle_at by (eapply lookup_replace_bundle; exact Hb).
  cbn [_serviceListenerFilters with_serviceListeners].
  destruct (FastTable_remove_in_range (_serviceListenerFilters bundle) (Z.of_nat i))
    as [y Hy]; [lia | rewrite Nat2Z.id; unfold aligned in Hal; lia |].
  rewrite Nat2Z.id in Hy. unfold bind at 1. rewrite Hy. unfold ret at 1.
  erewrite update_bundle_at by (eapply lookup_replace_bundle; exact Hb).
  simpl snd. now rewrite replace_replace_bundle.
Qed.

(** X4.  [removeServiceListener(sl)] on the context of a bundle whose
    two listener tables are in lock step.  When no registered listener
    equals [sl], the call raises an ArrayIndexOutOfBoundsException for
    the index -1 and changes nothing.  Otherwise it removes the first
    registered listener equal to [sl] together with the filter stored at
    the same index, keeps every other registration in order, and changes
    nothing else. *)
Theorem removeServiceListener_removes_first (this : BundleContextImpl_API)
  (sl : ServiceListener_API) (bundle : BundleImpl_API) (w : World) :
  _bundles (memory w) !! ctx_bundle this = Some bundle ->
  aligned bundle ->
  (Forall (fun l => ServiceListener_equals sl l = false) (_serviceListeners bundle) ->
   BundleContextImpl_removeServiceListener this sl w
   = Thrown (mkThrowable ArrayIndexOutOfBoundsException_class (ArrayIndex (-1))) w)
  /\ (forall pre l post,
        _serviceListeners bundle = (pre ++ l :: post)%list ->
        Forall (fun x => ServiceListener_equals sl x = false) pre ->
        ServiceListener_equals sl l = true ->
        BundleContextImpl_removeServiceListener this sl w
        = Returned tt
            (replace_bundle (ctx_bundle this)
               (with_serviceListenerFilters
                  (delete (List.length pre) (_serviceListenerFilters bundle))
                  (with_serviceListeners (pre ++ post) bundle))
               w)).
Proof.
  intros Hb Hal. split.
  - intros Hnone. unfold BundleContextImpl_removeServiceListener.
    unfold bind at 1. rewrite (the_bundle_at _ bundle w Hb).
    unfold FastTable.indexOf. rewrite indexOf_from_none by exact Hnone.
    unfold bind at 1, FastTable.remove, FastTable.get, FastTable.size.
    destruct (Z.geb_spec (-1) (Z.of_nat (List.length (_serviceListeners bundle))));
      [lia|]. reflexivity.
  - intros pre l post Hl Hpre Heq.
    rewrite (removeServiceListener_at this sl bundle w (List.length pre) Hb Hal).
    + rewrite Hl. f_equal. f_equal. f_equal. f_equal.
      rewrite delete_middle. reflexivity.
    + unfold FastTable.indexOf. rewrite Hl.
      rewrite (indexOf_from_first _ _ _ _ _ 0 Hpre Heq). lia.
    + rewrite Hl, length_app. simpl. lia.
Qed.

(** X5.  Adding, then removing.  On the context of a bundle whose two
    listener tables are in lock step and hold no listener equal to [sl],
    [addServiceListener(sl, filter)] followed by
    [removeServiceListener(sl)] returns and leaves the registry exactly
    as it was. *)
Theorem addServiceListener_then_remove (this : BundleContextImpl_API)
  (sl : ServiceListener_API) (filter : option string) (bundle : BundleImpl_API)
  (w : World) :
  _bundles (memory w) !! ctx_bundle this = Some bundle ->
  aligned bundle ->
  Forall (fun l => ServiceListener_equals sl l = false) (_serviceListeners bundle) ->
  (BundleContextImpl_addServiceListener this sl filter ;;
   BundleContextImpl_removeServiceListener this sl) w
  = Returned tt w.
Proof.
  intros Hb Hal Hnone. unfold bind.
  rewrite (addServiceListener_at this sl filter bundle w Hb).
  set (added := with_serviceListenerFilters _ _).
  assert (Hb' : _bundles (memory (replace_bundle (ctx_bundle this) added w))
                !! ctx_bundle this = Some added)
    by (eapply lookup_replace_bundle; exact Hb).
  rewrite (removeServiceListener_at this sl added _
             (List.length (_serviceListeners bundle)) Hb').
  - rewrite replace_replace_bundle. unfold added. simpl.
    unfold aligned in Hal. rewrite delete_middle. rewrite Hal, delete_middle.
    rewrite !app_nil_r.
    replace (with_serviceListenerFilters _ _) with bundle by now destruct bundle.
    f_equal. now apply replace_bundle_same.
  - unfold aligned, added. simpl. rewrite !length_app. unfold aligned in Hal.
    simpl. lia.
  - unfold added. simpl. unfold FastTable.indexOf.
    rewrite (indexOf_from_first _ _ _ _ _ 0 Hnone).
    + lia.
    + unfold ServiceListener_equals. apply Nat.eqb_refl.
  - unfold added. simpl. rewrite length_app. simpl. lia.
Qed.

(* ================================================================== *)
(** * Removing an element from a table *)

Lemma removeElement_first {E : Type} (equals : E -> E -> bool) (x : E)
  (pre : list E) (y : E) (post : list E) :
  Forall (fun z => equals x z = false) pre ->
  equals x y = true ->
  FastTable.removeElement equals (pre ++ y :: post) x = (true, (pre ++ post)%list).
Proof.
  induction pre as [|z pre IH]; intros Hpre Hy; simpl.
  - now rewrite Hy.
  - apply Forall_cons in Hpre as [-> Hpre]. now rewrite IH.
Qed.

Lemma removeElement_absent {E : Type} (equals : E -> E -> bool) (x : E)
  (l : list E) :
  Forall (fun z => equals x z = false) l ->
  FastTable.removeElement equals l x = (false, l).
Proof.
  induction l as [|z l IH]; intros Hl; simpl; [reflexivity|].
  apply Forall_cons in Hl as [-> Hl]. now rewrite IH.
Qed.

(* ================================================================== *)
(** * Looking a bundle up by name *)

Lemma getBundle_from_first (n : string) (bs : list BundleImpl_API) :
  forall (i b : nat),
    getBundle_from i bs n = Some b ->
    forall k x,
      (i <= k < b)%nat -> bs !! (k - i)%nat = Some x -> _symbolicName x <> n.
Proof.
  induction bs as [|x0 rest IH]; intros i b Hg k x Hk Hx; [discriminate|].
  simpl in Hg. destruct (String.eqb_spec (_symbolicName x0) n) as [Hn|Hn].
  - injection Hg as <-. lia.
  - destruct (decide (k = i)) as [->|Hne].
    + rewrite Nat.sub_diag in Hx. injection Hx as <-. exact Hn.
    + apply (IH (S i) b Hg k x); [lia|].
      replace (k - i)%nat with (S (k - S i)) in Hx by lia. exact Hx.
Qed.

(** X6.  [getBundle(symbolicName)] answers the first bundle of the
    table that carries the name: no bundle before it does.  It answers
    null exactly when no bundle of the table carries the name. *)
Theorem getBundle_finds_first (m : Memory) (symbolicName : string) :
  match getBundle m symbolicName with
  | Some b =>
      exists bundle,
        _bundles m !! b = Some bundle
        /\ _symbolicName bundle = symbolicName
        /\ forall k x,
             (k < b)%nat -> _bundles m !! k = Some x ->
             _symbolicName x <> symbolicName
  | None =>
      Forall (fun bundle => _symbolicName bundle <> symbolicName) (_bundles m)
  end.
Proof.
  destruct (getBundle m symbolicName) as [b|] eqn:E.
  - destruct (getBundle_lookup _ _ _ E) as (bundle & Hb & Hn).
    exists bundle. split; [exact Hb|]. split; [exact Hn|].
    intros k x Hk Hx. apply (getBundle_from_first _ _ _ _ E k x); [lia|].
    now rewrite Nat.sub_0_r.
  - eapply getBundle_from_absent. exact E.
Qed.

(* ================================================================== *)
(** * What a hook leaves of the bundle table *)

(** User code changes the state of no bundle, nor its name, nor its
    activator, nor the length of the table. *)
Lemma hook_keeps_bundles (fuel : nat) (ctx : option BundleContextImpl_API)
  (calls : list Call) (w : World) :
  forall i x,
    _bundles (memory w) !! i = Some x ->
    exists x',
      _bundles
        (memory (world_after
                   (run_hook (OSGiImpl_fireServiceEvent fuel) ctx calls w)))
        !! i = Some x'
      /\ _symbolicName x' = _symbolicName x
      /\ _activator x' = _activator x
      /\ _state x' = _state x.
Proof.
  intros i x Hx.
  pose proof (preserves_world_after _ _ w
                (same_run_hook (List.length (_bundles (memory w))) (memory w) _
                   (same_fireServiceEvent _ _ fuel) ctx calls)
                (same_bundles_refl _ _)) as [_ H].
  destruct (H i x Hx) as (x' & H1 & H2 & H3 & H4).
  exists x'. repeat split; auto. apply H4.
  apply lookup_lt_Some in Hx. lia.
Qed.

(** X7.  [BundleImpl_API::start] when the hook does not raise an
    Exception.  Take a bundle in state RESOLVED.  When its activator's
    start hook, run while the bundle is STARTING, returns, [start()]
    returns and leaves the world that the hook left with the state of
    the bundle set to ACTIVE.  When the hook raises a throwable that is
    not an Exception, [start()] raises it on and changes nothing more:
    the bundle stays STARTING.  In both cases the bundle has the name
    and the activator it had. *)
Theorem start_activates (fuel : nat) (b : nat) (this : BundleImpl_API)
  (w : World) :
  _bundles (memory w) !! b = Some this ->
  _state this = Bundle.RESOLVED ->
  (forall w2,
      BundleActivator_start (OSGiImpl_fireServiceEvent fuel) (_activator this)
        (_context this) (replace_bundle b (with_state Bundle.STARTING this) w)
      = Returned tt w2 ->
      exists this2,
        _bundles (memory w2) !! b = Some this2
        /\ _symbolicName this2 = _symbolicName this
        /\ _activator this2 = _activator this
        /\ BundleImpl_start fuel b w
           = Returned tt (replace_bundle b (with_state Bundle.ACTIVE this2) w2))
  /\ (forall e w2,
        BundleActivator_start (OSGiImpl_fireServiceEvent fuel) (_activator this)
          (_context this) (replace_bundle b (with_state Bundle.STARTING this) w)
        = Thrown e w2 ->
        instanceOf (t_class e) Exception_class = false ->
        BundleImpl_start fuel b w = Thrown e w2
        /\ exists this2,
             _bundles (memory w2) !! b = Some this2
             /\ _symbolicName this2 = _symbolicName this
             /\ _activator this2 = _activator this
             /\ _state this2 = Bundle.STARTING).
Proof.
  intros Hb Hstate.
  set (starting := with_state Bundle.STARTING this).
  set (w1 := replace_bundle b starting w).
  assert (Hb1 : _bundles (memory w1) !! b = Some starting)
    by (eapply lookup_replace_bundle; eauto).
  assert (Hstart : forall o,
             BundleActivator_start (OSGiImpl_fireServiceEvent fuel)
               (_activator this) (_context this) w1 = o ->
             BundleImpl_start fuel b w
             = try_catch
                 (fun w => match o with
                           | Returned _ w2 =>
                               update_bundle b (with_state Bundle.ACTIVE) w2
                           | Thrown e w2 => Thrown e w2
                           | Unfinished w2 => Unfinished w2
                           end)
                 Exception_class
                 (fun error => BundleImpl_start_catch fuel b (_symbolicName this))
                 w1).
  { intros o Ho. unfold BundleImpl_start. unfold bind at 1.
    rewrite (the_bundle_at b this w Hb).
    rewrite Hstate, Z.eqb_refl. cbn [negb]. unfold bind at 1.
    rewrite (update_bundle_at b _ this w Hb). fold starting. fold w1.
    unfold try_catch. unfold bind at 1.
    rewrite (the_bundle_at b starting w1 Hb1). unfold bind at 1.
    change (_activator starting) with (_activator this).
    change (_context starting) with (_context this).
    rewrite Ho. now destruct o. }
  split.
  - intros w2 Hhook.
    destruct (hook_keeps_bundles fuel (_context this)
                (start_hook (_activator this)) w1 b starting Hb1)
      as (this2 & H2 & Hn & Ha & _).
    unfold BundleActivator_start in Hhook. rewrite Hhook in H2. simpl in H2.
    exists this2. split; [exact H2|]. split; [exact Hn|]. split; [exact Ha|].
    rewrite (Hstart _ Hhook). unfold try_catch.
    now rewrite (update_bundle_at b _ this2 w2 H2).
  - intros e w2 Hhook Hclass. split.
    + rewrite (Hstart _ Hhook). unfold try_catch. now rewrite Hclass.
    + destruct (hook_keeps_bundles fuel (_context this)
                  (start_hook (_activator this)) w1 b starting Hb1)
        as (this2 & H2 & Hn & Ha & Hs).
      unfold BundleActivator_start in Hhook. rewrite Hhook in H2. simpl in H2.
      exists this2. auto.
Qed.

(* ================================================================== *)
(** * Teardown *)

(** [unregisterServices(); unregisterListeners(); _state = RESOLVED],
    followed by [k], when the listeners that are told return at once. *)
Lemma teardown_quiet {A : Type} (fuel : nat) (b : nat) (this : BundleImpl_API)
  (w : World) :
  Forall aligned (_bundles (memory w)) ->
  within fuel (memory w) ->
  _bundles (memory w) !! b = Some this ->
  Forall (fun r => (r < List.length (references (memory w)))%nat)
    (_serviceReferences this) ->
  Forall returns_at_once (unregistering (memory w) (_serviceReferences this)) ->
  exists w' ds,
    (forall k : M A,
        (BundleImpl_unregisterServices fuel b ;;
         BundleImpl_unregisterListeners b ;;
         update_bundle b (with_state Bundle.RESOLVED) ;;
         k) w
        = k w')
    /\ _bundles (memory w') !! b
       = Some (mkBundle (_symbolicName this) (_activator this) Bundle.RESOLVED
                 [] [] [] (_context this))
    /\ (forall b', b' <> b ->
          _bundles (memory w') !! b' = _bundles (memory w) !! b')
    /\ logged w' = logged w
    /\ delivered w' = (delivered w ++ ds)%list
    /\ map d_pair ds = unregistering (memory w) (_serviceReferences this)
    /\ Forall (still_listed b) ds.
Proof.
  intros Hal Hin Hb Hrefs Hq.
  destruct (unregister_each_quiet fuel b this (_serviceReferences this) []
              fuel w)
    as (w4 & ds & Hrun & Hb4 & Hc4 & Hlog4 & Hd4 & Hpairs & Hseen);
    try assumption; try reflexivity.
  { destruct Hin as [_ Hall].
    pose proof (Forall_lookup_1 _ _ _ _ Hall Hb) as [_ H]. lia. }
  assert (Hlook4 : _bundles (memory w4) !! b = Some this)
    by (rewrite Hb4; exact Hb).
  exists (replace_bundle b
            (mkBundle (_symbolicName this) (_activator this) Bundle.RESOLVED
               [] [] [] (_context this)) w4), ds.
  split; [|split; [|split; [|split; [|split; [|split]]]]].
  - intros k. unfold BundleImpl_unregisterServices. unfold bind at 1.
    unfold bind at 1.
    change 0 with (Z.of_nat (List.length (@nil nat))).
    rewrite Hrun. rewrite (update_bundle_at b _ this w4 Hlook4).
    unfold bind at 1.
    erewrite unregisterListeners_at
      by (eapply lookup_replace_bundle; exact Hlook4).
    rewrite replace_replace_bundle. unfold bind at 1.
    erewrite update_bundle_at by (eapply lookup_replace_bundle; exact Hlook4).
    rewrite replace_replace_bundle. reflexivity.
  - eapply lookup_replace_bundle; exact Hlook4.
  - intros b' Hne. rewrite lookup_replace_bundle_ne by exact Hne.
    now rewrite Hb4.
  - simpl. exact Hlog4.
  - simpl. exact Hd4.
  - exact Hpairs.
  - eapply Forall_impl; [exact Hseen|]. intros d [H1 H2].
    exists this. split; [rewrite H1; exact Hb | exact H2].
Qed.

(** X8.  [BundleImpl_API::stop].  A bundle that is not ACTIVE is left
    alone: [stop()] returns at once.  For an ACTIVE bundle of a
    well-formed registry, let the activator's stop hook, run while the
    bundle is STOPPING, return or raise an Exception, and suppose that
    the tables are shorter than the step budget and that every listener
    owed an UNREGISTERING event for a reference of the bundle returns
    from it without calling the registry.  Then the bundle ends RESOLVED,
    without service reference, listener or filter, and with the name,
    the activator and the context it had; every other bundle is as the
    hook left it; for each reference the bundle held when the hook
    ended, in table order, the subscribed listeners were handed an
    UNREGISTERING event while the reference was still listed.  After
    the cleanup [stop()] returns when the hook returned, and raises an
    Exception with the message of the hook's one when the hook raised.
    When the hook raises a throwable that is not an Exception, [stop()]
    raises it on without any cleanup. *)
Theorem stop_cleans_up (fuel : nat) (b : nat) (this : BundleImpl_API)
  (w : World) :
  wf (fun _ _ => True) (memory w) ->
  _bundles (memory w) !! b = Some this ->
  (_state this <> Bundle.ACTIVE -> BundleImpl_stop fuel b w = Returned tt w)
  /\ (_state this = Bundle.ACTIVE ->
      forall r w2 this2,
        BundleActivator_stop (OSGiImpl_fireServiceEvent fuel) (_activator this)
          (_context this) (replace_bundle b (with_state Bundle.STOPPING this) w)
        = finish r w2 ->
        (forall e, r = Some e -> instanceOf (t_class e) Exception_class = true) ->
        _bundles (memory w2) !! b = Some this2 ->
        within fuel (memory w2) ->
        Forall returns_at_once
          (unregistering (memory w2) (_serviceReferences this2)) ->
        exists w' ds,
          BundleImpl_stop fuel b w
          = finish
              (option_map (fun e => mkThrowable Exception_class (t_message e)) r)
              w'
          /\ _bundles (memory w') !! b
             = Some (mkBundle (_symbolicName this) (_activator this)
                       Bundle.RESOLVED [] [] [] (_context this2))
          /\ (forall b', b' <> b ->
                _bundles (memory w') !! b' = _bundles (memory w2) !! b')
          /\ logged w' = logged w2
          /\ delivered w' = (delivered w2 ++ ds)%list
          /\ map d_pair ds
             = unregistering (memory w2) (_serviceReferences this2)
          /\ Forall (still_listed b) ds)
  /\ (_state this = Bundle.ACTIVE ->
      forall e w2,
        BundleActivator_stop (OSGiImpl_fireServiceEvent fuel) (_activator this)
          (_context this) (replace_bundle b (with_state Bundle.STOPPING this) w)
        = Thrown e w2 ->
        instanceOf (t_class e) Exception_class = false ->
        BundleImpl_stop fuel b w = Thrown e w2).
Proof.
  intros Hwf Hb.
  set (stopping := with_state Bundle.STOPPING this).
  set (w1 := replace_bundle b stopping w).
  assert (Hb1 : _bundles (memory w1) !! b = Some stopping)
    by (eapply lookup_replace_bundle; eauto).
  assert (Hstop : _state this = Bundle.ACTIVE ->
            BundleImpl_stop fuel b w
            = (error <- try_catch
                          (BundleActivator_stop (OSGiImpl_fireServiceEvent fuel)
                             (_activator this) (_context this) ;;
                           ret None)
                          Exception_class (fun e => ret (Some e)) ;;
               BundleImpl_unregisterServices fuel b ;;
               BundleImpl_unregisterListeners b ;;
               update_bundle b (with_state Bundle.RESOLVED) ;;
               match error with
               | Some e => rethrow_as Exception_class e
               | None => ret tt
               end) w1).
  { intros Hstate. unfold BundleImpl_stop. unfold bind at 1.
    rewrite (the_bundle_at b this w Hb).
    rewrite Hstate, Z.eqb_refl. cbn [negb]. unfold bind at 1.
    rewrite (update_bundle_at b _ this w Hb). fold stopping. fold w1.
    unfold bind at 1. unfold try_catch at 1. unfold bind at 1.
    rewrite (the_bundle_at b stopping w1 Hb1).
    unfold bind at 4. unfold try_catch at 1. reflexivity. }
  split; [|split].
  - intros Hstate. unfold BundleImpl_stop. unfold bind at 1.
    rewrite (the_bundle_at b this w Hb).
    destruct (Z.eqb_spec (_state this) Bundle.ACTIVE); [contradiction|].
    reflexivity.
  - intros Hstate r w2 this2 Hhook Hclass Hb2 Hin Hq.
    rewrite (Hstop Hstate).
    assert (Hwf1 : wfW (fun _ _ => True) w1).
    { apply wf_replace_bundle; [exact Hwf|].
      apply bundle_ok_with_state. eapply wf_lookup; eauto. }
    assert (Hwf2 : wfW (fun _ _ => True) w2).
    { pose proof (wf_hook (fun _ _ => True) closed_True fuel
                    (stop_hook (_activator this)) (_context this)
                    (call_ok_True _) w1 Hwf1) as Hp.
      unfold BundleActivator_stop in Hhook. rewrite Hhook in Hp.
      now destruct r. }
    destruct (hook_keeps_bundles fuel (_context this)
                (stop_hook (_activator this)) w1 b stopping Hb1)
      as (x & Hx & Hn & Ha & _).
    unfold BundleActivator_stop in Hhook. rewrite Hhook in Hx.
    assert (Hx' : _bundles (memory w2) !! b = Some x) by (now destruct r).
    rewrite Hb2 in Hx'. injection Hx' as <-.
    destruct (@teardown_quiet unit fuel b this2 w2)
      as (w' & ds & Hk & Hb' & Hothers & Hlog & Hd & Hpairs & Hlisted).
    { eapply aligned_of_wf; exact Hwf2. }
    { exact Hin. }
    { exact Hb2. }
    { destruct (wf_lookup _ _ _ _ Hwf2 Hb2) as (_ & _ & _ & H4 & _). exact H4. }
    { exact Hq. }
    exists w', ds. split.
    + unfold bind at 1. unfold try_catch, BundleActivator_stop.
      unfold bind at 1. rewrite Hhook.
      destruct r as [e|]; simpl finish; cbv beta iota.
      * rewrite (Hclass e eq_refl). unfold ret at 1. rewrite Hk. reflexivity.
      * unfold ret at 1. rewrite Hk. reflexivity.
    + rewrite Hb'. simpl in Hn, Ha. rewrite Hn, Ha. repeat split; auto.
  - intros Hstate e w2 Hhook Hclass. rewrite (Hstop Hstate).
    unfold bind at 1. unfold try_catch, BundleActivator_stop in *.
    unfold bind at 1. rewrite Hhook. now rewrite Hclass.
Qed.

(* ================================================================== *)
(** * The registry's stop *)

(** X9.  [OSGiImpl_API::stop(symbolicName)] for a name that no bundle
    carries logs the error ["Cannot find bundle ..."] and returns
    without any other change.  For a bundle that is not ACTIVE it
    returns without logging, and although [bundle->stop()] did nothing,
    the bundle's context is set to null. *)
Theorem stop_of_unknown_or_idle_bundle (fuel : nat) (symbolicName : string)
  (w : World) :
  (getBundle (memory w) symbolicName = None ->
   OSGiImpl_stop fuel symbolicName w
   = Returned tt
       (mkWorld (memory w) (delivered w)
          (logged w
             ++ [Exception_newInstance ("Cannot find bundle " ++ symbolicName)])))
  /\ (forall b this,
        getBundle (memory w) symbolicName = Some b ->
        _bundles (memory w) !! b = Some this ->
        _state this <> Bundle.ACTIVE ->
        OSGiImpl_stop fuel symbolicName w
        = Returned tt (replace_bundle b (with_context None this) w)).
Proof.
  split.
  - intros Hg. unfold OSGiImpl_stop. rewrite catch_all_eq.
    unfold OSGiImpl_stop_body, OSGiImpl_getBundle. unfold bind at 1.
    rewrite Hg. reflexivity.
  - intros b this Hg Hb Hstate. unfold OSGiImpl_stop. rewrite catch_all_eq.
    unfold OSGiImpl_stop_body, OSGiImpl_getBundle. unfold bind at 1.
    rewrite Hg. unfold bind at 1. unfold BundleImpl_stop. unfold bind at 1.
    rewrite (the_bundle_at b this w Hb).
    destruct (Z.eqb_spec (_state this) Bundle.ACTIVE); [contradiction|].
    cbn [negb]. unfold ret at 1.
    now rewrite (update_bundle_at b _ this w Hb).
Qed.

(* ================================================================== *)
(** * Registering and unregistering a service *)

Lemma until_raise_all (ev : ServiceEvent_API) (ls : list ServiceListener_API) :
  snd (until_raise ev ls) = None -> fst (until_raise ev ls) = ls.
Proof.
  induction ls as [|l ls IH]; simpl; [reflexivity|].
  destruct (raised ev l); [discriminate|].
  destruct (until_raise ev ls) as [invoked r]. simpl in *.
  intros H. now rewrite (IH H).
Qed.

(** X10.  [registerService(serviceName, service)] on the context of an
    existing bundle, in a registry whose listener tables are in lock
    step and shorter than the step budget, when no listener subscribed
    to [(objectClass=serviceName)] calls the registry from its callback.
    A new reference object is created for the bundle, the name and the
    service, and appended to the bundle's table; then the REGISTERED
    event is handed to the subscribed listeners, in order, who find the
    service already registered.  When none of them raises, the call
    returns the registration of the new reference.  When one raises,
    the call raises that throwable after the listeners up to that one
    were told: the service stays registered although the caller is
    given no registration.  In both cases [getService] of the new
    reference answers [service]. *)
Theorem registerService_publishes (fuel : nat) (this : BundleContextImpl_API)
  (serviceName : string) (service : Object) (bundle : BundleImpl_API)
  (w : World) :
  let r := List.length (references (memory w)) in
  let serviceEvent := mkServiceEvent ServiceEvent.REGISTERED r in
  let listeners :=
    subscribers (FilterImpl.canonical serviceName) (_bundles (memory w)) in
  let w1 :=
    mkWorld
      (mkMemory
         (<[ctx_bundle this :=
              with_serviceReferences (_serviceReferences bundle ++ [r]) bundle]>
            (_bundles (memory w)))
         (references (memory w)
          ++ [mkServiceReference (Some (ctx_bundle this)) serviceName service])
         (contexts (memory w)))
      (delivered w) (logged w) in
  _bundles (memory w) !! ctx_bundle this = Some bundle ->
  Forall aligned (_bundles (memory w)) ->
  within fuel (memory w1) ->
  Forall (passive serviceEvent) listeners ->
  BundleContextImpl_registerService (OSGiImpl_fireServiceEvent fuel) this
    serviceName service w
  = match snd (until_raise serviceEvent listeners) with
    | Some e =>
        Thrown e (record serviceEvent (fst (until_raise serviceEvent listeners)) w1)
    | None =>
        Returned (mkServiceRegistration r) (record serviceEvent listeners w1)
    end
  /\ BundleContextImpl_getService this r
       (record serviceEvent (fst (until_raise serviceEvent listeners)) w1)
     = Returned service
         (record serviceEvent (fst (until_raise serviceEvent listeners)) w1).
Proof.
  intros r serviceEvent listeners w1 Hb Hal Hin Hp.
  assert (Href : references (memory w1) !! _reference serviceEvent
                 = Some (mkServiceReference (Some (ctx_bundle this)) serviceName
                           service)).
  { simpl. rewrite lookup_app_r by reflexivity. fold r.
    now rewrite Nat.sub_diag. }
  assert (Hsubs : subscribers (FilterImpl.canonical serviceName)
                    (_bundles (memory w1)) = listeners).
  { simpl. eapply subscribers_insert; eauto. }
  assert (Hal1 : Forall aligned (_bundles (memory w1))).
  { simpl. apply Forall_insert; [exact Hal|].
    change (aligned bundle). eapply Forall_lookup_1; eauto. }
  pose proof (fireServiceEvent_eq fuel serviceEvent _ w1 Href Hal1 Hin) as Hfire.
  cbn [_serviceName] in Hfire. rewrite Hsubs in Hfire.
  specialize (Hfire Hp).
  split.
  - unfold BundleContextImpl_registerService. unfold bind at 1.
    unfold ServiceReferenceImpl_new at 1. fold r.
    unfold bind at 1. rewrite update_bundle_eq.
    cbn [memory _bundles set_memory set_references]. rewrite Hb.
    unfold FastTable.add.
    change (set_memory _ _) with w1.
    unfold bind at 1. fold serviceEvent. rewrite Hfire.
    destruct (snd (until_raise serviceEvent listeners)) as [e|] eqn:Es;
      simpl finish; [reflexivity|].
    now rewrite (until_raise_all _ _ Es).
  - unfold BundleContextImpl_getService, bind, the_reference.
    change (memory (record serviceEvent _ w1)) with (memory w1).
    change r with (_reference serviceEvent). now rewrite Href.
Qed.

(** X11.  The first [unregister()] of a registration.  Let the
    reference be linked to a bundle whose table lists it, in a registry
    whose listener tables are in lock step and shorter than the step
    budget, and let no listener subscribed to its interface name call
    the registry from its callback for the UNREGISTERING event.  These
    listeners are told in order, while the bundle still lists the
    reference.  When none of them raises, the first occurrence of the
    reference is then removed from the bundle's table, the reference's
    link to its bundle is cut, and the call returns; nothing else
    changes.  When one raises, the call raises that throwable after the
    listeners up to that one were told, and the service stays
    registered. *)
Theorem unregister_removes_the_service (fuel : nat)
  (this : ServiceRegistrationImpl_API)
  (serviceReference : ServiceReferenceImpl_API) (b : nat)
  (bundle : BundleImpl_API) (pre post : list nat) (w : World) :
  let serviceEvent :=
    mkServiceEvent ServiceEvent.UNREGISTERING (_serviceReference this) in
  let listeners :=
    subscribers (FilterImpl.canonical (_serviceName serviceReference))
      (_bundles (memory w)) in
  references (memory w) !! _serviceReference this = Some serviceReference ->
  ref_bundle serviceReference = Some b ->
  _bundles (memory w) !! b = Some bundle ->
  _serviceReferences bundle = (pre ++ _serviceReference this :: post)%list ->
  _serviceReference this ∉ pre ->
  Forall aligned (_bundles (memory w)) ->
  within fuel (memory w) ->
  Forall (passive serviceEvent) listeners ->
  ServiceRegistrationImpl_unregister fuel this w
  = Some
      (match snd (until_raise serviceEvent listeners) with
       | Some e =>
           Thrown e
             (record serviceEvent (fst (until_raise serviceEvent listeners)) w)
       | None =>
           Returned tt
             (mkWorld
                (mkMemory
                   (<[b := with_serviceReferences (pre ++ post) bundle]>
                      (_bundles (memory w)))
                   (<[_serviceReference this :=
                        mkServiceReference None (_serviceName serviceReference)
                          (_service serviceReference)]>
                      (references (memory w)))
                   (contexts (memory w)))
                (delivered w
                 ++ map (fun l => mkDelivery l serviceEvent (memory w)) listeners)
                (logged w))
       end).
Proof.
  intros serviceEvent listeners Href Hrb Hb Hrefs Hpre Hal Hin Hp.
  pose proof (fireServiceEvent_eq fuel serviceEvent serviceReference w Href Hal
                Hin Hp) as Hfire.
  fold listeners in Hfire.
  unfold ServiceRegistrationImpl_unregister.
  assert (Ho : forall w', memory w' = memory w ->
                          the_owner (_serviceReference this) w'
                          = Some (Returned b w')).
  { intros w' E. unfold the_owner. now rewrite E, Href, Hrb. }
  rewrite (Ho w eq_refl). fold serviceEvent. rewrite Hfire.
  destruct (snd (until_raise serviceEvent listeners)) as [e|] eqn:Es;
    simpl finish; [reflexivity|].
  rewrite (until_raise_all _ _ Es).
  rewrite (Ho (record serviceEvent listeners w) eq_refl).
  f_equal. unfold bind.
  rewrite (update_bundle_at b _ bundle (record serviceEvent listeners w) Hb).
  rewrite Hrefs.
  rewrite (removeElement_first Nat.eqb (_serviceReference this) pre
             (_serviceReference this) post).
  - erewrite clear_ref_bundle_at by exact Href. reflexivity.
  - apply Forall_forall. intros z Hz. apply Nat.eqb_neq. intros E.
    rewrite <- E in Hz. contradiction.
  - apply Nat.eqb_refl.
Qed.

(* ================================================================== *)
(** * Every delivery is selected by a filter *)

(** X12.  Event filter exactness, whatever the listeners do.  Run any
    sequence of registry starts and stops, bundle starts and stops and
    context calls on a new registry, with any step budget, and let the
    callbacks add and remove listeners, register services and raise as
    they like.  Every callback invocation that was ever made was made
    from a slot of a bundle's listener table whose filter string, in the
    filter table at the same index, was [(objectClass=<interfaceName>)]
    for the interface name of the event's service reference at that
    moment.  So a listener that, when an event is delivered to it, is
    held only in slots whose filter is [(objectClass=A)] is handed only
    events of services registered under the name [A]. *)
Theorem deliveries_match_filters (fuel : nat) (ops : list Operation) :
  Forall selected (delivered (run fuel ops OSGiImpl_new))
  /\ forall d A,
       d ∈ delivered (run fuel ops OSGiImpl_new) ->
       (forall b bundle j,
           _bundles (d_seen d) !! b = Some bundle ->
           _serviceListeners bundle !! j = Some (d_listener d) ->
           _serviceListenerFilters bundle !! j
           = Some (Some (FilterImpl.canonical A))) ->
       serviceName_of (d_seen d) (_reference (d_event d)) = A.
Proof.
  assert (H : Forall selected (delivered (run fuel ops OSGiImpl_new))).
  { destruct (run_exact [] (memory OSGiImpl_new) fuel ops OSGiImpl_new)
      as [(ds & Hd & Hs) _].
    - split; [exists []; split; [reflexivity | constructor]
             | apply names_kept_refl].
    - now rewrite Hd. }
  split; [exact H|]. intros d A Hd Hslots.
  rewrite Forall_forall in H. destruct (H d Hd) as (b & bundle & j & Hb & Hl & Hf).
  specialize (Hslots b bundle j Hb Hl).
  assert (Hc : FilterImpl.canonical A
               = FilterImpl.canonical
                   (serviceName_of (d_seen d) (_reference (d_event d))))
    by congruence.
  apply canonical_inj in Hc. now symmetry.
Qed.

(* ================================================================== *)
(** * A tracker that receives a sequence of events *)

Lemma tracker_after_snoc this evs ev :
  tracker_after this (evs ++ [ev])
  = snd (ServiceTracker.serviceChanged (tracker_after this evs) ev).
Proof. unfold tracker_after. now rewrite fold_left_app. Qed.

Lemma serviceChanged_customizer this ev :
  ServiceTracker._customizer (snd (ServiceTracker.serviceChanged this ev))
  = ServiceTracker._customizer this.
Proof.
  unfold ServiceTracker.serviceChanged.
  destruct (_type ev =? ServiceEvent.REGISTERED).
  - simpl. now destruct (ServiceTracker.addingService _ _).
  - destruct (_type ev =? ServiceEvent.MODIFIED); [reflexivity|].
    now destruct (_type ev =? ServiceEvent.UNREGISTERING).
Qed.

Lemma tracker_after_customizer this evs :
  ServiceTracker._customizer (tracker_after this evs)
  = ServiceTracker._customizer this.
Proof.
  induction evs as [|ev evs IH] using rev_ind; [reflexivity|].
  now rewrite tracker_after_snoc, serviceChanged_customizer.
Qed.

Lemma serviceChanged_trackedServices this ev r :
  ServiceTracker._trackedServices (snd (ServiceTracker.serviceChanged this ev)) !! r
  = match last_word (ServiceTracker._customizer this) r [ev] with
    | Some v => v
    | None => ServiceTracker._trackedServices this !! r
    end.
Proof.
  unfold ServiceTracker.serviceChanged, last_word.
  destruct (_type ev =? ServiceEvent.REGISTERED) eqn:E1.
  - simpl. destruct (Nat.eqb_spec (_reference ev) r) as [->|Hne].
    + destruct (ServiceTracker.addingService _ r); simpl; [reflexivity|].
      now rewrite lookup_insert_eq.
    + destruct (ServiceTracker.addingService _ _); simpl; [reflexivity|].
      now rewrite lookup_insert_ne.
  - destruct (_type ev =? ServiceEvent.MODIFIED) eqn:E2.
    + simpl. assert (E3 : (_type ev =? ServiceEvent.UNREGISTERING) = false).
      { apply Z.eqb_eq in E2. rewrite E2. reflexivity. }
      rewrite E3. now destruct (Nat.eqb _ _).
    + destruct (_type ev =? ServiceEvent.UNREGISTERING) eqn:E3; simpl.
      * destruct (Nat.eqb_spec (_reference ev) r) as [->|Hne].
        -- now rewrite lookup_delete_eq.
        -- now rewrite lookup_delete_ne.
      * now destruct (Nat.eqb _ _).
Qed.

Lemma last_word_cons customizer r ev older :
  last_word customizer r (ev :: older)
  = match last_word customizer r [ev] with
    | Some v => Some v
    | None => last_word customizer r older
    end.
Proof.
  simpl. destruct (Nat.eqb _ _); [|reflexivity].
  destruct (_type ev =? ServiceEvent.REGISTERED).
  - now destruct (ServiceTracker.addingService _ _).
  - now destruct (_type ev =? ServiceEvent.UNREGISTERING).
Qed.

(** X13.  What a tracker tracks.  After the tracker's listener was
    handed any sequence of events, the mapping holds for a reference
    what the newest event that settles it says: the object that
    [addingService] answered when that event is a REGISTERED event
    (one whose [addingService] call raised settles nothing), no entry
    when it is an UNREGISTERING event, and the entry the mapping held
    before the events when no event settles it: events of other
    references, MODIFIED events and events of unknown type change no
    entry.  So [getService(reference)] answers the customizer's object
    exactly for the references of which the tracker was last told that
    they were registered. *)
Theorem tracker_tracks_what_is_registered
  (this : ServiceTracker.ServiceTracker_API) (evs : list ServiceEvent_API)
  (r : nat) :
  ServiceTracker._trackedServices (tracker_after this evs) !! r
  = match last_word (ServiceTracker._customizer this) r (rev evs) with
    | Some v => v
    | None => ServiceTracker._trackedServices this !! r
    end
  /\ ServiceTracker.getService (tracker_after this evs) r
     = match last_word (ServiceTracker._customizer this) r (rev evs) with
       | Some (Some service) => service
       | Some None => None
       | None => ServiceTracker.getService this r
       end.
Proof.
  assert (H : ServiceTracker._trackedServices (tracker_after this evs) !! r
              = match last_word (ServiceTracker._customizer this) r (rev evs) with
                | Some v => v
                | None => ServiceTracker._trackedServices this !! r
                end).
  { induction evs as [|ev evs IH] using rev_ind; [reflexivity|].
    rewrite tracker_after_snoc, serviceChanged_trackedServices.
    rewrite tracker_after_customizer, rev_app_distr. simpl rev. simpl app.
    rewrite (last_word_cons _ r ev (rev evs)).
    destruct (last_word _ r [ev]); [reflexivity | exact IH]. }
  split; [exact H|].
  unfold ServiceTracker.getService, ServiceTracker.FastMap_get. rewrite H.
  destruct (last_word _ r (rev evs)) as [[s|]|]; reflexivity.
Qed.

Lemma int32_idem z : ServiceTracker.int32 (ServiceTracker.int32 z + 1)
                     = ServiceTracker.int32 (z + 1).
Proof.
  unfold ServiceTracker.int32.
  replace ((z + 2 ^ 31) mod 2 ^ 32 - 2 ^ 31 + 1 + 2 ^ 31)
    with ((z + 2 ^ 31) mod 2 ^ 32 + 1) by lia.
  rewrite Zplus_mod_idemp_l. f_equal. f_equal. lia.
Qed.

Lemma serviceChanged_trackingCount this ev :
  ServiceTracker._trackingCount (snd (ServiceTracker.serviceChanged this ev))
  = if counted (ServiceTracker._customizer this) ev
    then ServiceTracker.int32 (ServiceTracker._trackingCount this + 1)
    else ServiceTracker._trackingCount this.
Proof.
  unfold ServiceTracker.serviceChanged, counted.
  destruct (_type ev =? ServiceEvent.REGISTERED).
  - simpl. now destruct (ServiceTracker.addingService _ _).
  - destruct (_type ev =? ServiceEvent.MODIFIED); [reflexivity|].
    now destruct (_type ev =? ServiceEvent.UNREGISTERING).
Qed.

Lemma int32_range z : -2 ^ 31 <= z < 2 ^ 31 -> ServiceTracker.int32 z = z.
Proof.
  intros H. unfold ServiceTracker.int32. rewrite Z.mod_small; lia.
Qed.

(** X14.  The tracking count.  After the tracker's listener was handed
    any sequence of events, the tracking count (a 32-bit integer) is the
    count it was, plus the number of events that were REGISTERED with an
    [addingService] call that returned, MODIFIED or UNREGISTERING, taken
    modulo 2^32 into the 32-bit range.  A REGISTERED event whose
    [addingService] call raised and an event of unknown type do not
    count.  Hence fewer than 2^32 counted events always change the
    count, and exactly 2^32 of them bring it back to where it was. *)
Theorem tracking_count_counts_events
  (this : ServiceTracker.ServiceTracker_API) (evs : list ServiceEvent_API) :
  -2 ^ 31 <= ServiceTracker._trackingCount this < 2 ^ 31 ->
  ServiceTracker._trackingCount (tracker_after this evs)
  = ServiceTracker.int32
      (ServiceTracker._trackingCount this
       + Z.of_nat
           (List.length
              (List.filter (counted (ServiceTracker._customizer this)) evs)))
  /\ (0 < Z.of_nat
            (List.length
               (List.filter (counted (ServiceTracker._customizer this)) evs))
        < 2 ^ 32 ->
      ServiceTracker._trackingCount (tracker_after this evs)
      <> ServiceTracker._trackingCount this)
  /\ (Z.of_nat
        (List.length
           (List.filter (counted (ServiceTracker._customizer this)) evs))
      = 2 ^ 32 ->
      ServiceTracker._trackingCount (tracker_after this evs)
      = ServiceTracker._trackingCount this).
Proof.
  intros Hrange.
  assert (H : ServiceTracker._trackingCount (tracker_after this evs)
              = ServiceTracker.int32
                  (ServiceTracker._trackingCount this
                   + Z.of_nat
                       (List.length
                          (List.filter
                             (counted (ServiceTracker._customizer this)) evs)))).
  { induction evs as [|ev evs IH] using rev_ind.
    - simpl. rewrite Z.add_0_r. symmetry. now apply int32_range.
    - rewrite tracker_after_snoc, serviceChanged_trackingCount.
      rewrite tracker_after_customizer, IH.
      rewrite List.filter_app, length_app. simpl.
      destruct (counted _ ev); simpl.
      + rewrite int32_idem. f_equal. lia.
      + f_equal. lia. }
  split; [exact H|]. rewrite H. unfold ServiceTracker.int32.
  set (c := ServiceTracker._trackingCount this) in *.
  set (n := Z.of_nat _). split.
  - intros Hn Heq.
    assert (E : (c + n + 2 ^ 31) mod 2 ^ 32 = c + 2 ^ 31) by lia.
    destruct (Z_lt_le_dec (c + n + 2 ^ 31) (2 ^ 32)) as [Hlt|Hge].
    + rewrite Z.mod_small in E by lia. lia.
    + replace (c + n + 2 ^ 31) with (c + n + 2 ^ 31 - 2 ^ 32 + 1 * 2 ^ 32) in E
        by lia.
      rewrite Z_mod_plus_full in E. rewrite Z.mod_small in E by lia. lia.
  - intros ->. replace (c + 2 ^ 32 + 2 ^ 31) with (c + 2 ^ 31 + 1 * 2 ^ 32) by lia.
    rewrite Z_mod_plus_full. rewrite Z.mod_small by lia. lia.
Qed.

(* ================================================================== *)
(** * The resizable array *)

Section FastTableProofs.
Context {E : Type}.
Variable equals : E -> E -> bool.


Lemma Array_get_in_range (a : list (option E)) (i : nat) (x : option E) :
  a !! i = Some x -> Array.get a (Z.of_nat i) = inr x.
Proof.
  intros H. unfold Array.get, Array.length.
  pose proof (lookup_lt_Some _ _ _ H) as Hlt.
  destruct (Z.ltb_spec (Z.of_nat i) 0); [lia|].
  destruct (Z.geb_spec (Z.of_nat i) (Z.of_nat (List.length a))); [lia|].
  simpl. now rewrite Nat2Z.id, H.
Qed.

Lemma Array_set_in_range (a : list (option E)) (i : nat) (x : option E) :
  (i < List.length a)%nat -> Array.set a (Z.of_nat i) x = inr (<[i := x]> a).
Proof.
  intros Hlt. unfold Array.set, Array.length.
  destruct (Z.ltb_spec (Z.of_nat i) 0); [lia|].
  destruct (Z.geb_spec (Z.of_nat i) (Z.of_nat (List.length a))); [lia|].
  simpl. now rewrite Nat2Z.id.
Qed.

Lemma load_in_range (t : @FastTable_API.FastTable E) (i : nat) (x : option E) :
  FastTable_API.elements t !! i = Some x ->
  FastTable_API.load (Z.of_nat i) t = Done x t.
Proof.
  intros H. unfold FastTable_API.load, and_then, fields, eval.
  now rewrite (Array_get_in_range _ _ _ H).
Qed.

Lemma store_in_range (t : @FastTable_API.FastTable E) (i : nat) (x : option E) :
  (i < List.length (FastTable_API.elements t))%nat ->
  FastTable_API.store (Z.of_nat i) x t
  = Done tt (FastTable_API.mkFastTable (<[i := x]> (FastTable_API.elements t))
               (FastTable_API.count t)).
Proof.
  intros H. unfold FastTable_API.store, and_then, fields, eval.
  now rewrite (Array_set_in_range _ _ _ H).
Qed.

(** A well-formed table is its contents followed by null slots. *)
Lemma well_formed_split (t : @FastTable_API.FastTable E) :
  FastTable_API.well_formed t <->
  exists (l : list (option E)) (k : nat),
    t = FastTable_API.mkFastTable (l ++ replicate k None) (Z.of_nat (List.length l))
    /\ 1 <= Z.of_nat (List.length l + k) < 2 ^ 31.
Proof.
  split.
  - intros (Hc & Hcap & Hnull). destruct t as [el c].
    unfold FastTable_API.capacity, Array.length in *. simpl in *.
    exists (take (Z.to_nat c) el), (List.length el - Z.to_nat c)%nat.
    rewrite length_take. split.
    + f_equal; [|lia].
      rewrite <- (take_drop (Z.to_nat c) el) at 1. f_equal.
      apply list_eq. intros i. rewrite lookup_drop.
      destruct (decide (i < List.length el - Z.to_nat c)%nat) as [Hi|Hi].
      * rewrite lookup_replicate_2 by exact Hi. apply Hnull. lia.
      * rewrite lookup_ge_None_2 by lia.
        symmetry. apply lookup_ge_None_2. rewrite length_replicate. lia.
    + lia.
  - intros (l & k & -> & Hcap).
    unfold FastTable_API.well_formed, FastTable_API.capacity, Array.length.
    simpl. rewrite length_app, length_replicate. repeat split; try lia.
    intros i Hi. rewrite Nat2Z.id in Hi. rewrite lookup_app_r by lia.
    apply lookup_replicate_2. lia.
Qed.

Lemma contents_split (l : list (option E)) (k : nat) :
  FastTable_API.contents
    (FastTable_API.mkFastTable (l ++ replicate k None) (Z.of_nat (List.length l))) = l.
Proof.
  unfold FastTable_API.contents. simpl. rewrite Nat2Z.id.
  now rewrite take_app_length.
Qed.

Lemma well_formed_contents (t : @FastTable_API.FastTable E) :
  FastTable_API.well_formed t ->
  exists k,
    t = FastTable_API.mkFastTable (FastTable_API.contents t ++ replicate k None)
          (Z.of_nat (List.length (FastTable_API.contents t)))
    /\ 1 <= Z.of_nat (List.length (FastTable_API.contents t) + k) < 2 ^ 31.
Proof.
  intros H. apply well_formed_split in H as (l & k & -> & Hcap).
  exists k. now rewrite contents_split.
Qed.

(** The copy loop of [arraycopy]. *)
Lemma arraycopy_from_eq (src : list (option E)) :
  forall (n i : nat) (dest : list (option E)),
    (i + n <= List.length src)%nat ->
    (i + n <= List.length dest)%nat ->
    System.arraycopy_from src 0 dest 0 (Z.of_nat i) n
    = inr (take i dest ++ take n (drop i src) ++ drop (i + n) dest)%list.
Proof.
  induction n as [|n IH]; intros i dest Hs Hd; simpl.
  - rewrite Nat.add_0_r. now rewrite take_drop.
  - destruct (lookup_lt_is_Some_2 src i) as [x Hx]; [lia|].
    rewrite Z.add_0_r, (Array_get_in_range _ _ _ Hx).
    rewrite Array_set_in_range by lia.
    replace (Z.of_nat i + 1) with (Z.of_nat (S i)) by lia.
    rewrite IH by (rewrite ?length_insert; lia). f_equal.
    rewrite (drop_S _ _ _ Hx). simpl.
    rewrite (take_S_r (<[i := x]> dest) i x)
      by (rewrite list_lookup_insert_eq by lia; reflexivity).
    rewrite take_insert_ge by lia. rewrite drop_insert_lt by lia.
    replace (S (i + n)) with (i + S n)%nat by lia.
    now rewrite <- app_assoc.
Qed.

Lemma arraycopy_all (src : list (option E)) (k : nat) :
  System.arraycopy src 0 (replicate (List.length src + k) None) 0
    (Array.length src)
  = inr (src ++ replicate k None)%list.
Proof.
  unfold System.arraycopy, Array.length. rewrite length_replicate.
  destruct (Z.gtb_spec (0 + Z.of_nat (List.length src))
              (Z.of_nat (List.length src))); [lia|].
  destruct (Z.gtb_spec (0 + Z.of_nat (List.length src))
              (Z.of_nat (List.length src + k))); [lia|].
  simpl orb. cbv iota. rewrite Nat2Z.id.
  rewrite (arraycopy_from_eq src (List.length src) 0)
    by (rewrite ?length_replicate; lia).
  simpl. rewrite drop_0, firstn_all. rewrite drop_replicate. f_equal. f_equal.
  f_equal. lia.
Qed.

(** [resize()] on a full table. *)
Lemma resize_full (l : list (option E)) :
  1 <= Z.of_nat (List.length l) < 2 ^ 30 ->
  FastTable_API.resize
    (FastTable_API.mkFastTable l (Z.of_nat (List.length l)))
  = Done tt
      (FastTable_API.mkFastTable (l ++ replicate (List.length l) None)
         (Z.of_nat (List.length l))).
Proof.
  intros Hl. unfold FastTable_API.resize, and_then, fields. simpl.
  unfold Array.new, int32, ServiceTracker.int32, Array.length.
  replace ((Z.of_nat (List.length l) * 2 + 2 ^ 31) mod 2 ^ 32 - 2 ^ 31)
    with (Z.of_nat (List.length l + List.length l))
    by (rewrite Z.mod_small; lia).
  rewrite Nat2Z.id.
  pose proof (arraycopy_all l (List.length l)) as H.
  unfold Array.length in H. rewrite H. reflexivity.
Qed.

(** [elements[count++] = element] when a slot is free. *)
Lemma add_free (l : list (option E)) (k : nat) (element : option E) :
  FastTable_API.add element
    (FastTable_API.mkFastTable (l ++ replicate (S k) None)
       (Z.of_nat (List.length l)))
  = Done true
      (FastTable_API.mkFastTable ((l ++ [element]) ++ replicate k None)
         (Z.of_nat (List.length (l ++ [element])))).
Proof.
  cbv [FastTable_API.add and_then fields done assign FastTable_API.set_count
       FastTable_API.count FastTable_API.elements].
  unfold Array.length. rewrite length_app, length_replicate.
  destruct (Z.geb_spec (Z.of_nat (List.length l))
              (Z.of_nat (List.length l + S k))); [lia|].
  pose proof (store_in_range
                (FastTable_API.mkFastTable (l ++ replicate (S k) None)
                   (Z.of_nat (List.length l) + 1))
                (List.length l) element) as Hs.
  cbn [FastTable_API.count FastTable_API.elements] in Hs.
  rewrite Hs by (rewrite length_app, length_replicate; lia).
  f_equal. f_equal.
  - rewrite insert_app_r_alt by lia. rewrite Nat.sub_diag. simpl.
    now rewrite <- app_assoc.
  - rewrite length_app. simpl. lia.
Qed.
End FastTableProofs.

Ltac insert_head :=
  match goal with
  | |- context [<[0%nat := ?v]> (?h :: ?t)] =>
      change (<[0%nat := v]> (h :: t)) with (v :: t)
  end.

Section FastTableMethods.
Context {E : Type}.
Variable equals : E -> E -> bool.

Lemma get_eq (l : list (option E)) (k : nat) (index : Z) :
  FastTable_API.get index
    (FastTable_API.mkFastTable (l ++ replicate k None) (Z.of_nat (List.length l)))
  = match FastTable.get l index with
    | inl e =>
        Raised (Throws e)
          (FastTable_API.mkFastTable (l ++ replicate k None)
             (Z.of_nat (List.length l)))
    | inr x =>
        Done x
          (FastTable_API.mkFastTable (l ++ replicate k None)
             (Z.of_nat (List.length l)))
    end.
Proof.
  cbv [FastTable_API.get and_then fields done FastTable_API.count
       FastTable_API.throwIndexOutOfBoundsException raise FastTable_API.size].
  unfold FastTable.get, FastTable.size.
  destruct (Z.geb_spec index (Z.of_nat (List.length l))) as [Hge|Hlt];
    [reflexivity|].
  destruct (Z.ltb_spec index 0) as [Hneg|Hpos].
  - cbv [FastTable_API.load and_then fields eval FastTable_API.elements raise].
    unfold Array.get. destruct (Z.ltb_spec index 0); [|lia]. reflexivity.
  - destruct (lookup_lt_is_Some_2 l (Z.to_nat index)) as [x Hx]; [lia|].
    rewrite Hx. rewrite <- (Z2Nat.id index) at 1 by lia.
    apply load_in_range. simpl. now apply lookup_app_l_Some.
Qed.

Lemma set_eq (l : list (option E)) (k : nat) (index : Z) (element : option E) :
  FastTable_API.set index element
    (FastTable_API.mkFastTable (l ++ replicate k None) (Z.of_nat (List.length l)))
  = match FastTable.get l index with
    | inl e =>
        Raised (Throws e)
          (FastTable_API.mkFastTable (l ++ replicate k None)
             (Z.of_nat (List.length l)))
    | inr previous =>
        Done previous
          (FastTable_API.mkFastTable
             (<[Z.to_nat index := element]> l ++ replicate k None)
             (Z.of_nat (List.length (<[Z.to_nat index := element]> l))))
    end.
Proof.
  cbv [FastTable_API.set and_then fields done FastTable_API.count
       FastTable_API.throwIndexOutOfBoundsException raise FastTable_API.size].
  unfold FastTable.get, FastTable.size.
  destruct (Z.geb_spec index (Z.of_nat (List.length l))) as [Hge|Hlt];
    [reflexivity|].
  destruct (Z.ltb_spec index 0) as [Hneg|Hpos].
  - cbv [FastTable_API.load and_then fields eval FastTable_API.elements raise].
    unfold Array.get. destruct (Z.ltb_spec index 0); [|lia]. reflexivity.
  - destruct (lookup_lt_is_Some_2 l (Z.to_nat index)) as [x Hx]; [lia|].
    rewrite Hx. remember (Z.to_nat index) as i eqn:Ei.
    assert (Hi : index = Z.of_nat i) by lia. rewrite Hi.
    rewrite (load_in_range _ _ x) by (simpl; now apply lookup_app_l_Some).
    rewrite store_in_range by (simpl; rewrite length_app; lia).
    simpl. rewrite length_insert. f_equal. f_equal.
    apply insert_app_l. lia.
Qed.

Lemma last_nonempty {A : Type} (l : list A) (z x y : A) :
  List.last (z :: l) x = List.last (z :: l) y.
Proof.
  revert z. induction l as [|a l IH]; intros z; [reflexivity|].
  change (List.last (a :: l) x = List.last (a :: l) y). apply IH.
Qed.

(** The loop of [shiftLeft(index + 1, 1)]. *)
Lemma shiftLeft_from_eq (c : Z) (rest : list (option E)) :
  forall (l2 l1 : list (option E)) (x : option E),
    FastTable_API.shiftLeft_from (Z.of_nat (List.length l1) + 1) 1
      (List.length l2)
      (FastTable_API.mkFastTable (l1 ++ x :: l2 ++ rest) c)
    = Done tt
        (FastTable_API.mkFastTable (l1 ++ l2 ++ List.last l2 x :: rest) c).
Proof.
  induction l2 as [|y l2 IH]; intros l1 x; [reflexivity|].
  cbn [List.length FastTable_API.shiftLeft_from]. unfold and_then at 1.
  replace (Z.of_nat (List.length l1) + 1) with (Z.of_nat (S (List.length l1)))
    by lia.
  rewrite (load_in_range _ _ y).
  2:{ simpl. rewrite lookup_app_r by lia.
      replace (S (List.length l1) - List.length l1)%nat with 1%nat by lia.
      reflexivity. }
  unfold and_then at 1.
  replace (Z.of_nat (S (List.length l1)) - 1) with (Z.of_nat (List.length l1))
    by lia.
  rewrite store_in_range by (simpl; rewrite length_app; simpl; lia).
  cbn [FastTable_API.elements FastTable_API.count].
  rewrite insert_app_r_alt by lia. rewrite Nat.sub_diag. insert_head.
  replace (Z.of_nat (S (List.length l1)) + 1)
    with (Z.of_nat (List.length (l1 ++ [y])) + 1)
    by (rewrite length_app; simpl; lia).
  replace (l1 ++ y :: (y :: l2) ++ rest)%list
    with ((l1 ++ [y]) ++ y :: l2 ++ rest)%list
    by (now rewrite <- app_assoc).
  rewrite IH. f_equal. f_equal. rewrite <- app_assoc. simpl.
  f_equal. f_equal. f_equal. f_equal.
  destruct l2 as [|z l2]; [reflexivity | apply last_nonempty].
Qed.

Lemma remove_eq (l1 : list (option E)) (x : option E) (l2 : list (option E))
  (k : nat) :
  FastTable_API.remove (Z.of_nat (List.length l1))
    (FastTable_API.mkFastTable ((l1 ++ x :: l2) ++ replicate k None)
       (Z.of_nat (List.length (l1 ++ x :: l2))))
  = Done x
      (FastTable_API.mkFastTable ((l1 ++ l2) ++ replicate (S k) None)
         (Z.of_nat (List.length (l1 ++ l2)))).
Proof.
  unfold FastTable_API.remove. unfold and_then at 1. rewrite get_eq.
  rewrite (FastTable_get_lookup _ _ x)
    by (rewrite lookup_app_r by lia; now rewrite Nat.sub_diag).
  unfold and_then at 1. unfold FastTable_API.shiftLeft.
  unfold and_then at 1, fields at 1. cbn [FastTable_API.count].
  replace (Z.to_nat (Z.of_nat (List.length (l1 ++ x :: l2))
                     - (Z.of_nat (List.length l1) + 1)))
    with (List.length l2) by (rewrite length_app; simpl; lia).
  rewrite <- !app_assoc. simpl.
  rewrite (shiftLeft_from_eq _ (replicate k None) l2 l1 x).
  cbv [and_then fields FastTable_API.set_count assign done
       FastTable_API.count FastTable_API.elements].
  replace (Z.of_nat (List.length (l1 ++ x :: l2)) - 1)
    with (Z.of_nat (List.length (l1 ++ l2)))
    by (rewrite !length_app; simpl; lia).
  pose proof (store_in_range
                (FastTable_API.mkFastTable
                   (l1 ++ l2 ++ List.last l2 x :: replicate k None)
                   (Z.of_nat (List.length (l1 ++ l2))))
                (List.length (l1 ++ l2)) None) as Hs.
  cbn [FastTable_API.count FastTable_API.elements] in Hs.
  rewrite Hs by (rewrite !length_app; simpl; lia).
  f_equal. f_equal. rewrite app_assoc.
  rewrite insert_app_r_alt by lia. rewrite Nat.sub_diag. insert_head.
  now rewrite <- app_assoc.
Qed.

(** The loop of [clear()]. *)
Lemma clear_from_eq (c : Z) (rest : list (option E)) :
  forall (l pre : list (option E)),
    FastTable_API.clear_from (Z.of_nat (List.length pre)) (List.length l)
      (FastTable_API.mkFastTable (pre ++ l ++ rest) c)
    = Done tt
        (FastTable_API.mkFastTable
           (pre ++ replicate (List.length l) None ++ rest) c).
Proof.
  induction l as [|y l IH]; intros pre; [reflexivity|].
  cbn [List.length FastTable_API.clear_from]. unfold and_then at 1.
  change ((y :: l) ++ rest)%list with (y :: l ++ rest)%list.
  rewrite store_in_range by (simpl; rewrite length_app; simpl; lia).
  cbn [FastTable_API.elements FastTable_API.count].
  rewrite insert_app_r_alt by lia. rewrite Nat.sub_diag. insert_head.
  replace (Z.of_nat (List.length pre) + 1)
    with (Z.of_nat (List.length (pre ++ [None])))
    by (rewrite length_app; simpl; lia).
  replace (pre ++ None :: l ++ rest)%list with ((pre ++ [None]) ++ l ++ rest)%list
    by (now rewrite <- app_assoc).
  rewrite IH. f_equal. f_equal. now rewrite <- app_assoc.
Qed.

Lemma clear_eq (l : list (option E)) (k : nat) :
  FastTable_API.clear
    (FastTable_API.mkFastTable (l ++ replicate k None) (Z.of_nat (List.length l)))
  = Done tt
      (FastTable_API.mkFastTable (replicate (List.length l + k) None) 0).
Proof.
  unfold FastTable_API.clear. unfold and_then at 1, fields at 1.
  cbn [FastTable_API.count]. rewrite Nat2Z.id. unfold and_then at 1.
  rewrite (clear_from_eq _ (replicate k None) l []).
  cbv [FastTable_API.set_count and_then fields assign FastTable_API.elements].
  simpl. now rewrite replicate_add.
Qed.

(** The loop of [indexOf(o)]. *)
Lemma indexOf_from_eq (c : Z) (rest : list (option E)) (o : option E) :
  forall (l pre : list (option E)),
    FastTable_API.indexOf_from equals o (Z.of_nat (List.length pre))
      (List.length l)
      (FastTable_API.mkFastTable (pre ++ l ++ rest) c)
    = Done
        (FastTable.indexOf_from (FastTable_API.same_element equals)
           (Z.of_nat (List.length pre)) l o)
        (FastTable_API.mkFastTable (pre ++ l ++ rest) c).
Proof.
  induction l as [|y l IH]; intros pre; [reflexivity|].
  cbn [List.length FastTable_API.indexOf_from FastTable.indexOf_from].
  unfold and_then at 1.
  rewrite (load_in_range _ _ y)
    by (simpl; rewrite lookup_app_r by lia; now rewrite Nat.sub_diag).
  destruct (FastTable_API.same_element equals o y); [reflexivity|].
  replace (Z.of_nat (List.length pre) + 1)
    with (Z.of_nat (List.length (pre ++ [y])))
    by (rewrite length_app; simpl; lia).
  replace (pre ++ (y :: l) ++ rest)%list with ((pre ++ [y]) ++ l ++ rest)%list
    by (now rewrite <- app_assoc).
  apply IH.
Qed.

Lemma indexOf_eq (l : list (option E)) (k : nat) (o : option E) :
  FastTable_API.indexOf equals o
    (FastTable_API.mkFastTable (l ++ replicate k None) (Z.of_nat (List.length l)))
  = Done (FastTable.indexOf (FastTable_API.same_element equals) l o)
      (FastTable_API.mkFastTable (l ++ replicate k None)
         (Z.of_nat (List.length l))).
Proof.
  unfold FastTable_API.indexOf. unfold and_then at 1, fields at 1.
  cbn [FastTable_API.count]. rewrite Nat2Z.id.
  exact (indexOf_from_eq _ (replicate k None) o l []).
Qed.
End FastTableMethods.

Section FastTableIteration.
Context {E : Type}.
Variable equals : E -> E -> bool.

(** [i->next()] when the iterator has a next element. *)
Lemma next_eq (l : list (option E)) (pad : list (option E)) (c0 : Z)
  (cur : Z) (j : nat) (x : option E) :
  l !! j = Some x ->
  FastTable_API.next
    (FastTable_API.mkFastTable (l ++ pad) c0,
     FastTable_API.mkIterator cur 0 (Z.of_nat (List.length l)) (Z.of_nat j))
  = Done x
      (FastTable_API.mkFastTable (l ++ pad) c0,
       FastTable_API.mkIterator (Z.of_nat j) 0 (Z.of_nat (List.length l))
         (Z.of_nat j + 1)).
Proof.
  intros Hx. pose proof (lookup_lt_Some _ _ _ Hx) as Hlt.
  cbv [FastTable_API.next and_then FastTable_API.iterator_fields fields done
       FastTable_API.nIndex FastTable_API.end_ FastTable_API.start snd fst
       FastTable_API.iterator_assign assign FastTable_API.on_list raise].
  destruct (Z.eqb_spec (Z.of_nat j) (Z.of_nat (List.length l))); [lia|].
  rewrite (load_in_range _ _ x) by (simpl; now apply lookup_app_l_Some).
  reflexivity.
Qed.

Lemma hasNext_eq (cur : Z) (n j : nat) :
  FastTable_API.hasNext (FastTable_API.mkIterator cur 0 (Z.of_nat n) (Z.of_nat j))
  = negb (Nat.eqb j n).
Proof.
  unfold FastTable_API.hasNext. simpl. f_equal.
  destruct (Z.eqb_spec (Z.of_nat j) (Z.of_nat n)), (Nat.eqb_spec j n);
    try reflexivity; lia.
Qed.

(** The loop of [AbstractCollection_API::remove(element)]. *)
Lemma remove_loop_eq (element : option E) (k : nat) :
  forall (rest pre l : list (option E)) (cur : Z),
    l = (pre ++ rest)%list ->
    exists i',
      FastTable_API.remove_loop equals element (List.length rest)
        (FastTable_API.mkFastTable (l ++ replicate k None)
           (Z.of_nat (List.length l)),
         FastTable_API.mkIterator cur 0 (Z.of_nat (List.length l))
           (Z.of_nat (List.length pre)))
      = match FastTable.removeElement (FastTable_API.same_element equals)
                rest element with
        | (true, rest') =>
            Done true
              (FastTable_API.mkFastTable
                 ((pre ++ rest') ++ replicate (S k) None)
                 (Z.of_nat (List.length (pre ++ rest'))), i')
        | (false, _) =>
            Done false
              (FastTable_API.mkFastTable (l ++ replicate k None)
                 (Z.of_nat (List.length l)), i')
        end.
Proof.
  induction rest as [|y rest IH]; intros pre l cur Hl.
  - eexists. cbn [List.length FastTable_API.remove_loop FastTable.removeElement].
    unfold and_then at 1.
    cbv [FastTable_API.iterator_fields and_then fields done snd].
    rewrite hasNext_eq. rewrite Hl, app_nil_r, Nat.eqb_refl. reflexivity.
  - assert (Hy : l !! List.length pre = Some y).
    { rewrite Hl, lookup_app_r by lia. now rewrite Nat.sub_diag. }
    assert (Hlen : List.length pre <> List.length l).
    { rewrite Hl, length_app. simpl. lia. }
    cbn [List.length FastTable_API.remove_loop FastTable.removeElement].
    destruct (FastTable_API.same_element equals element y) eqn:Esame.
    + eexists. unfold and_then at 1.
      cbv [FastTable_API.iterator_fields and_then fields done snd].
      rewrite hasNext_eq. apply Nat.eqb_neq in Hlen. rewrite Hlen. cbn [negb].
      rewrite (next_eq l _ _ _ _ y Hy). rewrite Esame.
      cbv [FastTable_API.iterator_remove and_then FastTable_API.iterator_fields
           fields done snd fst FastTable_API.currentIndex FastTable_API.on_list
           FastTable_API.iterator_assign assign FastTable_API.nIndex
           FastTable_API.start FastTable_API.end_].
      destruct (Z.ltb_spec (Z.of_nat (List.length pre)) 0); [lia|].
      rewrite Hl. rewrite (remove_eq pre y rest k). reflexivity.
    + destruct (IH (pre ++ [y])%list l (Z.of_nat (List.length pre)))
        as [i' Hi'].
      { rewrite Hl. now rewrite <- app_assoc. }
      exists i'. unfold and_then at 1.
      cbv [FastTable_API.iterator_fields and_then fields done snd].
      rewrite hasNext_eq. apply Nat.eqb_neq in Hlen. rewrite Hlen. cbn [negb].
      rewrite (next_eq l _ _ _ _ y Hy). rewrite Esame.
      replace (Z.of_nat (List.length pre) + 1)
        with (Z.of_nat (List.length (pre ++ [y])))
        by (rewrite length_app; simpl; lia).
      rewrite Hi'.
      destruct (FastTable.removeElement _ rest element) as [[] rest'];
        [|reflexivity].
      now rewrite <- !app_assoc.
Qed.

Lemma removeElement_eq (element : option E) (l : list (option E)) (k : nat) :
  FastTable_API.removeElement equals element
    (FastTable_API.mkFastTable (l ++ replicate k None) (Z.of_nat (List.length l)))
  = match FastTable.removeElement (FastTable_API.same_element equals) l element with
    | (true, l') =>
        Done true
          (FastTable_API.mkFastTable (l' ++ replicate (S k) None)
             (Z.of_nat (List.length l')))
    | (false, _) =>
        Done false
          (FastTable_API.mkFastTable (l ++ replicate k None)
             (Z.of_nat (List.length l)))
    end.
Proof.
  unfold FastTable_API.removeElement. unfold and_then at 1, fields at 1.
  cbn [FastTable_API.count]. rewrite Nat2Z.id.
  unfold FastTable_API.with_iterator, FastTable_API.iterator,
    FastTable_API.listIterator. cbn [FastTable_API.count].
  destruct (remove_loop_eq element k l [] l (-1) eq_refl) as [i' Hi'].
  change (Z.of_nat (List.length (@nil (option E)))) with 0 in Hi'.
  rewrite Hi'.
  now destruct (FastTable.removeElement _ l element) as [[] l'].
Qed.

(** The loop of [contains(value)]. *)
Lemma contains_loop_eq (value : option E) (pad : list (option E)) (c0 : Z) :
  forall (rest pre l : list (option E)) (cur : Z),
    l = (pre ++ rest)%list ->
    exists i',
      FastTable_API.contains_loop equals value (List.length rest)
        (FastTable_API.mkFastTable (l ++ pad) c0,
         FastTable_API.mkIterator cur 0 (Z.of_nat (List.length l))
           (Z.of_nat (List.length pre)))
      = Done (existsb (FastTable_API.same_element equals value) rest)
          (FastTable_API.mkFastTable (l ++ pad) c0, i').
Proof.
  induction rest as [|y rest IH]; intros pre l cur Hl.
  - eexists. cbn [List.length FastTable_API.contains_loop existsb].
    unfold and_then at 1.
    cbv [FastTable_API.iterator_fields and_then fields done snd].
    rewrite hasNext_eq. rewrite Hl, app_nil_r, Nat.eqb_refl. reflexivity.
  - assert (Hy : l !! List.length pre = Some y).
    { rewrite Hl, lookup_app_r by lia. now rewrite Nat.sub_diag. }
    assert (Hlen : List.length pre <> List.length l).
    { rewrite Hl, length_app. simpl. lia. }
    cbn [List.length FastTable_API.contains_loop existsb].
    destruct (IH (pre ++ [y])%list l (Z.of_nat (List.length pre)))
      as [i' Hi'].
    { rewrite Hl. now rewrite <- app_assoc. }
    destruct (FastTable_API.same_element equals value y) eqn:Esame.
    + eexists. unfold and_then at 1.
      cbv [FastTable_API.iterator_fields and_then fields done snd].
      rewrite hasNext_eq. apply Nat.eqb_neq in Hlen. rewrite Hlen. cbn [negb].
      rewrite (next_eq l _ _ _ _ y Hy). rewrite Esame. reflexivity.
    + exists i'. unfold and_then at 1.
      cbv [FastTable_API.iterator_fields and_then fields done snd].
      rewrite hasNext_eq. apply Nat.eqb_neq in Hlen. rewrite Hlen. cbn [negb].
      rewrite (next_eq l _ _ _ _ y Hy). rewrite Esame.
      replace (Z.of_nat (List.length pre) + 1)
        with (Z.of_nat (List.length (pre ++ [y])))
        by (rewrite length_app; simpl; lia).
      exact Hi'.
Qed.

(** The loop of [toArray(result)]. *)
Lemma toArray_loop_eq (pad : list (option E)) (c0 : Z) :
  forall (rest pre l result : list (option E)) (cur : Z),
    l = (pre ++ rest)%list ->
    List.length result = List.length l ->
    exists i',
      FastTable_API.toArray_loop result (Z.of_nat (List.length pre))
        (List.length rest)
        (FastTable_API.mkFastTable (l ++ pad) c0,
         FastTable_API.mkIterator cur 0 (Z.of_nat (List.length l))
           (Z.of_nat (List.length pre)))
      = Done (take (List.length pre) result ++ rest)%list
          (FastTable_API.mkFastTable (l ++ pad) c0, i').
Proof.
  induction rest as [|y rest IH]; intros pre l result cur Hl Hr.
  - eexists. cbn [List.length FastTable_API.toArray_loop].
    unfold and_then at 1.
    cbv [FastTable_API.iterator_fields and_then fields done snd].
    rewrite hasNext_eq. rewrite Hl, app_nil_r, Nat.eqb_refl. cbn [negb].
    rewrite app_nil_r. rewrite take_ge; [reflexivity|].
    rewrite Hr, Hl, app_nil_r. lia.
  - assert (Hy : l !! List.length pre = Some y).
    { rewrite Hl, lookup_app_r by lia. now rewrite Nat.sub_diag. }
    assert (Hlen : List.length pre <> List.length l).
    { rewrite Hl, length_app. simpl. lia. }
    assert (Hlt : (List.length pre < List.length result)%nat).
    { rewrite Hr, Hl, length_app. simpl. lia. }
    cbn [List.length FastTable_API.toArray_loop].
    destruct (IH (pre ++ [y])%list l (<[List.length pre := y]> result)
                (Z.of_nat (List.length pre))) as [i' Hi'].
    { rewrite Hl. now rewrite <- app_assoc. }
    { now rewrite length_insert. }
    exists i'. unfold and_then at 1.
    cbv [FastTable_API.iterator_fields and_then fields done snd].
    rewrite hasNext_eq. apply Nat.eqb_neq in Hlen. rewrite Hlen. cbn [negb].
    rewrite (next_eq l _ _ _ _ y Hy).
    rewrite (Array_set_in_range _ _ _ Hlt). cbv [eval done].
    replace (Z.of_nat (List.length pre) + 1)
      with (Z.of_nat (List.length (pre ++ [y])))
      by (rewrite length_app; simpl; lia).
    rewrite Hi'. f_equal.
    rewrite length_app. simpl. rewrite Nat.add_1_r.
    rewrite (take_S_r _ _ y) by (now rewrite list_lookup_insert_eq by lia).
    rewrite take_insert_ge by lia. now rewrite <- app_assoc.
Qed.
End FastTableIteration.

(** The first occurrence, on lists. *)
Lemma indexOf_cases {A : Type} (same : A -> A -> bool) (o : A) (l : list A) :
  (Forall (fun x => same o x = false) l /\ FastTable.indexOf same l o = -1)
  \/ exists pre x post,
       l = (pre ++ x :: post)%list
       /\ Forall (fun y => same o y = false) pre
       /\ same o x = true
       /\ FastTable.indexOf same l o = Z.of_nat (List.length pre).
Proof.
  unfold FastTable.indexOf.
  assert (H : forall i,
             (Forall (fun x => same o x = false) l
              /\ FastTable.indexOf_from same i l o = -1)
             \/ exists pre x post,
                  l = (pre ++ x :: post)%list
                  /\ Forall (fun y => same o y = false) pre
                  /\ same o x = true
                  /\ FastTable.indexOf_from same i l o
                     = i + Z.of_nat (List.length pre)).
  { induction l as [|y l IH]; intros i.
    - left. split; [constructor | reflexivity].
    - simpl. destruct (same o y) eqn:Ey.
      + right. exists [], y, l. simpl. repeat split; auto. lia.
      + destruct (IH (i + 1)) as [[Hn Hi]|(pre & x & post & -> & Hpre & Hx & Hi)].
        * left. split; [constructor; auto | exact Hi].
        * right. exists (y :: pre), x, post. simpl. repeat split; auto.
          rewrite Hi. lia. }
  destruct (H 0) as [Hl|(pre & x & post & H1 & H2 & H3 & H4)].
  - left. exact Hl.
  - right. exists pre, x, post. repeat split; auto.
Qed.

Section FastTableTheorems.
Context {E : Type}.
Variable equals : E -> E -> bool.

Lemma well_formed_canonical (l : list (option E)) (k : nat) :
  1 <= Z.of_nat (List.length l + k) < 2 ^ 31 ->
  FastTable_API.well_formed
    (FastTable_API.mkFastTable (l ++ replicate k None) (Z.of_nat (List.length l)))
  /\ FastTable_API.capacity
       (FastTable_API.mkFastTable (l ++ replicate k None)
          (Z.of_nat (List.length l)))
     = Z.of_nat (List.length l + k).
Proof.
  intros H. split.
  - apply well_formed_split. exists l, k. auto.
  - unfold FastTable_API.capacity, Array.length. simpl.
    now rewrite length_app, length_replicate.
Qed.

(** [add] on a full table: the array is doubled, then the slot taken. *)
Lemma add_full (l : list (option E)) (element : option E) :
  1 <= Z.of_nat (List.length l) < 2 ^ 30 ->
  FastTable_API.add element
    (FastTable_API.mkFastTable l (Z.of_nat (List.length l)))
  = Done true
      (FastTable_API.mkFastTable
         ((l ++ [element]) ++ replicate (List.length l - 1) None)
         (Z.of_nat (List.length (l ++ [element])))).
Proof.
  intros Hl.
  cbv [FastTable_API.add and_then fields done assign FastTable_API.set_count
       FastTable_API.count FastTable_API.elements].
  unfold Array.length.
  destruct (Z.geb_spec (Z.of_nat (List.length l)) (Z.of_nat (List.length l)));
    [|lia].
  rewrite resize_full by exact Hl.
  pose proof (store_in_range
                (FastTable_API.mkFastTable (l ++ replicate (List.length l) None)
                   (Z.of_nat (List.length l) + 1))
                (List.length l) element) as Hs.
  cbn [FastTable_API.count FastTable_API.elements] in Hs.
  rewrite Hs by (rewrite length_app, length_replicate; lia).
  f_equal. f_equal.
  - rewrite insert_app_r_alt by lia. rewrite Nat.sub_diag.
    destruct (List.length l) as [|n] eqn:En; [simpl in Hl; lia|].
    simpl. rewrite Nat.sub_0_r. now rewrite <- app_assoc.
  - rewrite length_app. simpl. lia.
Qed.

(** X15.  [add(element)] appends.  On a well-formed table (the size
    within the capacity, null handles past the size) of fewer than 2^30
    elements, [add] returns true and leaves a well-formed table whose
    elements are the former ones followed by [element] (which may be
    null); the capacity is unchanged when a slot was free and doubled
    when the table was full. *)
Theorem FastTable_add_appends (t : @FastTable_API.FastTable E)
  (element : option E) :
  FastTable_API.well_formed t ->
  FastTable_API.count t < 2 ^ 30 ->
  exists t',
    FastTable_API.add element t = Done true t'
    /\ FastTable_API.well_formed t'
    /\ FastTable_API.contents t' = FastTable.add (FastTable_API.contents t) element
    /\ FastTable_API.size t' = FastTable_API.size t + 1
    /\ FastTable_API.capacity t'
       = if FastTable_API.count t =? FastTable_API.capacity t
         then 2 * FastTable_API.capacity t
         else FastTable_API.capacity t.
Proof.
  intros Hwf Hsmall. apply well_formed_split in Hwf as (l & k & -> & Hcap).
  rewrite contents_split. cbn [FastTable_API.count] in *.
  unfold FastTable_API.size. cbn [FastTable_API.count].
  destruct (well_formed_canonical l k Hcap) as [_ Hc]. rewrite Hc.
  destruct k as [|k].
  - (* full: the array is doubled first *)
    rewrite Nat.add_0_r in *. rewrite Z.eqb_refl.
    simpl replicate. rewrite app_nil_r.
    rewrite add_full by lia.
    destruct (well_formed_canonical (l ++ [element]) (List.length l - 1))
      as [Hwf' Hc'].
    { rewrite length_app. simpl. lia. }
    eexists. split; [reflexivity|]. split; [exact Hwf'|].
    rewrite contents_split. split; [reflexivity|]. split.
    + rewrite length_app. simpl. lia.
    + rewrite Hc', length_app. simpl. lia.
  - rewrite add_free.
    destruct (well_formed_canonical (l ++ [element]) k) as [Hwf' Hc'].
    { rewrite length_app. simpl. lia. }
    eexists. split; [reflexivity|]. split; [exact Hwf'|].
    rewrite contents_split. split; [reflexivity|]. split.
    + rewrite length_app. simpl. lia.
    + rewrite Hc', length_app. simpl.
      destruct (Z.eqb_spec (Z.of_nat (List.length l))
                  (Z.of_nat (List.length l + S k))); lia.
Qed.

(** X16.  [get(index)] and [set(index, element)].  On a well-formed
    table, an index from 0 to the size excluded reads, respectively
    replaces, the element at that position: [set] returns the element it
    replaces and changes no other element, nor the size, nor the
    capacity.  An index at or past the size raises an
    IndexOutOfBoundsException that tells the index and the size; a
    negative index passes the table's own test and raises the array's
    ArrayIndexOutOfBoundsException.  A call that raises leaves the table
    as it was. *)
Theorem FastTable_get_and_set (t : @FastTable_API.FastTable E) (index : Z)
  (element : option E) :
  FastTable_API.well_formed t ->
  FastTable_API.get index t
  = match FastTable.get (FastTable_API.contents t) index with
    | inl e => Raised (Throws e) t
    | inr x => Done x t
    end
  /\ match FastTable.get (FastTable_API.contents t) index with
     | inl e => FastTable_API.set index element t = Raised (Throws e) t
     | inr previous =>
         exists t',
           FastTable_API.set index element t = Done previous t'
           /\ FastTable_API.well_formed t'
           /\ FastTable_API.contents t'
              = <[Z.to_nat index := element]> (FastTable_API.contents t)
           /\ FastTable_API.capacity t' = FastTable_API.capacity t
     end
  /\ (0 <= index < FastTable_API.size t ->
      exists x,
        FastTable_API.contents t !! Z.to_nat index = Some x
        /\ FastTable.get (FastTable_API.contents t) index = inr x)
  /\ (FastTable_API.size t <= index ->
      FastTable.get (FastTable_API.contents t) index
      = inl (IndexOutOfBoundsException_newInstance
               (IndexListSize index (FastTable_API.size t))))
  /\ (index < 0 ->
      FastTable.get (FastTable_API.contents t) index
      = inl (mkThrowable ArrayIndexOutOfBoundsException_class (ArrayIndex index))).
Proof.
  intros Hwf. apply well_formed_split in Hwf as (l & k & -> & Hcap).
  rewrite contents_split. unfold FastTable_API.size. cbn [FastTable_API.count].
  split; [apply get_eq|]. split; [|split; [|split]].
  - rewrite set_eq. destruct (FastTable.get l index) as [e|previous];
      [reflexivity|].
    destruct (well_formed_canonical (<[Z.to_nat index := element]> l) k)
      as [Hwf' Hc'].
    { rewrite length_insert. exact Hcap. }
    eexists. split; [reflexivity|]. split; [exact Hwf'|].
    rewrite contents_split. split; [reflexivity|].
    rewrite Hc', length_insert.
    now destruct (well_formed_canonical l k Hcap) as [_ ->].
  - intros Hi. destruct (lookup_lt_is_Some_2 l (Z.to_nat index)) as [x Hx]; [lia|].
    exists x. split; [exact Hx|]. apply FastTable_get_inr. split; [lia | exact Hx].
  - intros Hi. unfold FastTable.get, FastTable.size.
    destruct (Z.geb_spec index (Z.of_nat (List.length l))); [reflexivity | lia].
  - intros Hi. unfold FastTable.get, FastTable.size.
    destruct (Z.geb_spec index (Z.of_nat (List.length l))); [lia|].
    destruct (Z.ltb_spec index 0); [reflexivity | lia].
Qed.

(** X17.  [remove(index)] closes the gap.  On a well-formed table, an
    index from 0 to the size excluded makes [remove] return the element
    at that position and leave a well-formed table with that position
    deleted: the elements before it stay, those after it move down by
    one, the slot that is freed holds a null handle again, and the
    capacity is unchanged.  Any other index raises as [get] does and
    leaves the table as it was. *)
Theorem FastTable_remove_closes_the_gap (t : @FastTable_API.FastTable E)
  (index : Z) :
  FastTable_API.well_formed t ->
  match FastTable.remove (FastTable_API.contents t) index with
  | inl e => FastTable_API.remove index t = Raised (Throws e) t
  | inr (x, l') =>
      exists t',
        FastTable_API.remove index t = Done x t'
        /\ FastTable_API.well_formed t'
        /\ FastTable_API.contents t' = l'
        /\ FastTable_API.contents t !! Z.to_nat index = Some x
        /\ l' = delete (Z.to_nat index) (FastTable_API.contents t)
        /\ FastTable_API.size t' = FastTable_API.size t - 1
        /\ FastTable_API.capacity t' = FastTable_API.capacity t
  end.
Proof.
  intros Hwf. apply well_formed_split in Hwf as (l & k & -> & Hcap).
  rewrite contents_split.
  destruct (FastTable.remove l index) as [e|[x l']] eqn:Er.
  - unfold FastTable.remove in Er.
    destruct (FastTable.get l index) as [e'|y] eqn:Eg; [|discriminate].
    injection Er as ->.
    unfold FastTable_API.remove. unfold and_then at 1. now rewrite get_eq, Eg.
  - unfold FastTable.remove in Er.
    destruct (FastTable.get l index) as [e'|y] eqn:Eg; [discriminate|].
    injection Er as -> <-. apply FastTable_get_inr in Eg as [Hpos Hx].
    destruct (list_elem_of_split_length l (Z.to_nat index) x Hx)
      as (l1 & l2 & -> & Hlen).
    replace index with (Z.of_nat (List.length l1)) by lia.
    rewrite remove_eq, Nat2Z.id.
    destruct (well_formed_canonical (l1 ++ l2) (S k)) as [Hwf' Hc'].
    { rewrite length_app in *. simpl in Hcap. lia. }
    eexists. split; [reflexivity|]. split; [exact Hwf'|].
    rewrite contents_split, delete_middle.
    split; [reflexivity|]. split.
    { rewrite lookup_app_r by lia. now rewrite Nat.sub_diag. }
    split; [reflexivity|]. unfold FastTable_API.size. cbn [FastTable_API.count].
    split; [rewrite !length_app; simpl; lia|].
    rewrite Hc'. destruct (well_formed_canonical _ k Hcap) as [_ ->].
    rewrite !length_app. simpl. lia.
Qed.

(** X18.  [clear()] empties the table.  On a well-formed table,
    [clear] returns and leaves a well-formed table of size 0 and of the
    same capacity, every slot of which holds a null handle;
    [isEmpty()] then answers true. *)
Theorem FastTable_clear_empties (t : @FastTable_API.FastTable E) :
  FastTable_API.well_formed t ->
  exists t',
    FastTable_API.clear t = Done tt t'
    /\ FastTable_API.well_formed t'
    /\ FastTable_API.contents t' = FastTable.clear (FastTable_API.contents t)
    /\ FastTable_API.isEmpty t' = true
    /\ FastTable_API.capacity t' = FastTable_API.capacity t
    /\ Forall (fun slot => slot = None) (FastTable_API.elements t').
Proof.
  intros Hwf. apply well_formed_split in Hwf as (l & k & -> & Hcap).
  rewrite clear_eq. eexists. split; [reflexivity|].
  destruct (well_formed_canonical [] (List.length l + k)) as [Hwf' Hc'].
  { simpl. lia. }
  split; [exact Hwf'|]. split; [reflexivity|]. split; [reflexivity|]. split.
  - change (FastTable_API.mkFastTable (replicate (List.length l + k) None) 0)
      with (FastTable_API.mkFastTable
              ([] ++ replicate (List.length l + k) (@None E))
              (Z.of_nat (List.length (@nil (option E))))).
    rewrite Hc'. now destruct (well_formed_canonical l k Hcap) as [_ ->].
  - simpl. apply Forall_forall. intros slot Hs.
    now apply elem_of_replicate in Hs as [-> _].
Qed.
End FastTableTheorems.

Section FastTableSearch.
Context {E : Type}.
Variable equals : E -> E -> bool.

(** The loop of [lastIndexOf(o)], from index [n - 1] down. *)
Lemma lastIndexOf_from_eq (o : option E) (l pad : list (option E)) (c : Z) :
  forall n : nat,
    (n <= List.length l)%nat ->
    (Forall (fun x => FastTable_API.same_element equals o x = false) (take n l)
     /\ FastTable_API.lastIndexOf_from equals o n
          (FastTable_API.mkFastTable (l ++ pad) c)
        = Done (-1) (FastTable_API.mkFastTable (l ++ pad) c))
    \/ exists pre y post,
         take n l = (pre ++ y :: post)%list
         /\ Forall (fun x => FastTable_API.same_element equals o x = false) post
         /\ FastTable_API.same_element equals o y = true
         /\ FastTable_API.lastIndexOf_from equals o n
              (FastTable_API.mkFastTable (l ++ pad) c)
            = Done (Z.of_nat (List.length pre))
                (FastTable_API.mkFastTable (l ++ pad) c).
Proof.
  induction n as [|n IH]; intros Hn.
  - left. split; [constructor | reflexivity].
  - destruct (lookup_lt_is_Some_2 l n) as [y Hy]; [lia|].
    rewrite (take_S_r _ _ _ Hy).
    assert (Hstep : FastTable_API.lastIndexOf_from equals o (S n)
                      (FastTable_API.mkFastTable (l ++ pad) c)
                    = if FastTable_API.same_element equals o y
                      then Done (Z.of_nat n)
                             (FastTable_API.mkFastTable (l ++ pad) c)
                      else FastTable_API.lastIndexOf_from equals o n
                             (FastTable_API.mkFastTable (l ++ pad) c)).
    { cbn [FastTable_API.lastIndexOf_from]. unfold and_then at 1.
      rewrite (load_in_range (FastTable_API.mkFastTable (l ++ pad) c) n y)
        by (cbn [FastTable_API.elements]; now apply lookup_app_l_Some).
      now destruct (FastTable_API.same_element equals o y). }
    rewrite Hstep. clear Hstep.
    destruct (FastTable_API.same_element equals o y) eqn:Ey.
    + right. exists (take n l), y, []. repeat split; auto.
      now rewrite length_take_le by lia.
    + destruct IH as [[Hall Hr]|(pre & y0 & post & Ht & Hpost & Hy0 & Hr)];
        [lia| |].
      * left. split; [|exact Hr]. apply Forall_app. split; [exact Hall|].
        now constructor.
      * right. exists pre, y0, (post ++ [y])%list. rewrite Ht.
        split; [now rewrite <- app_assoc|]. split; [|split; [exact Hy0 | exact Hr]].
        apply Forall_app. split; [exact Hpost | now constructor].
Qed.

Lemma lastIndexOf_eq (o : option E) (l : list (option E)) (k : nat) :
  let t := FastTable_API.mkFastTable (l ++ replicate k None)
             (Z.of_nat (List.length l)) in
  (Forall (fun x => FastTable_API.same_element equals o x = false) l
   /\ FastTable_API.lastIndexOf equals o t = Done (-1) t)
  \/ exists pre y post,
       l = (pre ++ y :: post)%list
       /\ Forall (fun x => FastTable_API.same_element equals o x = false) post
       /\ FastTable_API.same_element equals o y = true
       /\ FastTable_API.lastIndexOf equals o t = Done (Z.of_nat (List.length pre)) t.
Proof.
  intros t.
  assert (Ht : FastTable_API.lastIndexOf equals o t
               = FastTable_API.lastIndexOf_from equals o (List.length l) t).
  { unfold t, FastTable_API.lastIndexOf. unfold and_then at 1, fields.
    cbn [FastTable_API.count]. now rewrite Nat2Z.id. }
  rewrite Ht.
  pose proof (lastIndexOf_from_eq o l (replicate k None)
                (Z.of_nat (List.length l)) (List.length l) (le_n _)) as H.
  rewrite firstn_all in H. exact H.
Qed.

Lemma Forall_not_middle (P : option E -> bool) (l pre post : list (option E))
  (x : option E) :
  Forall (fun y => P y = false) l -> l = (pre ++ x :: post)%list ->
  P x = true -> False.
Proof.
  intros Hall -> Hx. apply Forall_app in Hall as [_ Hall].
  apply Forall_cons in Hall as [Hx' _]. congruence.
Qed.

(** X19.  [indexOf(o)] and [lastIndexOf(o)] on a well-formed table.
    An element matches [o] when both are null or when [o->equals] it.
    When no element of the table matches, both methods return -1.
    Otherwise [indexOf] returns the position of the first element that
    matches (none before it does) and [lastIndexOf] the position of the
    last one (none after it does).  Neither changes the table, and the
    null slots past the size are never taken for elements. *)
Theorem FastTable_indexOf_and_lastIndexOf (t : @FastTable_API.FastTable E)
  (o : option E) :
  FastTable_API.well_formed t ->
  let differs := fun x => FastTable_API.same_element equals o x = false in
  (Forall differs (FastTable_API.contents t)
   /\ FastTable_API.indexOf equals o t = Done (-1) t
   /\ FastTable_API.lastIndexOf equals o t = Done (-1) t)
  \/ ((exists pre x post,
         FastTable_API.contents t = (pre ++ x :: post)%list
         /\ Forall differs pre
         /\ FastTable_API.same_element equals o x = true
         /\ FastTable_API.indexOf equals o t
            = Done (Z.of_nat (List.length pre)) t)
      /\ (exists pre y post,
            FastTable_API.contents t = (pre ++ y :: post)%list
            /\ Forall differs post
            /\ FastTable_API.same_element equals o y = true
            /\ FastTable_API.lastIndexOf equals o t
               = Done (Z.of_nat (List.length pre)) t)).
Proof.
  intros Hwf differs. apply well_formed_split in Hwf as (l & k & -> & Hcap).
  rewrite contents_split, indexOf_eq.
  destruct (indexOf_cases (FastTable_API.same_element equals) o l)
    as [[Hall Hi]|(pre & x & post & Hl & Hpre & Hx & Hi)];
    destruct (lastIndexOf_eq o l k)
      as [[Hall' Hr]|(pre' & y & post' & Hl' & Hpost & Hy & Hr)].
  - left. rewrite Hi. auto.
  - destruct (Forall_not_middle _ _ _ _ _ Hall Hl' Hy).
  - destruct (Forall_not_middle _ _ _ _ _ Hall' Hl Hx).
  - right. split.
    + exists pre, x, post. rewrite Hi. auto.
    + exists pre', y, post'. auto.
Qed.

Lemma contains_eq (value : option E) (l : list (option E)) (k : nat) :
  FastTable_API.contains equals value
    (FastTable_API.mkFastTable (l ++ replicate k None) (Z.of_nat (List.length l)))
  = Done (existsb (FastTable_API.same_element equals value) l)
      (FastTable_API.mkFastTable (l ++ replicate k None)
         (Z.of_nat (List.length l))).
Proof.
  unfold FastTable_API.contains. unfold and_then at 1, fields at 1.
  cbn [FastTable_API.count]. rewrite Nat2Z.id.
  unfold FastTable_API.with_iterator, FastTable_API.iterator,
    FastTable_API.listIterator. cbn [FastTable_API.count].
  destruct (contains_loop_eq equals value (replicate k None)
              (Z.of_nat (List.length l)) l [] l (-1) eq_refl) as [i' Hi'].
  change (Z.of_nat (List.length (@nil (option E)))) with 0 in Hi'.
  now rewrite Hi'.
Qed.

Lemma toArray_eq (result l : list (option E)) (k : nat) :
  List.length result = List.length l ->
  FastTable_API.toArray result
    (FastTable_API.mkFastTable (l ++ replicate k None) (Z.of_nat (List.length l)))
  = Done l
      (FastTable_API.mkFastTable (l ++ replicate k None)
         (Z.of_nat (List.length l))).
Proof.
  intros Hlen. unfold FastTable_API.toArray. unfold and_then at 1, fields at 1.
  unfold FastTable_API.size, Array.length. cbn [FastTable_API.count].
  rewrite Hlen, Z.eqb_refl. cbn [negb]. rewrite Nat2Z.id.
  unfold FastTable_API.with_iterator, FastTable_API.iterator,
    FastTable_API.listIterator. cbn [FastTable_API.count].
  destruct (toArray_loop_eq (replicate k None) (Z.of_nat (List.length l))
              l [] l result (-1) eq_refl Hlen) as [i' Hi'].
  change (Z.of_nat (List.length (@nil (option E)))) with 0 in Hi'.
  now rewrite Hi'.
Qed.

Lemma existsb_Forall_false (P : option E -> bool) (l : list (option E)) :
  existsb P l = false <-> Forall (fun x => P x = false) l.
Proof.
  induction l as [|x l IH]; simpl.
  - split; [constructor | reflexivity].
  - rewrite orb_false_iff, Forall_cons, IH. reflexivity.
Qed.

(** X20.  [contains(value)] and [remove(element)], which the table
    inherits from AbstractCollection_API and which run on the table's
    iterator.  On a well-formed table [contains] tells whether some
    element matches (both null, or [value->equals] it) and changes
    nothing.  When no element matches, [remove] returns false and
    changes nothing; otherwise it returns true and takes out the first
    element that matches and only that one, keeping the order of the
    others and the capacity. *)
Theorem FastTable_contains_and_remove_element (t : @FastTable_API.FastTable E)
  (element : option E) :
  FastTable_API.well_formed t ->
  let matches := FastTable_API.same_element equals element in
  FastTable_API.contains equals element t
  = Done (existsb matches (FastTable_API.contents t)) t
  /\ ((existsb matches (FastTable_API.contents t) = false
       /\ FastTable_API.removeElement equals element t = Done false t)
      \/ exists pre x post t',
           FastTable_API.contents t = (pre ++ x :: post)%list
           /\ Forall (fun y => matches y = false) pre
           /\ matches x = true
           /\ FastTable_API.removeElement equals element t = Done true t'
           /\ FastTable_API.well_formed t'
           /\ FastTable_API.contents t' = (pre ++ post)%list
           /\ FastTable_API.capacity t' = FastTable_API.capacity t).
Proof.
  intros Hwf matches. apply well_formed_split in Hwf as (l & k & -> & Hcap).
  rewrite contents_split. split; [apply contains_eq|].
  rewrite removeElement_eq.
  destruct (indexOf_cases (FastTable_API.same_element equals) element l)
    as [[Hall _]|(pre & x & post & -> & Hpre & Hx & _)].
  - left. split; [now apply existsb_Forall_false|].
    now rewrite removeElement_absent.
  - right. rewrite (removeElement_first _ _ _ _ _ Hpre Hx).
    destruct (well_formed_canonical (pre ++ post) (S k)) as [Hwf' Hc'].
    { rewrite length_app in *. simpl in Hcap. lia. }
    exists pre, x, post. eexists. split; [reflexivity|].
    split; [exact Hpre|]. split; [exact Hx|]. split; [reflexivity|].
    split; [exact Hwf'|]. rewrite contents_split. split; [reflexivity|].
    rewrite Hc'. destruct (well_formed_canonical _ k Hcap) as [_ ->].
    rewrite !length_app. simpl. lia.
Qed.

(** X21.  [toArray(result)].  On a well-formed table, an array whose
    length is the table's size comes back holding the table's elements
    in order, whatever it held before; an array of any other length
    raises an UnsupportedOperationException.  The table is unchanged in
    both cases. *)
Theorem FastTable_toArray_copies (t : @FastTable_API.FastTable E)
  (result : list (option E)) :
  FastTable_API.well_formed t ->
  FastTable_API.toArray result t
  = if Array.length result =? FastTable_API.size t
    then Done (FastTable_API.contents t) t
    else Raised
           (Throws (mkThrowable UnsupportedOperationException_class
                      (Text "Method toArray(Type::Array<E>) requires array's length == size()")))
           t.
Proof.
  intros Hwf. apply well_formed_split in Hwf as (l & k & -> & Hcap).
  rewrite contents_split. unfold FastTable_API.size, Array.length.
  cbn [FastTable_API.count].
  destruct (Z.eqb_spec (Z.of_nat (List.length result)) (Z.of_nat (List.length l)))
    as [Heq|Hne].
  - apply toArray_eq. lia.
  - unfold FastTable_API.toArray. unfold and_then at 1, fields at 1.
    unfold FastTable_API.size, Array.length. cbn [FastTable_API.count].
    destruct (Z.eqb_spec (Z.of_nat (List.length result))
                (Z.of_nat (List.length l))); [lia|].
    reflexivity.
Qed.
End FastTableSearch.

(* ================================================================== *)
(** * The statements on samples *)

(** The registry of a sample world is well formed. *)
Ltac sample_wf :=
  unfold wf; vm_compute _bundles;
  repeat (constructor;
          [unfold bundle_ok; simpl; repeat split;
           try (repeat constructor; fail);
           try (intros c [= <-]; simpl; lia) |]);
  try constructor.

Ltac sample_within :=
  unfold within; vm_compute _bundles; split;
  [unfold sample_fuel; simpl; lia
  |repeat constructor; unfold sample_fuel; simpl; lia].



(** C2, on a sample: a MODIFIED event for the X service of bundle A
    reaches the one listener subscribed to X. *)
Lemma fireServiceEvent_delivery_sample :
  OSGiImpl_fireServiceEvent sample_fuel (mkServiceEvent ServiceEvent.MODIFIED 0)
    sample_started
  = Returned tt
      (record (mkServiceEvent ServiceEvent.MODIFIED 0) [quiet_listener 1]
         sample_started).
Proof.
  refine (proj1 (proj2 (proj2 (fireServiceEvent_delivery sample_fuel
                                 (mkServiceEvent ServiceEvent.MODIFIED 0)
                                 sample_started)
                          (mkServiceReference (Some 0%nat) "X" (Some 7%nat))
                          _ _ _ _)) _).
  - reflexivity.
  - vm_compute _bundles. repeat constructor.
  - sample_within.
  - vm_compute subscribers. repeat constructor. discriminate.
  - vm_compute subscribers. repeat constructor.
Defined.

(** C2, the statement as written fails, in two ways.  Both listeners of
    bundle C are subscribed to X: the first one raises, and the second
    one is never handed the event.  Both listeners of bundle D are
    subscribed to X and neither raises: the first one removes itself
    from the listeners of D when it is told of the event, the tables
    shrink under the loop, and the second one is never handed the
    event although the call returns. *)
Lemma delivery_misses_matching_listeners :
  (map listener_id
     (subscribers (FilterImpl.canonical "X")
        (_bundles (memory sample_two_listeners)))
   = [1%nat; 2%nat]
   /\ exists e w',
        OSGiImpl_fireServiceEvent sample_fuel
          (mkServiceEvent ServiceEvent.REGISTERED 0) sample_two_listeners
        = Thrown e w'
        /\ map (fun d => listener_id (d_listener d)) (delivered w') = [1%nat])
  /\ (map listener_id
        (subscribers (FilterImpl.canonical "X")
           (_bundles (memory sample_leaving)))
      = [1%nat; 2%nat]
      /\ exists w',
           OSGiImpl_fireServiceEvent sample_fuel
             (mkServiceEvent ServiceEvent.REGISTERED 0) sample_leaving
           = Returned tt w'
           /\ map (fun d => listener_id (d_listener d)) (delivered w') = [1%nat]
           /\ map listener_id
                (subscribers (FilterImpl.canonical "X") (_bundles (memory w')))
              = [2%nat]).
Proof.
  split.
  - split; [reflexivity|]. eexists. eexists. split; [vm_compute; reflexivity|].
    reflexivity.
  - split; [reflexivity|]. eexists. split; [vm_compute; reflexivity|].
    split; reflexivity.
Qed.

(** C5, the statement as written fails: a string that is not of the form
    [(objectClass=<value>)] compiles. *)
Lemma compile_accepts_other_shapes :
  FilterImpl.compile "[objectClass:foo]"
  = inr (FilterImpl.mkFilter "foo" "[objectClass:foo]")
  /\ (forall value, "[objectClass:foo]" <> FilterImpl.canonical value)
  /\ FilterImpl.compile "(objectClass="
     = inl (IndexOutOfBoundsException_newInstance
              (Text "beginIndex is larger than endIndex."))
  /\ FilterImpl.compile "(service=foo)"
     = inl (mkThrowable UnsupportedOperationException_class NoMessage).
Proof.
  split; [reflexivity|]. split; [|split; reflexivity].
  intros value H. discriminate H.
Qed.

(** C4, on a sample. *)
Lemma registered_adds_then_caches_sample :
  ServiceTracker.serviceChanged sample_tracker
    (mkServiceEvent ServiceEvent.REGISTERED 5)
  = (None,
     ServiceTracker.mkTracker sample_customizer
       (<[5%nat := Some 7%nat]> ∅) (ServiceTracker.int32 (0 + 1)) (Some 7%nat)
       [ServiceTracker.mkNotification (ServiceTracker.AddingService 5) ∅ None 0]).
Proof.
  exact (registered_adds_then_caches sample_tracker 5 (Some 7%nat) eq_refl).
Defined.

(** C4, the statement as written fails: after a REGISTERED event the
    single-entry cache holds the object just added; it is not cleared. *)
Lemma registered_fills_the_cache :
  ServiceTracker._cachedService sample_tracker = None
  /\ ServiceTracker._cachedService
       (snd (ServiceTracker.serviceChanged sample_tracker
               (mkServiceEvent ServiceEvent.REGISTERED 5)))
     = Some 7%nat.
Proof. split; reflexivity. Qed.

(** C6, on a sample: bundle B is started next to A with an activator
    that throws an error created without message; [start] raises a
    NullPointerException to its caller, nothing is logged, and B is left
    STARTING.  Bundle E is ACTIVE and its stop hook throws an exception
    created without message; [stop] raises a NullPointerException to its
    caller and nothing is logged. *)
Lemma start_raises_without_message_sample :
  (exists w',
      OSGiImpl_start sample_fuel "B"
        (mkBundleActivator 1 [CallThrow sample_silent_error] []) sample_started
      = Thrown NullPointerException_nullHandle w'
      /\ logged w' = []
      /\ _state (bundle_at 1 w') = Bundle.STARTING)
  /\ _state (bundle_at 0 sample_stoppable) = Bundle.ACTIVE
  /\ exists w',
       OSGiImpl_stop sample_fuel "E" sample_stoppable
       = Thrown NullPointerException_nullHandle w'
       /\ logged w' = []
       /\ _state (bundle_at 0 w') = Bundle.RESOLVED.
Proof.
  split; [|split; [vm_compute; reflexivity|]].
  - destruct (start_stop_raise_without_message sample_fuel "B"
                (mkBundleActivator 1 [CallThrow sample_silent_error] [])
                sample_started) as (_ & _ & H).
    eexists. split.
    + apply (H sample_silent_error []); reflexivity.
    + split; reflexivity.
  - destruct (start_stop_raise_without_message sample_fuel "E"
                (mkBundleActivator 4 [] []) sample_stoppable) as (_ & H & _).
    eexists. split.
    + refine (H sample_silent_exception _ _). vm_compute. reflexivity.
    + split; vm_compute; reflexivity.
Defined.

(** C8, on a sample: the first [unregister()] of the X service of bundle
    A tells the listener of A and returns; the second one has no defined
    behaviour, and no listener has been told anything more. *)
Lemma unregister_twice_sample :
  ServiceRegistrationImpl_unregister sample_fuel (mkServiceRegistration 0)
    sample_started
  = Some (Returned tt sample_unregistered)
  /\ map (fun d => (listener_id (d_listener d), d_event d))
       (delivered sample_unregistered)
     = [(1%nat, mkServiceEvent ServiceEvent.REGISTERED 0);
        (1%nat, mkServiceEvent ServiceEvent.UNREGISTERING 0)]
  /\ the_owner 0 sample_unregistered = None
  /\ ServiceRegistrationImpl_unregister sample_fuel (mkServiceRegistration 0)
       sample_unregistered
     = None.
Proof.
  assert (H : ServiceRegistrationImpl_unregister sample_fuel
                (mkServiceRegistration 0) sample_started
              = Some (Returned tt sample_unregistered))
    by (vm_compute; reflexivity).
  destruct (unregister_twice sample_fuel sample_fuel (mkServiceRegistration 0)
              sample_started sample_unregistered H) as (_ & H1 & H2).
  split; [exact H|]. split; [reflexivity|]. split; [exact H1 | exact H2].
Defined.

(** C10, on a sample: bundle A is ACTIVE when it is started again. *)
Lemma start_of_unresolved_bundle_sample :
  exists w',
    OSGiImpl_start sample_fuel "A" (sample_failing_activator sample_exception)
      sample_started
    = Returned tt w'
    /\ _state (bundle_at 0 sample_started) = Bundle.ACTIVE
    /\ _state (bundle_at 0 w') = Bundle.ACTIVE
    /\ _context (bundle_at 0 sample_started) = Some (mkBundleContext 0 0)
    /\ _context (bundle_at 0 w') = Some (mkBundleContext 1 0)
    /\ _activator (bundle_at 0 w') = sample_activatorA
    /\ List.length (_bundles (memory w')) = 1%nat
    /\ logged w'
       = [Exception_newInstance "Bundle A not in a resolved state"].
Proof.
  destruct (start_of_unresolved_bundle sample_fuel "A"
              (sample_failing_activator sample_exception) sample_started 0
              (bundle_at 0 sample_started))
    as [Heq _].
  - reflexivity.
  - reflexivity.
  - vm_compute. discriminate.
  - intros c H. vm_compute in H. injection H as <-. vm_compute. lia.
  - eexists. split; [exact Heq|]. vm_compute. repeat split; reflexivity.
Defined.

(* ================================================================== *)
(** * Further statements on samples *)

(** X1 on a sample: bundle A published one X service. *)
Lemma getServiceReferences_lists_registered_sample :
  BundleContextImpl_getServiceReferences sample_context (Some "X") None
    sample_started
  = Some (Returned (Some [0%nat]) sample_started)
  /\ BundleContextImpl_getServiceReferences sample_context None None
       sample_started
     = Some (Returned None sample_started).
Proof.
  destruct (getServiceReferences_lists_registered sample_context "X"
              sample_started) as (H1 & H2 & _).
  - sample_wf.
  - split; [exact H1 | exact H2].
Defined.

(** X2 on a sample: a filter for another class empties the result. *)
Lemma getServiceReferences_with_filter_sample :
  BundleContextImpl_getServiceReferences sample_context (Some "X")
    (Some "(objectClass=Y)") sample_started
  = Some (Returned None sample_started).
Proof.
  apply (getServiceReferences_with_filter sample_context "X" "(objectClass=Y)"
           sample_started).
  sample_wf.
Defined.

(** X3 on a sample. *)
Lemma getServiceReference_is_first_sample :
  BundleContextImpl_getServiceReference sample_context (Some "X") sample_started
  = Some (Returned (Some 0%nat) sample_started).
Proof.
  apply (getServiceReference_is_first sample_context "X" sample_started).
  sample_wf.
Defined.

(** X4 on a sample: bundle A removes its listener. *)
Lemma removeServiceListener_removes_first_sample :
  BundleContextImpl_removeServiceListener sample_context (quiet_listener 1)
    sample_started
  = Returned tt
      (replace_bundle 0
         (with_serviceListenerFilters []
            (with_serviceListeners [] (bundle_at 0 sample_started)))
         sample_started)
  /\ BundleContextImpl_removeServiceListener sample_context (quiet_listener 2)
       sample_started
     = Thrown (mkThrowable ArrayIndexOutOfBoundsException_class (ArrayIndex (-1)))
         sample_started.
Proof.
  destruct (removeServiceListener_removes_first sample_context (quiet_listener 1)
              (bundle_at 0 sample_started) sample_started) as [_ H];
    [vm_compute; reflexivity | vm_compute; reflexivity |].
  destruct (removeServiceListener_removes_first sample_context (quiet_listener 2)
              (bundle_at 0 sample_started) sample_started) as [H' _];
    [vm_compute; reflexivity | vm_compute; reflexivity |].
  split.
  - apply (H [] (quiet_listener 1) []);
      [vm_compute; reflexivity | constructor | reflexivity].
  - apply H'. vm_compute _serviceListeners. repeat constructor.
Defined.

(** X5 on a sample. *)
Lemma addServiceListener_then_remove_sample :
  (BundleContextImpl_addServiceListener sample_context (quiet_listener 2)
     (Some "(objectClass=X)") ;;
   BundleContextImpl_removeServiceListener sample_context (quiet_listener 2))
    sample_started
  = Returned tt sample_started.
Proof.
  apply (addServiceListener_then_remove sample_context (quiet_listener 2)
           (Some "(objectClass=X)") (bundle_at 0 sample_started) sample_started).
  - vm_compute. reflexivity.
  - vm_compute. reflexivity.
  - vm_compute _serviceListeners. repeat constructor.
Defined.

(** X7 on samples: bundle B starts with the activator of A; with an
    activator that throws an Error it is left STARTING. *)
Lemma start_activates_sample :
  BundleImpl_start sample_fuel 1 (sample_resolved sample_activatorA)
  = Returned tt
      (replace_bundle 1
         (with_state Bundle.ACTIVE (bundle_at 1 sample_hook_returned))
         sample_hook_returned)
  /\ BundleImpl_start sample_fuel 1
       (sample_resolved (sample_failing_activator sample_error))
     = Thrown sample_error (sample_hook_raised sample_error)
  /\ _state (bundle_at 1 (sample_hook_raised sample_error)) = Bundle.STARTING.
Proof.
  split.
  - destruct (start_activates sample_fuel 1
                (bundle_at 1 (sample_resolved sample_activatorA))
                (sample_resolved sample_activatorA)) as [H _].
    + vm_compute. reflexivity.
    + vm_compute. reflexivity.
    + pose proof (H sample_hook_returned) as H'.
      assert (H1 : BundleActivator_start (OSGiImpl_fireServiceEvent sample_fuel)
                     (_activator (bundle_at 1 (sample_resolved sample_activatorA)))
                     (_context (bundle_at 1 (sample_resolved sample_activatorA)))
                     (replace_bundle 1
                        (with_state Bundle.STARTING
                           (bundle_at 1 (sample_resolved sample_activatorA)))
                        (sample_resolved sample_activatorA))
                   = Returned tt sample_hook_returned)
        by (vm_compute; reflexivity).
      destruct (H' H1) as (this2 & H2 & _ & _ & Hs).
      rewrite Hs. unfold bundle_at. rewrite H2. reflexivity.
  - destruct (start_activates sample_fuel 1
                (bundle_at 1
                   (sample_resolved (sample_failing_activator sample_error)))
                (sample_resolved (sample_failing_activator sample_error)))
      as [_ H].
    + vm_compute. reflexivity.
    + vm_compute. reflexivity.
    + pose proof (H sample_error (sample_hook_raised sample_error)) as H'.
      assert (H1 : BundleActivator_start (OSGiImpl_fireServiceEvent sample_fuel)
                     (_activator
                        (bundle_at 1
                           (sample_resolved
                              (sample_failing_activator sample_error))))
                     (_context
                        (bundle_at 1
                           (sample_resolved
                              (sample_failing_activator sample_error))))
                     (replace_bundle 1
                        (with_state Bundle.STARTING
                           (bundle_at 1
                              (sample_resolved
                                 (sample_failing_activator sample_error))))
                        (sample_resolved (sample_failing_activator sample_error)))
                   = Thrown sample_error (sample_hook_raised sample_error))
        by (vm_compute; reflexivity).
      assert (H2 : instanceOf (t_class sample_error) Exception_class = false)
        by reflexivity.
      destruct (H' H1 H2) as (Hs & this2 & H3 & _ & _ & Hstate).
      split; [exact Hs|]. unfold bundle_at. rewrite H3. exact Hstate.
Defined.

(** X8 on a sample: bundle A is stopped. *)
Lemma stop_cleans_up_sample :
  exists w',
    BundleImpl_stop sample_fuel 0 sample_started = Returned tt w'
    /\ _bundles (memory w') !! 0%nat
       = Some (mkBundle "A" sample_activatorA Bundle.RESOLVED [] [] []
                 (Some sample_context))
    /\ map (fun d => (listener_id (d_listener d), d_event d))
         (drop (List.length (delivered sample_started)) (delivered w'))
       = [(1%nat, mkServiceEvent ServiceEvent.UNREGISTERING 0)].
Proof.
  destruct (stop_cleans_up sample_fuel 0 (bundle_at 0 sample_started)
              sample_started) as (_ & H & _);
    [sample_wf | vm_compute; reflexivity |].
  destruct (H eq_refl None
              (replace_bundle 0
                 (with_state Bundle.STOPPING (bundle_at 0 sample_started))
                 sample_started)
              (with_state Bundle.STOPPING (bundle_at 0 sample_started)))
    as (w' & ds & Hstop & Hb & _ & _ & Hd & Hpairs & _).
  - vm_compute. reflexivity.
  - intros e [=].
  - vm_compute. reflexivity.
  - sample_within.
  - vm_compute unregistering. repeat constructor.
  - exists w'. split; [exact Hstop|]. split; [exact Hb|].
    rewrite Hd.
    change (delivered
              (replace_bundle 0
                 (with_state Bundle.STOPPING (bundle_at 0 sample_started))
                 sample_started))
      with (delivered sample_started).
    rewrite drop_app_length.
    change (fun d => (listener_id (d_listener d), d_event d))
      with (fun d => (fun p : ServiceListener_API * ServiceEvent_API =>
                        (listener_id (fst p), snd p)) (d_pair d)).
    rewrite <- (map_map d_pair), Hpairs. vm_compute. reflexivity.
Defined.

(** X10 on a sample: bundle A publishes a second X service, of which its
    listener is told. *)
Lemma registerService_publishes_sample :
  BundleContextImpl_registerService (OSGiImpl_fireServiceEvent sample_fuel)
    sample_context "X" (Some 3%nat) sample_started
  = Returned (mkServiceRegistration 1) sample_registered
  /\ BundleContextImpl_getService sample_context 1 sample_registered
     = Returned (Some 3%nat) sample_registered
  /\ map (fun d => (listener_id (d_listener d), d_event d))
       (drop (List.length (delivered sample_started))
          (delivered sample_registered))
     = [(1%nat, mkServiceEvent ServiceEvent.REGISTERED 1)].
Proof.
  destruct (registerService_publishes sample_fuel sample_context "X"
              (Some 3%nat) (bundle_at 0 sample_started) sample_started)
    as [H1 H2].
  - vm_compute. reflexivity.
  - vm_compute _bundles. repeat constructor.
  - unfold within. vm_compute _bundles. split;
      [unfold sample_fuel; simpl; lia
      |repeat constructor; unfold sample_fuel; simpl; lia].
  - vm_compute subscribers. repeat constructor. discriminate.
  - split; [rewrite H1; vm_compute; reflexivity|].
    split; vm_compute; reflexivity.
Defined.

(** X11 on a sample: the X service of bundle A is unregistered. *)
Lemma unregister_removes_the_service_sample :
  ServiceRegistrationImpl_unregister sample_fuel (mkServiceRegistration 0)
    sample_started
  = Some (Returned tt sample_unregistered).
Proof.
  rewrite (unregister_removes_the_service sample_fuel (mkServiceRegistration 0)
             (mkServiceReference (Some 0%nat) "X" (Some 7%nat)) 0
             (bundle_at 0 sample_started) [] [] sample_started).
  - vm_compute. reflexivity.
  - vm_compute. reflexivity.
  - reflexivity.
  - vm_compute. reflexivity.
  - vm_compute. reflexivity.
  - apply not_elem_of_nil.
  - vm_compute _bundles. repeat constructor.
  - sample_within.
  - vm_compute subscribers. repeat constructor. discriminate.
Defined.

(** X14 on a sample: a service comes and goes. *)
Lemma tracking_count_counts_events_sample :
  ServiceTracker._trackingCount
    (tracker_after sample_tracker
       [mkServiceEvent ServiceEvent.REGISTERED 5;
        mkServiceEvent ServiceEvent.UNREGISTERING 5])
  = 2.
Proof.
  destruct (tracking_count_counts_events sample_tracker
              [mkServiceEvent ServiceEvent.REGISTERED 5;
               mkServiceEvent ServiceEvent.UNREGISTERING 5]) as [H _].
  - simpl. lia.
  - exact H.
Defined.

(** The sample tables are well formed. *)
Ltac sample_table_wf :=
  split; [vm_compute; split; discriminate|];
  split; [vm_compute; split; [discriminate | reflexivity]|];
  intros [|[|[|[|i]]]] Hi; simpl in Hi; try lia; reflexivity.

(** X15 on samples: an element is added where a slot is free, and to a
    table whose array is full. *)
Lemma FastTable_add_appends_sample :
  (exists t',
      FastTable_API.add (Some 5%nat) sample_table = Done true t'
      /\ FastTable_API.contents t' = [Some 1%nat; None; Some 2%nat; Some 5%nat]
      /\ FastTable_API.capacity t' = 4)
  /\ exists t',
       FastTable_API.add (Some 5%nat) sample_full_table = Done true t'
       /\ FastTable_API.contents t'
          = [Some 1%nat; None; Some 2%nat; Some 1%nat; Some 5%nat]
       /\ FastTable_API.capacity t' = 8.
Proof.
  split.
  - destruct (FastTable_add_appends sample_table (Some 5%nat))
      as (t' & H1 & _ & H3 & _ & H5); [sample_table_wf | reflexivity |].
    exists t'. split; [exact H1|]. split; [exact H3 | exact H5].
  - destruct (FastTable_add_appends sample_full_table (Some 5%nat))
      as (t' & H1 & _ & H3 & _ & H5); [sample_table_wf | reflexivity |].
    exists t'. split; [exact H1|]. split; [exact H3 | exact H5].
Defined.

(** X16 on a sample. *)
Lemma FastTable_get_and_set_sample :
  FastTable_API.get 2 sample_table = Done (Some 2%nat) sample_table
  /\ FastTable_API.get 3 sample_table
     = Raised
         (Throws (IndexOutOfBoundsException_newInstance (IndexListSize 3 3)))
         sample_table
  /\ FastTable_API.get (-1) sample_table
     = Raised
         (Throws (mkThrowable ArrayIndexOutOfBoundsException_class
                    (ArrayIndex (-1))))
         sample_table
  /\ exists t',
       FastTable_API.set 1 (Some 9%nat) sample_table = Done None t'
       /\ FastTable_API.contents t' = [Some 1%nat; Some 9%nat; Some 2%nat].
Proof.
  split; [|split; [|split]].
  - destruct (FastTable_get_and_set sample_table 2 None) as [H _];
      [sample_table_wf | exact H].
  - destruct (FastTable_get_and_set sample_table 3 None) as [H _];
      [sample_table_wf | exact H].
  - destruct (FastTable_get_and_set sample_table (-1) None) as [H _];
      [sample_table_wf | exact H].
  - destruct (FastTable_get_and_set sample_table 1 (Some 9%nat))
      as (_ & (t' & H1 & _ & H3 & _) & _); [sample_table_wf |].
    exists t'. split; [exact H1 | exact H3].
Defined.

(** X17 on a sample: the first element is removed. *)
Lemma FastTable_remove_closes_the_gap_sample :
  exists t',
    FastTable_API.remove 0 sample_table = Done (Some 1%nat) t'
    /\ FastTable_API.contents t' = [None; Some 2%nat]
    /\ FastTable_API.capacity t' = 4.
Proof.
  destruct (FastTable_remove_closes_the_gap sample_table 0)
    as (t' & H1 & _ & H3 & _ & _ & _ & H7); [sample_table_wf |].
  exists t'. split; [exact H1|]. split; [exact H3 | exact H7].
Defined.

(** X18 on a sample. *)
Lemma FastTable_clear_empties_sample :
  exists t',
    FastTable_API.clear sample_table = Done tt t'
    /\ FastTable_API.contents t' = []
    /\ FastTable_API.capacity t' = 4.
Proof.
  destruct (FastTable_clear_empties sample_table)
    as (t' & H1 & _ & H3 & _ & H5 & _); [sample_table_wf |].
  exists t'. split; [exact H1|]. split; [exact H3 | exact H5].
Defined.

(** X19 on a sample: the table holds 1 at the ends of a full array. *)
Lemma FastTable_indexOf_and_lastIndexOf_sample :
  FastTable_API.indexOf Nat.eqb (Some 1%nat) sample_full_table
  = Done 0 sample_full_table
  /\ FastTable_API.lastIndexOf Nat.eqb (Some 1%nat) sample_full_table
     = Done 3 sample_full_table.
Proof.
  destruct (FastTable_indexOf_and_lastIndexOf Nat.eqb sample_full_table
              (Some 1%nat))
    as [(Hall & _)
       |((pre & x & post & Hc & Hpre & Hx & Hi)
         & (pre' & y & post' & Hc' & Hpost & Hy & Hl))];
    [sample_table_wf | |].
  - apply Forall_cons in Hall as [Hd _]. discriminate Hd.
  - split.
    + rewrite Hi. destruct pre as [|a pre]; [reflexivity|].
      injection Hc as <- _. apply Forall_cons in Hpre as [Hd _].
      discriminate Hd.
    + rewrite Hl.
      destruct pre' as [|a [|b [|c [|d' pre']]]]; simpl in Hc'.
      * injection Hc' as <- <-. apply Forall_cons in Hpost as [_ Hpost].
        apply Forall_cons in Hpost as [_ Hpost].
        apply Forall_cons in Hpost as [Hd _]. discriminate Hd.
      * injection Hc' as _ <- _. discriminate Hy.
      * injection Hc' as _ _ <- <-. apply Forall_cons in Hpost as [Hd _].
        discriminate Hd.
      * reflexivity.
      * injection Hc' as _ _ _ _ Hc'. destruct pre'; discriminate Hc'.
Defined.

(** X20 on a sample. *)
Lemma FastTable_contains_and_remove_element_sample :
  FastTable_API.contains Nat.eqb None sample_table = Done true sample_table
  /\ FastTable_API.contains Nat.eqb (Some 7%nat) sample_table
     = Done false sample_table
  /\ FastTable_API.removeElement Nat.eqb (Some 7%nat) sample_table
     = Done false sample_table.
Proof.
  split; [|split].
  - destruct (FastTable_contains_and_remove_element Nat.eqb sample_table None)
      as [H _]; [sample_table_wf | exact H].
  - destruct (FastTable_contains_and_remove_element Nat.eqb sample_table
                (Some 7%nat)) as [H _]; [sample_table_wf | exact H].
  - destruct (FastTable_contains_and_remove_element Nat.eqb sample_table
                (Some 7%nat))
      as [_ [[_ H]|(pre & x & post & t' & Hc & Hpre & Hx & _)]];
      [sample_table_wf | exact H |].
    destruct pre as [|a [|b [|c pre]]]; simpl in Hc.
    + injection Hc as <- _. discriminate Hx.
    + injection Hc as _ <- _. discriminate Hx.
    + injection Hc as _ _ <- _. discriminate Hx.
    + injection Hc as _ _ _ Hc. destruct pre; discriminate Hc.
Defined.

(** X21 on a sample. *)
Lemma FastTable_toArray_copies_sample :
  FastTable_API.toArray [None; None; Some 4%nat] sample_table
  = Done [Some 1%nat; None; Some 2%nat] sample_table
  /\ FastTable_API.toArray [None; None] sample_table
     = Raised
         (Throws (mkThrowable UnsupportedOperationException_class
                    (Text "Method toArray(Type::Array<E>) requires array's length == size()")))
         sample_table.
Proof.
  split.
  - rewrite (FastTable_toArray_copies sample_table [None; None; Some 4%nat])
      by sample_table_wf.
    reflexivity.
  - rewrite (FastTable_toArray_copies sample_table [None; None])
      by sample_table_wf.
    reflexivity.
Defined.
